(** * Bulk deployment pipeline ([automated_deploy_v2.js], status-file variant)

    A shallow embedding of the resumable pipeline that publishes every
    project folder of a working root to GitHub, Vercel and Netlify,
    records per-folder progress in [.deploy_progress.json] and moves
    finished folders to ["upload done"].

    The script talks to the outside world through [execSync], [fs] and
    [process.chdir].  Those calls are modelled by an explicit state (current
    directory, the folders with their progress file, the in-memory [status]
    object), a log of the calls made, and an [Oracle] that fixes the outcome
    of every external call.  Of the console output, only the four messages
    that tell how an iteration or a move ended are kept. *)

From Stdlib Require Import NArith Ascii String.
From stdpp Require Import base option list strings pretty gmap.

Open Scope string_scope.

(** ** JavaScript strings

    Names are strings of 8-bit code units (the ISO-8859-1 range of
    JavaScript's code units). *)

Definition code (c : ascii) : N := N_of_ascii c.

Definition inRange (lo hi : N) (c : ascii) : bool :=
  ((lo <=? code c) && (code c <=? hi))%N.

(** [String.prototype.toLowerCase], one code unit: A-Z and the accented
    capitals 0xC0-0xDE (0xD7, the multiplication sign, is not a letter). *)
Definition lowerChar (c : ascii) : ascii :=
  if inRange 65 90 c then ascii_of_N (code c + 32)
  else if inRange 192 222 c && negb (code c =? 215)%N then ascii_of_N (code c + 32)
  else c.

Fixpoint toLowerCase (s : string) : string :=
  match s with
  | EmptyString => EmptyString
  | String c r => String (lowerChar c) (toLowerCase r)
  end.

(** The class [\s]: TAB, LF, VT, FF, CR, SPACE and NBSP. *)
Definition isSpace (c : ascii) : bool :=
  inRange 9 13 c || (code c =? 32)%N || (code c =? 160)%N.

Definition isDash (c : ascii) : bool := (code c =? 45)%N.

(** The class [[a-z0-9-]]. *)
Definition isSlugChar (c : ascii) : bool :=
  inRange 97 122 c || inRange 48 57 c || isDash c.

Definition startsWith (p : ascii -> bool) (s : string) : bool :=
  match s with
  | EmptyString => false
  | String c _ => p c
  end.

(** [s.replace(/C+/g, '-')]: every maximal run of characters of the class
    [p] becomes one dash. *)
Fixpoint replaceRuns (p : ascii -> bool) (s : string) : string :=
  match s with
  | EmptyString => EmptyString
  | String c r =>
      if p c then
        if startsWith p r then replaceRuns p r
        else String "-" (replaceRuns p r)
      else String c (replaceRuns p r)
  end.

(** [s.replace(/[^a-z0-9-]/g, '')]. *)
Fixpoint keepSlugChars (s : string) : string :=
  match s with
  | EmptyString => EmptyString
  | String c r =>
      if isSlugChar c then String c (keepSlugChars r) else keepSlugChars r
  end.

Fixpoint dropTrailingDash (s : string) : string :=
  match s with
  | EmptyString => EmptyString
  | String c EmptyString => if isDash c then EmptyString else s
  | String c r => String c (dropTrailingDash r)
  end.

(** [s.replace(/^-|-$/g, '')]: the scan removes a dash at index 0, then a
    dash at the last index among what is left to scan. *)
Definition trimDashes (s : string) : string :=
  match s with
  | String c r => if isDash c then dropTrailingDash r else dropTrailingDash s
  | EmptyString => EmptyString
  end.

Definition isEmpty (s : string) : bool :=
  match s with EmptyString => true | _ => false end.

(** The "Clean name" block of the main loop, with its fallback
    [project-${index}]. *)
Definition cleanName (folder : string) (index : nat) : string :=
  let baseName :=
    trimDashes (replaceRuns isDash (keepSlugChars
      (replaceRuns isSpace (toLowerCase folder)))) in
  if isEmpty baseName then "project-" +:+ pretty index else baseName.

(** [hay.includes(needle)]. *)
Fixpoint includes (hay needle : string) : bool :=
  String.prefix needle hay ||
  match hay with
  | EmptyString => false
  | String _ r => includes r needle
  end.

(** [path.join(a, b)] for a directory and an entry name (no normalisation
    is needed for such arguments). *)
Definition path_join (a b : string) : string := a +:+ "/" +:+ b.

(** The product of two doubles is the double nearest to the exact product,
    ties going to the even significand.  [roundDouble n] is that double for
    the exact value [n / 2^53], given as the integer it makes with the same
    scale: the 53 leading bits of [n] are kept and the [e] bits below them
    are rounded off. *)
Definition roundDouble (n : N) : N :=
  (let e := N.size n - 53 in
   if e =? 0 then n
   else
     let q := N.shiftr n e in
     let rest := N.land n (N.ones e) in
     let half := 2 ^ (e - 1) in
     let q' := if rest <? half then q
               else if half <? rest then q + 1
               else if N.even q then q else q + 1 in
     N.shiftl q' e)%N.

(** [Math.floor(Math.random() * 100000)], the random number being the
    double [r / 2^53] for the 53 random bits [r] of the generator. *)
Definition randomSuffix (r : N) : N :=
  (roundDouble ((r mod 2 ^ 53) * 100000) / 2 ^ 53)%N.

(** ** The progress record *)

Record Status := mkStatus {
  github : bool;
  vercel : bool;
  netlify : bool;
  repoName : option string   (* [None] is [null] *)
}.

Definition defaultStatus : Status :=
  {| github := false; vercel := false; netlify := false; repoName := None |}.

(** What [fs.existsSync] / [fs.readFileSync] / [JSON.parse] find at
    [.deploy_progress.json]: no file, a file that cannot be read, a text
    [JSON.parse] rejects, the text of a record, or the text [null], which
    [JSON.parse] accepts.  A record is an object read through the four
    fields the script reads and writes: three flags and a name or [null].
    The text of another value (a number, a string, a boolean, an array) is
    not modelled; reading a field of such a value does not raise. *)
Inductive Sidecar :=
| Absent
| Unreadable
| Malformed
| Content (st : Status)
| Null.

(** "Read status file": both [catch (e) { }] leave the default in place.
    For the text [null] the script binds [status] to [null], which has no
    field to read; the record of the model then stays the default one, and
    [loadStatus] raises where the script first reads a field. *)
Definition readStatus (sc : Sidecar) : Status :=
  match sc with
  | Absent => defaultStatus        (* existsSync is false *)
  | Unreadable => defaultStatus    (* readFileSync throws *)
  | Malformed => defaultStatus     (* JSON.parse throws *)
  | Content st => st
  | Null => defaultStatus          (* status = null *)
  end.

(** [status.repoName || baseName]: [null] and [""] are falsy. *)
Definition orName (name : option string) (baseName : string) : string :=
  match name with
  | Some n => if isEmpty n then baseName else n
  | None => baseName
  end.

(** [status.github && status.vercel && status.netlify]. *)
Definition allDone (st : Status) : bool :=
  github st && vercel st && netlify st.

(** ** External calls *)

Inductive Cmd :=
| GitInit
| GitAdd
| GitCommit
| GhRepoCreate (name : string)
| GitPushMaster
| GitPushMain
| VercelProjectAdd (name : string)
| VercelDeploy
| NetlifySitesCreate (name : string)
| NetlifyLink (siteId : string)
| NetlifyDeploy
| Taskkill.

Inductive Msg :=
| MsgMoved           (* Moved to "upload done". *)
| MsgMoveFailed      (* FAILED TO MOVE ... after retries. *)
| MsgKeeping         (* Not all steps complete. Keeping folder for retry. *)
| MsgCritical.       (* CRITICAL ERROR on ... *)

Inductive Event :=
| Exec (c : Cmd)
| Chdir (dir : string)
| Sleep (ms : N)
| Rename (src dst : string)
| WriteStatus (dir : string) (st : Status)
| WriteGitignore (dir : string)
| Console (m : Msg).

Inductive Exn :=
| ExecError (stderr : string)     (* a command exited with a non-zero status *)
| SysError (errcode : string)     (* a Node [fs] / [process] error with [e.code] *)
| TypeError.                      (* a property of [null] was read *)

(** [e.stderr ? e.stderr.toString() : ""]. *)
Definition errOutputOf (e : Exn) : string :=
  match e with
  | ExecError stderr => stderr
  | SysError _ => ""
  | TypeError => ""
  end.

(** [e.code === 'EBUSY' || e.code === 'EPERM' || e.code === 'EACCES']. *)
Definition isLockError (e : Exn) : bool :=
  match e with
  | SysError c =>
      bool_decide (c = "EBUSY") || bool_decide (c = "EPERM") || bool_decide (c = "EACCES")
  | ExecError _ => false
  | TypeError => false
  end.

Inductive Stage := VersionControl | HostA | HostB.

(** Outcome of every external call made while one folder is processed.
    For a command, [None] is exit status 0 and [Some stderr] a failure; for
    a file-system call, [None] is success and [Some code] the error code. *)
Record Oracle := mkOracle {
  chdir_project : option string;        (* process.chdir(projectPath) *)
  has_git : bool;                       (* existsSync(projectPath/.git) *)
  has_gitignore : bool;                 (* existsSync(projectPath/.gitignore) *)
  has_netlify : bool;                   (* existsSync(projectPath/.netlify) *)
  git_init : option string;
  write_gitignore : option string;
  git_add : option string;
  git_commit : option string;
  gh_create : nat -> option string;     (* by number of earlier collisions *)
  gh_random : nat -> N;
  push_master : option string;
  push_main : option string;
  write_status : Stage -> option string;
  vercel_project_add : option string;
  vercel_deploy : option string;
  netlify_random : N;
  netlify_sites_create : option string; (* the [site_id] of the JSON output, if any *)
  netlify_link : option string;
  netlify_deploy : option string;
  date_now : N;
  rename_result : nat -> option string; (* by number of earlier attempts *)
  taskkill : nat -> option string
}.

(** ** State and effects *)

Record State := mkState {
  cwd : string;                  (* process.cwd() *)
  fs : gmap string Sidecar;      (* directories, each with its progress file *)
  status : Status                (* the object bound to [status] *)
}.

Inductive Res (A : Type) :=
| Val (a : A)
| Exc (e : Exn).
Arguments Val {A} a.
Arguments Exc {A} e.

Record Run (A : Type) := mkRun {
  res : Res A;
  post : State;
  log : list Event               (* calls made, oldest first *)
}.
Arguments mkRun {A} res post log.
Arguments res {A} r.
Arguments post {A} r.
Arguments log {A} r.

Definition M (A : Type) : Type := State -> Run A.

Definition ret {A} (a : A) : M A := fun s => mkRun (Val a) s [].

Definition throw {A} (e : Exn) : M A := fun s => mkRun (Exc e) s [].

Definition bind {A B} (m : M A) (f : A -> M B) : M B := fun s =>
  let r := m s in
  match res r with
  | Val a => let r' := f a (post r) in mkRun (res r') (post r') (log r ++ log r')
  | Exc e => mkRun (Exc e) (post r) (log r)
  end.

(** [try { m } catch (e) { h e }]. *)
Definition try_catch {A} (m : M A) (h : Exn -> M A) : M A := fun s =>
  let r := m s in
  match res r with
  | Val a => r
  | Exc e => let r' := h e (post r) in mkRun (res r') (post r') (log r ++ log r')
  end.

Declare Scope js_scope.
Delimit Scope js_scope with js.
Notation "x <- m ;; k" := (bind m (fun x => k))
  (at level 100, m at next level, right associativity) : js_scope.
Notation "m ;; k" := (bind m (fun _ => k))
  (at level 100, right associativity) : js_scope.
Open Scope js_scope.

Definition emit (e : Event) : M unit := fun s => mkRun (Val tt) s [e].

Definition getStatus : M Status := fun s => mkRun (Val (status s)) s [].

Definition setStatus (st : Status) : M unit := fun s =>
  mkRun (Val tt) (mkState (cwd s) (fs s) st) [].

Definition getFs : M (gmap string Sidecar) := fun s => mkRun (Val (fs s)) s [].

Definition setFs (f : gmap string Sidecar) : M unit := fun s =>
  mkRun (Val tt) (mkState (cwd s) f (status s)) [].

Definition setCwd (d : string) : M unit := fun s =>
  mkRun (Val tt) (mkState d (fs s) (status s)) [].

(** [try { m } catch (e) { }]. *)
Definition ignoring (m : M unit) : M unit := try_catch m (fun _ => ret tt).

(** [execSync(cmd)] with the outcome [out]. *)
Definition execSync (c : Cmd) (out : option string) : M unit :=
  emit (Exec c) ;;
  match out with
  | None => ret tt
  | Some stderr => throw (ExecError stderr)
  end.

Definition chdir (dir : string) (out : option string) : M unit :=
  emit (Chdir dir) ;;
  match out with
  | None => setCwd dir
  | Some c => throw (SysError c)
  end.

Definition sleepSync (ms : N) : M unit := emit (Sleep ms).

Definition console (m : Msg) : M unit := emit (Console m).

(** [fs.existsSync(dir)]. *)
Definition existsSync (dir : string) : M bool :=
  f <- getFs ;; ret (bool_decide (is_Some (f !! dir))).

(** [fs.renameSync(src, dst)]: a missing source is [ENOENT]; otherwise the
    oracle decides, and on success the directory moves with its content. *)
Definition renameSync (src dst : string) (out : option string) : M unit :=
  emit (Rename src dst) ;;
  f <- getFs ;;
  match f !! src with
  | None => throw (SysError "ENOENT")
  | Some sc =>
      match out with
      | Some c => throw (SysError c)
      | None => setFs (<[dst := sc]> (delete src f))
      end
  end.

(** [fs.writeFileSync(statusFilePath, JSON.stringify(status, null, 2))]. *)
Definition writeStatus (dir : string) (out : option string) : M unit :=
  st <- getStatus ;;
  emit (WriteStatus dir st) ;;
  f <- getFs ;;
  match f !! dir with
  | None => throw (SysError "ENOENT")
  | Some _ =>
      match out with
      | Some c => throw (SysError c)
      | None => setFs (<[dir := Content st]> f)
      end
  end.

(** [fs.writeFileSync('.gitignore', ...)]. *)
Definition writeGitignore (dir : string) (out : option string) : M unit :=
  emit (WriteGitignore dir) ;;
  match out with
  | None => ret tt
  | Some c => throw (SysError c)
  end.

(** ** The script, for one oracle *)

Section Script.

Variable SOURCE_DIR : string.
Variable o : Oracle.

Definition UPLOAD_DONE_DIR : string := path_join SOURCE_DIR "upload done".

Definition maxMoveAttempts : nat := 10.

(** The [while (attempts < maxAttempts)] loop of [moveFolderWithRetry];
    [fuel] is [maxAttempts - attempts]. *)
Fixpoint moveLoop (fuel attempts : nat) (src dest : string) : M unit :=
  match fuel with
  | 0 => console MsgMoveFailed
  | S fuel' =>
      try_catch
        (renameSync src dest (rename_result o attempts) ;;
         console MsgMoved)
        (fun e =>
           if isLockError e then
             sleepSync 3000 ;;
             ignoring (execSync Taskkill (taskkill o attempts)) ;;
             moveLoop fuel' (S attempts) src dest
           else throw e)
  end.

Definition moveFolderWithRetry (src dest : string) : M unit :=
  ignoring (chdir SOURCE_DIR None) ;;
  moveLoop maxMoveAttempts 0 src dest.

Definition maxCreateAttempts : nat := 5.

(** The [while (!created && attempts < maxAttempts)] loop of
    [createGitHubRepo]; [fuel] is [maxAttempts - attempts].  Every [return]
    and the [break] end the loop with [currentName]. *)
Fixpoint createLoop (fuel attempts : nat) (projectName currentName : string)
  : M string :=
  match fuel with
  | 0 => ret currentName
  | S fuel' =>
      try_catch
        (execSync (GhRepoCreate currentName) (gh_create o attempts) ;;
         ret currentName)
        (fun e =>
           let errOutput := errOutputOf e in
           if includes errOutput "already exists"
              || includes errOutput "name already exists" then
             let randomSuffix := randomSuffix (gh_random o attempts) in
             createLoop fuel' (S attempts) projectName
               (projectName +:+ "-" +:+ pretty randomSuffix)
           else if includes errOutput "remote origin already exists" then
             try_catch (execSync GitPushMaster (push_master o))
               (fun _ => ignoring (execSync GitPushMain (push_main o))) ;;
             ret currentName
           else ret currentName)
  end.

Definition createGitHubRepo (projectName : string) : M string :=
  createLoop maxCreateAttempts 0 projectName projectName.

Section Folder.

Variable folder : string.
Variable index : nat.

Definition projectPath : string := path_join SOURCE_DIR folder.

Definition baseName : string := cleanName folder index.

(** "Read status file", and the line that prints the status before the
    [try] of the iteration: it reads [status.github], which raises a
    [TypeError] when [JSON.parse] gave [null]. *)
Definition loadStatus : M unit :=
  f <- getFs ;;
  setStatus (match f !! projectPath with
             | Some sc => readStatus sc
             | None => defaultStatus
             end) ;;
  match f !! projectPath with
  | Some Null => throw TypeError
  | _ => ret tt
  end.

(** "1. Git Init (Always ensure git is ready)". *)
Definition gitPrepare : M unit :=
  (if negb (has_git o) then execSync GitInit (git_init o) else ret tt) ;;
  (if negb (has_gitignore o)
   then writeGitignore projectPath (write_gitignore o) else ret tt) ;;
  ignoring (execSync GitAdd (git_add o) ;; execSync GitCommit (git_commit o)).

(** "2. GitHub". *)
Definition githubStage : M unit :=
  st <- getStatus ;;
  if negb (github st) then
    finalRepoName <- createGitHubRepo (orName (repoName st) baseName) ;;
    if negb (isEmpty finalRepoName) then
      setStatus (mkStatus true (vercel st) (netlify st) (Some finalRepoName)) ;;
      writeStatus projectPath (write_status o VersionControl)
    else ret tt
  else ret tt.

(** "3. Vercel". *)
Definition vercelStage : M unit :=
  st <- getStatus ;;
  if negb (vercel st) then
    try_catch
      (ignoring (execSync (VercelProjectAdd (orName (repoName st) baseName))
                   (vercel_project_add o)) ;;
       execSync VercelDeploy (vercel_deploy o) ;;
       setStatus (mkStatus (github st) true (netlify st) (repoName st)) ;;
       writeStatus projectPath (write_status o HostA))
      (fun _ => ret tt)
  else ret tt.

(** "4. Netlify". *)
Definition netlifyStage : M unit :=
  st <- getStatus ;;
  if negb (netlify st) then
    try_catch
      ((if negb (has_netlify o) then
          ignoring
            (let siteName := orName (repoName st) baseName +:+ "-"
                             +:+ pretty (randomSuffix (netlify_random o)) in
             emit (Exec (NetlifySitesCreate siteName)) ;;
             match netlify_sites_create o with
             | None => throw (ExecError "")
             | Some siteId => execSync (NetlifyLink siteId) (netlify_link o)
             end)
        else ret tt) ;;
       execSync NetlifyDeploy (netlify_deploy o) ;;
       setStatus (mkStatus (github st) (vercel st) true (repoName st)) ;;
       writeStatus projectPath (write_status o HostB))
      (fun _ => ret tt)
  else ret tt.

Definition dest : string := path_join UPLOAD_DONE_DIR folder.

Definition stampedDest : string :=
  path_join UPLOAD_DONE_DIR (folder +:+ "_" +:+ pretty (date_now o)).

(** "5. Move to Done". *)
Definition relocationGate : M unit :=
  st <- getStatus ;;
  if allDone st then
    chdir SOURCE_DIR None ;;
    sleepSync 1000 ;;
    taken <- existsSync dest ;;
    let finalDest := if (taken : bool) then stampedDest else dest in
    moveFolderWithRetry projectPath finalDest
  else console MsgKeeping.

(** The three stage blocks, in order. *)
Definition runStages : M unit :=
  githubStage ;; vercelStage ;; netlifyStage.

(** The body of the [try] of one iteration, up to the relocation gate. *)
Definition deployFolder : M unit :=
  chdir projectPath (chdir_project o) ;;
  gitPrepare ;;
  runStages.

(** One iteration of [folders.forEach].  The status is read and printed
    outside the [try]: an error there leaves the callback, and with it
    [forEach]. *)
Definition processFolder : M unit :=
  loadStatus ;;
  try_catch
    (deployFolder ;; relocationGate)
    (fun _ => console MsgCritical ;; chdir SOURCE_DIR None).

End Folder.

End Script.

(** [folders.forEach((folder, index) => ...)], the outcomes of the external
    calls of iteration [index] being [oracles index]. *)
Fixpoint forEachFolder (SOURCE_DIR : string) (oracles : nat -> Oracle)
    (folders : list string) (index : nat) : M unit :=
  match folders with
  | [] => ret tt
  | folder :: rest =>
      processFolder SOURCE_DIR (oracles index) folder index ;;
      forEachFolder SOURCE_DIR oracles rest (S index)
  end.

(** Successive invocations of the whole pipeline on one folder. *)
Fixpoint rerun (SOURCE_DIR : string) (passes : list Oracle)
    (folder : string) (index : nat) : M unit :=
  match passes with
  | [] => ret tt
  | o :: rest =>
      processFolder SOURCE_DIR o folder index ;;
      rerun SOURCE_DIR rest folder index
  end.

(** * The rest of the file

    ** The earlier main loop

    The file also holds the main loop as it was before the progress file:
    every folder is deployed to the three collaborators and then moved,
    whatever the deployments answered. *)

Section ScriptV1.

Variable SOURCE_DIR : string.
Variable o : Oracle.
Variable folder : string.
Variable index : nat.

(** "3. Vercel" of the earlier loop: the failure is reported and nothing
    is recorded. *)
Definition vercelBlockV1 (finalRepoName : string) : M unit :=
  try_catch
    (ignoring (execSync (VercelProjectAdd finalRepoName) (vercel_project_add o)) ;;
     execSync VercelDeploy (vercel_deploy o))
    (fun _ => ret tt).

(** "4. Netlify" of the earlier loop. *)
Definition netlifyBlockV1 (finalRepoName : string) : M unit :=
  try_catch
    ((if negb (has_netlify o) then
        ignoring
          (let siteName := finalRepoName +:+ "-"
                           +:+ pretty (randomSuffix (netlify_random o)) in
           emit (Exec (NetlifySitesCreate siteName)) ;;
           match netlify_sites_create o with
           | None => throw (ExecError "")
           | Some siteId => execSync (NetlifyLink siteId) (netlify_link o)
           end)
      else ret tt) ;;
     execSync NetlifyDeploy (netlify_deploy o))
    (fun _ => ret tt).

(** "1. Git Init" to "4. Netlify" of the earlier loop.  The text written
    to [.gitignore] has one line fewer than in the later loop; the model
    records the write, not the text. *)
Definition deployFolderV1 : M unit :=
  chdir (projectPath SOURCE_DIR folder) (chdir_project o) ;;
  gitPrepare SOURCE_DIR o folder ;;
  finalRepoName <- createGitHubRepo o (baseName folder index) ;;
  vercelBlockV1 finalRepoName ;;
  netlifyBlockV1 finalRepoName.

(** "5. Move to Done" of the earlier loop: no condition. *)
Definition moveToDone : M unit :=
  chdir SOURCE_DIR None ;;
  sleepSync 1000 ;;
  taken <- existsSync (dest SOURCE_DIR folder) ;;
  moveFolderWithRetry SOURCE_DIR o (projectPath SOURCE_DIR folder)
    (if (taken : bool)
     then stampedDest SOURCE_DIR o folder
     else dest SOURCE_DIR folder).

(** One iteration of the earlier [folders.forEach]. *)
Definition processFolderV1 : M unit :=
  try_catch
    (deployFolderV1 ;; moveToDone)
    (fun _ => console MsgCritical ;; chdir SOURCE_DIR None).

End ScriptV1.

(** * Vocabulary of the properties *)

(** [name] is [projectName] followed by one numeric suffix. *)
Definition suffixed (projectName name : string) : Prop :=
  exists n : N, (n < 100000)%N /\ name = projectName +:+ "-" +:+ pretty n.

(** [e] is a [gh repo create] of [current] or of a suffixed name. *)
Definition createEvent (projectName current : string) (e : Event) : Prop :=
  exists n, e = Exec (GhRepoCreate n) /\ (n = current \/ suffixed projectName n).

(** Every flag that is [true] in [a] is [true] in [b]. *)
Definition flagsLe (a b : Status) : Prop :=
  (github a = true -> github b = true)
  /\ (vercel a = true -> vercel b = true)
  /\ (netlify a = true -> netlify b = true).

(** What a stage block can do to the state: nothing, raise flags of the
    in-memory record, or raise them and save the record in [dir]. *)
Inductive stageStep (dir : string) (s : State) : State -> Prop :=
| step_none :
    stageStep dir s s
| step_flag st' :
    flagsLe (status s) st' ->
    stageStep dir s (mkState (cwd s) (fs s) st')
| step_saved st' :
    flagsLe (status s) st' ->
    is_Some (fs s !! dir) ->
    stageStep dir s (mkState (cwd s) (<[dir := Content st']> (fs s)) st').

(** The stage whose external collaborator a call belongs to. *)
Definition collaborator (e : Event) : option Stage :=
  match e with
  | Exec (GhRepoCreate _) | Exec GitPushMaster | Exec GitPushMain => Some VersionControl
  | Exec (VercelProjectAdd _) | Exec VercelDeploy => Some HostA
  | Exec (NetlifySitesCreate _) | Exec (NetlifyLink _) | Exec NetlifyDeploy => Some HostB
  | _ => None
  end.

(** The flag of a stage in a record. *)
Definition flagOf (stage : Stage) (st : Status) : bool :=
  match stage with
  | VersionControl => github st
  | HostA => vercel st
  | HostB => netlify st
  end.

(** A stage block makes one step; it only calls its own collaborator and
    only saves the record it leaves in memory; with its flag already set it
    does nothing at all. *)
Definition stageBlock (dir : string) (stage : Stage) (m : M unit) : Prop :=
  forall s,
    stageStep dir s (post (m s))
    /\ Forall (fun e => collaborator e = Some stage
                        \/ e = WriteStatus dir (status (post (m s)))) (log (m s))
    /\ (flagOf stage (status s) = true -> m s = mkRun (Val tt) s []).

(** The calls of the git preparation. *)
Definition prepareEvent (dir : string) (e : Event) : Prop :=
  e = Exec GitInit \/ e = WriteGitignore dir \/ e = Exec GitAdd \/ e = Exec GitCommit.

(** ** Moving a folder *)

Section MoveTerms.

Variable o : Oracle.
Variables src dst : string.

(** The state once [src] has been renamed to [dst]. *)
Definition moved (sc : Sidecar) (s : State) : State :=
  mkState (cwd s) (<[dst := sc]> (delete src (fs s))) (status s).

(** One failed attempt on a locked folder: the rename, the 3 second wait,
    the [taskkill]. *)
Definition lockedAttempt : list Event :=
  [Rename src dst; Sleep 3000; Exec Taskkill].

(** [n] such attempts in a row. *)
Definition lockedAttempts (n : nat) : list Event :=
  concat (replicate n lockedAttempt).

(** The rename number [k] fails with a lock-class error. *)
Definition lockedAt (k : nat) : Prop :=
  exists c, rename_result o k = Some c /\ isLockError (SysError c) = true.

(** The calls of the retry loop. *)
Definition moveEvent (e : Event) : Prop :=
  e = Rename src dst \/ e = Sleep 3000 \/ e = Exec Taskkill
  \/ e = Console MsgMoved \/ e = Console MsgMoveFailed.

End MoveTerms.

(** The state after [process.chdir(SOURCE_DIR)]. *)
Definition atRoot (SOURCE_DIR : string) (s : State) : State :=
  mkState SOURCE_DIR (fs s) (status s).

(** [e] is a call of [fs.renameSync]. *)
Definition isRename (e : Event) : bool :=
  match e with Rename _ _ => true | _ => false end.

(** Number of [fs.renameSync] calls in a log. *)
Definition renameAttempts (l : list Event) : nat :=
  length (List.filter isRename l).

(** The record saved in [dir] never shows more than the record in memory. *)
Definition savedBelow (dir : string) (s : State) : Prop :=
  forall sc, fs s !! dir = Some sc -> flagsLe (readStatus sc) (status s).

(** In the log of the stage blocks: calls to the collaborators, and saves
    of records at least as advanced as the one the blocks started from. *)
Definition stagesEvent (dir : string) (s : State) (e : Event) : Prop :=
  is_Some (collaborator e)
  \/ exists st, e = WriteStatus dir st /\ flagsLe (status s) st.

(** [m] makes stage steps only, and logs such events only. *)
Definition stageSeq (dir : string) (m : M unit) : Prop :=
  forall s,
    rtc (stageStep dir) s (post (m s))
    /\ Forall (stagesEvent dir s) (log (m s)).

(** ** One folder *)

Section FolderTerms.

Variable SOURCE_DIR : string.
Variable o : Oracle.
Variable folder : string.
Variable index : nat.

Abbreviation here := (projectPath SOURCE_DIR folder).

(** The state after [process.chdir(projectPath)]. *)
Definition inFolder (s : State) : State := mkState here (fs s) (status s).

(** The state once [status] has been read from the progress file. *)
Definition loaded (s : State) : State :=
  mkState (cwd s) (fs s)
    (match fs s !! here with
     | Some sc => readStatus sc
     | None => defaultStatus
     end).

(** The progress file of the folder holds the text [null]. *)
Definition holdsNull (s : State) : Prop := fs s !! here = Some Null.

(** Git preparation goes through when [git init] and the write of
    [.gitignore], if needed, succeed. *)
Definition prepareOk : bool :=
  (has_git o || bool_decide (git_init o = None))
  && (has_gitignore o || bool_decide (write_gitignore o = None)).

(** The target of the move: the timestamped name when [dest] is taken. *)
Definition finalDest (s : State) : string :=
  if bool_decide (is_Some (fs s !! dest SOURCE_DIR folder))
  then stampedDest SOURCE_DIR o folder
  else dest SOURCE_DIR folder.

End FolderTerms.

Section FolderEvents.

Variable SOURCE_DIR : string.
Variable o : Oracle.
Variable folder : string.
Variable index : nat.

Abbreviation here := (projectPath SOURCE_DIR folder).

(** The calls made before the gate. *)
Definition deployEvent (s : State) (e : Event) : Prop :=
  e = Chdir here \/ prepareEvent here e \/ stagesEvent here s e.

(** The calls made by the gate. *)
Definition gateEvent (s : State) (e : Event) : Prop :=
  e = Chdir SOURCE_DIR \/ e = Sleep 1000 \/ e = Console MsgKeeping
  \/ moveEvent here (finalDest SOURCE_DIR o folder s) e.

End FolderEvents.

(** ** How one iteration can end *)

Section FolderOutcomes.

Variable SOURCE_DIR : string.
Variable o : Oracle.
Variable folder : string.
Variable index : nat.

Abbreviation here := (projectPath SOURCE_DIR folder).
Abbreviation deploy := (deployFolder SOURCE_DIR o folder index).
Abbreviation process := (processFolder SOURCE_DIR o folder index).
Abbreviation loaded' := (loaded SOURCE_DIR folder).
Abbreviation target := (finalDest SOURCE_DIR o folder).

(** Events from the gate on, the [catch] block included. *)
Definition tailEvent (s : State) (e : Event) : Prop :=
  gateEvent SOURCE_DIR o folder s e \/ e = Console MsgCritical.

(** Errored before the gate and retained. *)
Definition endsErrored (s : State) : Prop :=
  (exists e, res (deploy (loaded' s)) = Exc e)
  /\ post (process s) = atRoot SOURCE_DIR (post (deploy (loaded' s)))
  /\ log (process s)
     = (log (deploy (loaded' s)) ++ [Console MsgCritical; Chdir SOURCE_DIR])%list.

(** Some stage still pending: kept, nothing else happens. *)
Definition endsKept (s : State) : Prop :=
  res (deploy (loaded' s)) = Val tt
  /\ allDone (status (post (deploy (loaded' s)))) = false
  /\ post (process s) = post (deploy (loaded' s))
  /\ log (process s) = (log (deploy (loaded' s)) ++ [Console MsgKeeping])%list.

(** All stages done, the move was tried and did not happen. *)
Definition endsStuck (s : State) : Prop :=
  res (deploy (loaded' s)) = Val tt
  /\ allDone (status (post (deploy (loaded' s)))) = true
  /\ post (process s) = atRoot SOURCE_DIR (post (deploy (loaded' s)))
  /\ exists lg,
       log (process s) = (log (deploy (loaded' s)) ++ lg)%list
       /\ Forall (tailEvent (post (deploy (loaded' s)))) lg
       /\ In (Rename here (target (post (deploy (loaded' s))))) lg
       /\ ~ In (Console MsgMoved) lg.

(** All stages done and the folder moved. *)
Definition endsRelocated (s : State) : Prop :=
  res (deploy (loaded' s)) = Val tt
  /\ allDone (status (post (deploy (loaded' s)))) = true
  /\ (exists sc,
        fs (post (deploy (loaded' s))) !! here = Some sc
        /\ post (process s)
           = moved here (target (post (deploy (loaded' s)))) sc
               (atRoot SOURCE_DIR (post (deploy (loaded' s)))))
  /\ exists lg,
       log (process s) = (log (deploy (loaded' s)) ++ lg)%list
       /\ Forall (tailEvent (post (deploy (loaded' s)))) lg
       /\ In (Rename here (target (post (deploy (loaded' s))))) lg
       /\ In (Console MsgMoved) lg.

End FolderOutcomes.

(** Calls that do not reach a collaborator and do not save the record. *)
Definition localEvent (e : Event) : Prop :=
  collaborator e = None /\ forall dir st, e ≠ WriteStatus dir st.

(** Records written in a log are all at least as advanced as [st0], and
    written to [dir]. *)
Definition savesAbove (dir : string) (st0 : Status) (l : list Event) : Prop :=
  Forall (fun e => forall d st, e = WriteStatus d st -> d = dir /\ flagsLe st0 st) l.

(** The progress file holds no record. *)
Definition noRecord (sc : Sidecar) : Prop :=
  sc = Absent \/ sc = Unreadable \/ sc = Malformed.


(** ** Concrete runs *)

(** A working root with one project folder and no progress file yet. *)
Definition demoState : State :=
  mkState "/work" {[ "/work/My Cool App" := Absent ]} defaultStatus.

(** Every external call succeeds. *)
Definition allOk : Oracle :=
  {| chdir_project := None;
     has_git := true; has_gitignore := true; has_netlify := true;
     git_init := None; write_gitignore := None;
     git_add := None; git_commit := None;
     gh_create := fun _ => None; gh_random := fun _ => 0%N;
     push_master := None; push_main := None;
     write_status := fun _ => None;
     vercel_project_add := None; vercel_deploy := None;
     netlify_random := 0%N; netlify_sites_create := Some "site-1";
     netlify_link := None; netlify_deploy := None;
     date_now := 1767225600000%N;
     rename_result := fun _ => None;
     taskkill := fun _ => None |}.

(** [o] with another outcome for [gh repo create]. *)
Definition withCreate (out : nat -> option string) (o : Oracle) : Oracle :=
  {| chdir_project := chdir_project o;
     has_git := has_git o; has_gitignore := has_gitignore o;
     has_netlify := has_netlify o;
     git_init := git_init o; write_gitignore := write_gitignore o;
     git_add := git_add o; git_commit := git_commit o;
     gh_create := out; gh_random := gh_random o;
     push_master := push_master o; push_main := push_main o;
     write_status := write_status o;
     vercel_project_add := vercel_project_add o; vercel_deploy := vercel_deploy o;
     netlify_random := netlify_random o;
     netlify_sites_create := netlify_sites_create o;
     netlify_link := netlify_link o; netlify_deploy := netlify_deploy o;
     date_now := date_now o;
     rename_result := rename_result o;
     taskkill := taskkill o |}.

(** [o] with another outcome for [vercel --prod --yes]. *)
Definition withVercelDeploy (out : option string) (o : Oracle) : Oracle :=
  {| chdir_project := chdir_project o;
     has_git := has_git o; has_gitignore := has_gitignore o;
     has_netlify := has_netlify o;
     git_init := git_init o; write_gitignore := write_gitignore o;
     git_add := git_add o; git_commit := git_commit o;
     gh_create := gh_create o; gh_random := gh_random o;
     push_master := push_master o; push_main := push_main o;
     write_status := write_status o;
     vercel_project_add := vercel_project_add o; vercel_deploy := out;
     netlify_random := netlify_random o;
     netlify_sites_create := netlify_sites_create o;
     netlify_link := netlify_link o; netlify_deploy := netlify_deploy o;
     date_now := date_now o;
     rename_result := rename_result o;
     taskkill := taskkill o |}.

(** [o] with other outcomes for [fs.renameSync]. *)
Definition withRename (out : nat -> option string) (o : Oracle) : Oracle :=
  {| chdir_project := chdir_project o;
     has_git := has_git o; has_gitignore := has_gitignore o;
     has_netlify := has_netlify o;
     git_init := git_init o; write_gitignore := write_gitignore o;
     git_add := git_add o; git_commit := git_commit o;
     gh_create := gh_create o; gh_random := gh_random o;
     push_master := push_master o; push_main := push_main o;
     write_status := write_status o;
     vercel_project_add := vercel_project_add o; vercel_deploy := vercel_deploy o;
     netlify_random := netlify_random o;
     netlify_sites_create := netlify_sites_create o;
     netlify_link := netlify_link o; netlify_deploy := netlify_deploy o;
     date_now := date_now o;
     rename_result := out;
     taskkill := taskkill o |}.

(** Three EBUSY failures, then the rename goes through. *)
Definition lockedThrice : Oracle :=
  withRename (fun k => if Nat.ltb k 3 then Some "EBUSY" else None) allOk.

(** A folder with the three flags set and nothing in the way. *)
Definition doneState : State :=
  mkState "/work"
    {[ "/work/My Cool App" := Content (mkStatus true true true (Some "my-cool-app")) ]}
    defaultStatus.

(** Every stage succeeds but the folder stays locked. *)
Definition alwaysLocked : Oracle :=
  withRename (fun _ => Some "EBUSY") allOk.


(** The name is taken twice, then the creation goes through. *)
Definition twiceTaken : Oracle :=
  withCreate
    (fun k => if Nat.ltb k 2
              then Some "GraphQL: Name already exists on this account"
              else None)
    allOk.

(** Every name is taken; the draws give the suffixes 12, 24, 36, 48, 61. *)
Definition alwaysTaken : Oracle :=
  {| chdir_project := None;
     has_git := true; has_gitignore := true; has_netlify := true;
     git_init := None; write_gitignore := None;
     git_add := None; git_commit := None;
     gh_create := fun _ => Some "GraphQL: Name already exists on this account";
     gh_random := fun k => (N.of_nat (S k) * 2 ^ 40)%N;
     push_master := None; push_main := None;
     write_status := fun _ => None;
     vercel_project_add := None; vercel_deploy := None;
     netlify_random := 0%N; netlify_sites_create := Some "site-1";
     netlify_link := None; netlify_deploy := None;
     date_now := 1767225600000%N;
     rename_result := fun _ => None;
     taskkill := fun _ => None |}.

(** GitHub, Vercel and Netlify all fail; git and the file system work. *)
Definition hostsDown : Oracle :=
  {| chdir_project := None;
     has_git := true; has_gitignore := true; has_netlify := false;
     git_init := None; write_gitignore := None;
     git_add := None; git_commit := None;
     gh_create := fun _ => Some "HTTP 401: Bad credentials";
     gh_random := fun _ => 0%N;
     push_master := None; push_main := None;
     write_status := fun _ => None;
     vercel_project_add := Some "Error: not logged in";
     vercel_deploy := Some "Error: not logged in";
     netlify_random := 0%N; netlify_sites_create := None;
     netlify_link := None; netlify_deploy := Some "Error: not logged in";
     date_now := 1767225600000%N;
     rename_result := fun _ => None;
     taskkill := fun _ => None |}.

(** A folder without [.git] in which [git init] fails. *)
Definition gitBroken : Oracle :=
  {| chdir_project := None;
     has_git := false; has_gitignore := true; has_netlify := true;
     git_init := Some "fatal: cannot mkdir .git"; write_gitignore := None;
     git_add := None; git_commit := None;
     gh_create := fun _ => None; gh_random := fun _ => 0%N;
     push_master := None; push_main := None;
     write_status := fun _ => None;
     vercel_project_add := None; vercel_deploy := None;
     netlify_random := 0%N; netlify_sites_create := Some "site-1";
     netlify_link := None; netlify_deploy := None;
     date_now := 1767225600000%N;
     rename_result := fun _ => None;
     taskkill := fun _ => None |}.

(** Two project folders, the progress file of the first holding [null]. *)
Definition nullState : State :=
  mkState "/work"
    {[ "/work/My Cool App" := Null; "/work/Other" := Absent ]}
    defaultStatus.

(** Two project folders: a new one, and one already on GitHub. *)
Definition twoFolders : State :=
  mkState "/work"
    {[ "/work/My Cool App" := Absent;
       "/work/Other" := Content (mkStatus true false false (Some "other")) ]}
    defaultStatus.

(** ** Names *)

(** Every character of [s] is in the class [p]. *)
Fixpoint allChars (p : ascii -> bool) (s : string) : bool :=
  match s with
  | EmptyString => true
  | String c r => p c && allChars p r
  end.

(** The last character of [s] is in the class [p]. *)
Fixpoint endsWith (p : ascii -> bool) (s : string) : bool :=
  match s with
  | EmptyString => false
  | String c EmptyString => p c
  | String _ r => endsWith p r
  end.

(** No two dashes in a row. *)
Fixpoint noDoubleDash (s : string) : bool :=
  match s with
  | EmptyString => true
  | String c r => negb (isDash c && startsWith isDash r) && noDoubleDash r
  end.

(** The class [[0-9]]. *)
Definition isDigit (c : ascii) : bool := inRange 48 57 c.

(** A name as the cleaning leaves it: not empty, made of [a-z0-9-], with
    no dash at either end and no two dashes in a row. *)
Definition isCleanName (s : string) : bool :=
  negb (isEmpty s) && allChars isSlugChar s && noDoubleDash s
  && negb (startsWith isDash s) && negb (endsWith isDash s).

(** ** Candidates of [createGitHubRepo] *)

(** The creation number [k] fails because the name is taken. *)
Definition collidesAt (o : Oracle) (k : nat) : bool :=
  match gh_create o k with
  | Some errOutput =>
      includes errOutput "already exists"
      || includes errOutput "name already exists"
  | None => false
  end.

(** The name tried after [k] collisions. *)
Definition candidate (o : Oracle) (projectName : string) (k : nat) : string :=
  match k with
  | 0 => projectName
  | S j => projectName +:+ "-" +:+ pretty (randomSuffix (gh_random o j))
  end.

(** The creations of the first [n] candidates. *)
Definition creations (o : Oracle) (projectName : string) (n : nat) : list Event :=
  map (fun k => Exec (GhRepoCreate (candidate o projectName k))) (seq 0 n).

(** ** Records *)

(** The GitHub flag and the repository name go together: no name without
    the flag, and with the flag a name that is not empty. *)
Definition recordOk (st : Status) : Prop :=
  match repoName st with
  | None => github st = false
  | Some n => github st = true /\ isEmpty n = false
  end.

(** The records written in a log all satisfy [P]. *)
Definition savesOnly (P : Status -> Prop) (l : list Event) : Prop :=
  Forall (fun e => forall d st, e = WriteStatus d st -> P st) l.

(** [P] survives what the stage blocks do to the record: the GitHub block
    sets its flag with a name that is not empty, the other two set their
    flag. *)
Definition statusClosed (P : Status -> Prop) : Prop :=
  (forall st name, P st -> github st = false -> isEmpty name = false ->
     P (mkStatus true (vercel st) (netlify st) (Some name)))
  /\ (forall st, P st -> P (mkStatus (github st) true (netlify st) (repoName st)))
  /\ (forall st, P st -> P (mkStatus (github st) (vercel st) true (repoName st))).

(** A call to the collaborator of [stage], or a save of the record. *)
Definition stageEvent (dir : string) (stage : Stage) (e : Event) : Prop :=
  collaborator e = Some stage \/ exists st, e = WriteStatus dir st.

(** The calls of the earlier loop before its move. *)
Definition deployEventV1 (dir : string) (e : Event) : Prop :=
  e = Chdir dir \/ prepareEvent dir e \/ is_Some (collaborator e).

(** * Properties *)

(** ** Strings, names and paths *)

Lemma app_cons (c : ascii) (a b : string) :
  String c a +:+ b = String c (a +:+ b).
Proof. reflexivity. Qed.

Lemma app_inv_head_string (a b c : string) : a +:+ b = a +:+ c -> b = c.
Proof.
  induction a as [|x a IH]; [done|]. rewrite !app_cons. intros [= H]. auto.
Qed.

Lemma string_length_app (a b : string) :
  String.length (a +:+ b) = String.length a + String.length b.
Proof.
  induction a as [|c a IH]; [reflexivity|].
  rewrite app_cons. simpl. by rewrite IH.
Qed.

Lemma path_join_length (a b : string) :
  String.length (path_join a b) = String.length a + 1 + String.length b.
Proof. unfold path_join. rewrite !string_length_app. simpl. lia. Qed.

Lemma dest_ne_projectPath SOURCE_DIR folder :
  dest SOURCE_DIR folder ≠ projectPath SOURCE_DIR folder.
Proof.
  intros E. apply (f_equal String.length) in E.
  unfold dest, projectPath, UPLOAD_DONE_DIR in E.
  rewrite !path_join_length in E. simpl in E. lia.
Qed.

Lemma stampedDest_ne_projectPath SOURCE_DIR o folder :
  stampedDest SOURCE_DIR o folder ≠ projectPath SOURCE_DIR folder.
Proof.
  intros E. apply (f_equal String.length) in E.
  unfold stampedDest, projectPath, UPLOAD_DONE_DIR in E.
  rewrite !path_join_length, !string_length_app in E. simpl in E. lia.
Qed.


Lemma isEmpty_app (a b : string) : isEmpty (a +:+ b) = isEmpty a && isEmpty b.
Proof. by destruct a. Qed.

Lemma isEmpty_false (s : string) : isEmpty s = false <-> s ≠ "".
Proof. destruct s; simpl; split; congruence. Qed.

Lemma cleanName_nonempty folder index : isEmpty (cleanName folder index) = false.
Proof.
  unfold cleanName.
  destruct (isEmpty (trimDashes _)) eqn:E; [|exact E].
  by rewrite isEmpty_app.
Qed.

Lemma orName_nonempty name base : isEmpty base = false -> isEmpty (orName name base) = false.
Proof.
  intros Hb. destruct name as [n|]; simpl; [|done].
  by destruct (isEmpty n) eqn:E.
Qed.

Lemma includes_cons (c : ascii) (hay needle : string) :
  includes hay needle = true -> includes (String c hay) needle = true.
Proof. intros H. simpl. rewrite H. apply orb_true_r. Qed.

Lemma includes_prefix (hay needle : string) :
  String.prefix needle hay = true -> includes hay needle = true.
Proof. intros H. destruct hay; simpl in *; rewrite H; reflexivity. Qed.

(** A text that starts with [p +:+ needle] contains [needle]. *)
Lemma prefix_app_includes (p needle hay : string) :
  String.prefix (p +:+ needle) hay = true -> includes hay needle = true.
Proof.
  revert hay. induction p as [|c p IH]; intros hay H.
  - by apply includes_prefix.
  - rewrite app_cons in H. destruct hay as [|d hay]; [discriminate|].
    simpl in H. destruct (ascii_dec c d); [|discriminate].
    apply includes_cons, IH, H.
Qed.

Lemma includes_app (p needle hay : string) :
  includes hay (p +:+ needle) = true -> includes hay needle = true.
Proof.
  induction hay as [|d hay IH]; intros H.
  - change (String.prefix (p +:+ needle) "" || false = true) in H.
    rewrite orb_false_r in H. by apply (prefix_app_includes p).
  - change (String.prefix (p +:+ needle) (String d hay)
            || includes hay (p +:+ needle) = true) in H.
    apply orb_true_iff in H as [H|H].
    + by apply (prefix_app_includes p).
    + by apply includes_cons, IH.
Qed.

(** Whatever contains "remote origin already exists" contains
    "already exists". *)
Lemma remote_origin_is_already_exists (errOutput : string) :
  includes errOutput "remote origin already exists" = true ->
  includes errOutput "already exists" = true.
Proof. apply (includes_app "remote origin "). Qed.

Lemma size_le_70 (n : N) : (n < 2 ^ 70 -> N.size n <= 70)%N.
Proof.
  intros Hn. destruct (N.eq_dec n 0%N) as [->|Hne]; [cbn; lia|].
  rewrite N.size_log2 by assumption.
  assert (N.log2 n < 70)%N by (apply N.log2_lt_pow2; lia). lia.
Qed.

(** Rounding to 53 bits moves a number below [2^70] by [2^16] at most. *)
Lemma roundDouble_le (n : N) : (n < 2 ^ 70 -> roundDouble n <= n + 2 ^ 16)%N.
Proof.
  intros Hn. unfold roundDouble.
  pose proof (size_le_70 n Hn) as Hsize.
  set (e := (N.size n - 53)%N) in *.
  assert (He : (e <= 17)%N) by lia.
  destruct (N.eqb_spec e 0%N) as [_|Hne]; [lia|].
  rewrite N.shiftl_mul_pow2, N.shiftr_div_pow2, N.land_ones.
  assert (Hpos : (2 ^ e <> 0)%N) by (apply N.pow_nonzero; lia).
  pose proof (N.div_mod n (2 ^ e) Hpos) as Hdm.
  pose proof (N.mod_lt n (2 ^ e) Hpos) as Hlt.
  assert (Hhalf : (2 ^ e = 2 * 2 ^ (e - 1))%N).
  { replace e with (N.succ (e - 1)) at 1 by lia. apply N.pow_succ_r'. }
  assert (Hsmall : (2 ^ (e - 1) <= 2 ^ 16)%N) by (apply N.pow_le_mono_r; lia).
  set (q := (n / 2 ^ e)%N) in *. set (rest := (n mod 2 ^ e)%N) in *.
  set (half := (2 ^ (e - 1))%N) in *. set (p := (2 ^ e)%N) in *.
  destruct (N.ltb_spec rest half); [nia|].
  destruct (N.ltb_spec half rest); [nia|].
  destruct (N.even q); nia.
Qed.

Lemma randomSuffix_lt (r : N) : (randomSuffix r < 100000)%N.
Proof.
  unfold randomSuffix. apply N.Div0.div_lt_upper_bound.
  assert (Hr : (r mod 2 ^ 53 < 2 ^ 53)%N) by (apply N.mod_lt; discriminate).
  assert (Hn : ((r mod 2 ^ 53) * 100000 < 2 ^ 70)%N).
  { change (2 ^ 70)%N with (2 ^ 53 * 131072)%N. nia. }
  pose proof (roundDouble_le _ Hn) as Hle.
  change (2 ^ 16)%N with 65536%N in Hle.
  lia.
Qed.

(** ** Running effectful code *)

Lemma run_eta {A} (r : Run A) : mkRun (res r) (post r) (log r) = r.
Proof. by destruct r. Qed.

Lemma bind_val {A B} (m : M A) (f : A -> M B) s a s' l :
  m s = mkRun (Val a) s' l ->
  bind m f s = mkRun (res (f a s')) (post (f a s')) (l ++ log (f a s')).
Proof. intros H. unfold bind. by rewrite H. Qed.

Lemma bind_exc {A B} (m : M A) (f : A -> M B) s e s' l :
  m s = mkRun (Exc e) s' l ->
  bind m f s = mkRun (Exc e) s' l.
Proof. intros H. unfold bind. by rewrite H. Qed.

Lemma bind_getStatus {B} (f : Status -> M B) s :
  bind getStatus f s = f (status s) s.
Proof. unfold bind, getStatus. simpl. apply run_eta. Qed.

Lemma bind_getFs {B} (f : gmap string Sidecar -> M B) s :
  bind getFs f s = f (fs s) s.
Proof. unfold bind, getFs. simpl. apply run_eta. Qed.

Lemma try_catch_val {A} (m : M A) (h : Exn -> M A) s a s' l :
  m s = mkRun (Val a) s' l ->
  try_catch m h s = mkRun (Val a) s' l.
Proof. intros H. unfold try_catch. by rewrite H. Qed.

Lemma try_catch_exc {A} (m : M A) (h : Exn -> M A) s e s' l :
  m s = mkRun (Exc e) s' l ->
  try_catch m h s = mkRun (res (h e s')) (post (h e s')) (l ++ log (h e s')).
Proof. intros H. unfold try_catch. by rewrite H. Qed.

(** ** Creating the repository *)

#[local] Arguments includes : simpl never.

Ltac run :=
  unfold try_catch, ignoring, bind, execSync, chdir, sleepSync, console,
    writeGitignore, renameSync, writeStatus, existsSync, emit, ret, throw,
    getStatus, setStatus, getFs, setFs, setCwd; simpl.

(** The loop never throws and never touches the state; it returns the
    current candidate, and every command it runs is a [gh repo create] of a
    candidate. *)
Lemma createLoop_spec o projectName fuel :
  forall attempts current s,
    exists name l,
      createLoop o fuel attempts projectName current s = mkRun (Val name) s l
      /\ (name = current \/ suffixed projectName name)
      /\ Forall (createEvent projectName current) l
      /\ length l <= fuel.
Proof.
  induction fuel as [|fuel IH]; intros attempts current s.
  { exists current, []. repeat split; [by left | constructor | done]. }
  assert (Hfirst : createEvent projectName current (Exec (GhRepoCreate current)))
    by (exists current; split; [done | by left]).
  simpl. run. destruct (gh_create o attempts) as [stderr|]; simpl.
  - destruct (includes stderr "already exists"
              || includes stderr "name already exists") eqn:Htaken.
    + set (next := projectName +:+ "-" +:+ pretty (randomSuffix (gh_random o attempts))).
      assert (Hnext : suffixed projectName next)
        by (eexists; split; [apply randomSuffix_lt | reflexivity]).
      destruct (IH (S attempts) next s) as (name & l & -> & Hname & Hl & Hlen).
      exists name, (Exec (GhRepoCreate current) :: l). simpl.
      repeat split.
      * right. by destruct Hname as [->|].
      * constructor; [done|]. eapply Forall_impl; [exact Hl|].
        intros e (n & -> & Hn). exists n. split; [done|]. right.
        by destruct Hn as [->|].
      * lia.
    + destruct (includes stderr "remote origin already exists") eqn:Horigin.
      { apply remote_origin_is_already_exists in Horigin.
        rewrite Horigin in Htaken. discriminate. }
      exists current, [Exec (GhRepoCreate current)]. simpl.
      repeat split; [by left | by repeat constructor | lia].
  - exists current, [Exec (GhRepoCreate current)]. simpl.
    repeat split; [by left | by repeat constructor | lia].
Qed.

Lemma createGitHubRepo_spec o projectName s :
  exists name l,
    createGitHubRepo o projectName s = mkRun (Val name) s l
    /\ (name = projectName \/ suffixed projectName name)
    /\ Forall (createEvent projectName projectName) l
    /\ length l <= 5.
Proof. apply createLoop_spec. Qed.

Lemma candidate_nonempty projectName name :
  isEmpty projectName = false ->
  name = projectName \/ suffixed projectName name ->
  isEmpty name = false.
Proof.
  intros Hp [->|(n & _ & ->)]; [done|].
  by rewrite isEmpty_app, Hp.
Qed.

(** ** The stage blocks as steps of a state machine *)

Lemma flagsLe_refl a : flagsLe a a.
Proof. by repeat split. Qed.

Lemma flagsLe_trans a b c : flagsLe a b -> flagsLe b c -> flagsLe a c.
Proof. intros (?&?&?) (?&?&?). repeat split; auto. Qed.

Lemma flagsLe_default a : flagsLe defaultStatus a.
Proof. by repeat split. Qed.

Ltac flags := unfold flagsLe; simpl; repeat split; auto.

Ltac all_events :=
  repeat first [ apply List.Forall_nil
               | apply List.Forall_cons; [cbn beta; auto 8|] ].

Ltac stage_done :=
  simpl; repeat split;
  first [ by discriminate
        | by (repeat constructor; simpl; auto)
        | by constructor
        | by (apply step_flag; flags)
        | by (apply step_saved; [flags | eauto])
        | idtac ].

Lemma vercelStage_block SOURCE_DIR o folder index :
  stageBlock (projectPath SOURCE_DIR folder) HostA
    (vercelStage SOURCE_DIR o folder index).
Proof.
  intros s. unfold vercelStage. run.
  destruct (vercel (status s)) eqn:Hflag; simpl; [by stage_done|].
  destruct (vercel_project_add o), (vercel_deploy o); simpl;
    try by stage_done.
  all: destruct (fs s !! projectPath SOURCE_DIR folder) eqn:Hdir; simpl;
    [destruct (write_status o HostA); simpl|]; by stage_done.
Qed.

Lemma netlifyStage_block SOURCE_DIR o folder index :
  stageBlock (projectPath SOURCE_DIR folder) HostB
    (netlifyStage SOURCE_DIR o folder index).
Proof.
  intros s. unfold netlifyStage. run.
  destruct (netlify (status s)) eqn:Hflag; simpl; [by stage_done|].
  destruct (has_netlify o); simpl;
    [|destruct (netlify_sites_create o); simpl;
      [destruct (netlify_link o); simpl|]];
    (destruct (netlify_deploy o); simpl; [by stage_done|]).
  all: destruct (fs s !! projectPath SOURCE_DIR folder) eqn:Hdir; simpl;
    [destruct (write_status o HostB); simpl|]; by stage_done.
Qed.

Lemma createEvent_collaborator projectName current e :
  createEvent projectName current e -> collaborator e = Some VersionControl.
Proof. by intros (n & -> & _). Qed.

Lemma githubStage_block SOURCE_DIR o folder index :
  stageBlock (projectPath SOURCE_DIR folder) VersionControl
    (githubStage SOURCE_DIR o folder index).
Proof.
  intros s. unfold githubStage. rewrite bind_getStatus.
  destruct (github (status s)) eqn:Hflag; simpl; [by stage_done|].
  set (projectName := orName (repoName (status s)) (baseName folder index)).
  destruct (createGitHubRepo_spec o projectName s)
    as (name & l & Hrun & Hname & Hl & _).
  assert (Hcollab : forall st, Forall (fun e => collaborator e = Some VersionControl
                               \/ e = WriteStatus (projectPath SOURCE_DIR folder) st) l).
  { intros st. eapply Forall_impl; [exact Hl|].
    intros e He. left. by eapply createEvent_collaborator. }
  rewrite (bind_val _ _ _ _ _ _ Hrun).
  destruct (isEmpty name); simpl.
  { rewrite app_nil_r. repeat split; [constructor | apply Hcollab | simpl; congruence]. }
  run.
  destruct (fs s !! projectPath SOURCE_DIR folder) eqn:Hdir; simpl;
    [destruct (write_status o VersionControl); simpl|].
  all: repeat split;
    [ first [ by (apply step_flag; flags) | by (apply step_saved; [flags | eauto]) ]
    | apply Forall_app; split; [apply Hcollab | by repeat constructor; auto]
    | simpl; congruence ].
Qed.

Lemma gitPrepare_spec SOURCE_DIR o folder s :
  post (gitPrepare SOURCE_DIR o folder s) = s
  /\ Forall (prepareEvent (projectPath SOURCE_DIR folder))
       (log (gitPrepare SOURCE_DIR o folder s)).
Proof.
  unfold gitPrepare, prepareEvent. run.
  destruct (has_git o), (git_init o), (has_gitignore o), (write_gitignore o),
    (git_add o), (git_commit o); simpl; (split; [done|]);
    all_events.
Qed.

(** ** Moving a folder *)

Section Move.

Variable o : Oracle.
Variables src dst : string.

Lemma moveLoop_ok fuel attempts s sc :
  fs s !! src = Some sc ->
  rename_result o attempts = None ->
  moveLoop o (S fuel) attempts src dst s
  = mkRun (Val tt) (moved src dst sc s) [Rename src dst; Console MsgMoved].
Proof. intros Hsrc Hout. simpl. run. rewrite Hsrc. simpl. by rewrite Hout. Qed.

Lemma moveLoop_missing fuel attempts s :
  fs s !! src = None ->
  moveLoop o (S fuel) attempts src dst s
  = mkRun (Exc (SysError "ENOENT")) s [Rename src dst].
Proof. intros Hsrc. simpl. run. by rewrite Hsrc. Qed.

Lemma moveLoop_other fuel attempts s sc c :
  fs s !! src = Some sc ->
  rename_result o attempts = Some c ->
  isLockError (SysError c) = false ->
  moveLoop o (S fuel) attempts src dst s
  = mkRun (Exc (SysError c)) s [Rename src dst].
Proof.
  intros Hsrc Hout Hlock. simpl. run. rewrite Hsrc. simpl. rewrite Hout.
  simpl in *. by rewrite Hlock.
Qed.

Lemma moveLoop_locked fuel attempts s sc :
  fs s !! src = Some sc ->
  lockedAt o attempts ->
  moveLoop o (S fuel) attempts src dst s
  = mkRun (res (moveLoop o fuel (S attempts) src dst s))
          (post (moveLoop o fuel (S attempts) src dst s))
          (lockedAttempt src dst ++ log (moveLoop o fuel (S attempts) src dst s)).
Proof.
  intros Hsrc (c & Hout & Hlock).
  change (moveLoop o (S fuel) attempts src dst s) with
    (try_catch
       (renameSync src dst (rename_result o attempts) ;; console MsgMoved)
       (fun e =>
          if isLockError e then
            sleepSync 3000 ;;
            ignoring (execSync Taskkill (taskkill o attempts)) ;;
            moveLoop o fuel (S attempts) src dst
          else throw e) s).
  assert (Hfail :
    (renameSync src dst (rename_result o attempts) ;; console MsgMoved) s
    = mkRun (Exc (SysError c)) s [Rename src dst]).
  { run. rewrite Hsrc. simpl. by rewrite Hout. }
  rewrite (try_catch_exc _ _ _ _ _ _ Hfail), Hlock.
  assert (Hwait :
    (sleepSync 3000 ;; ignoring (execSync Taskkill (taskkill o attempts))) s
    = mkRun (Val tt) s [Sleep 3000; Exec Taskkill]).
  { run. by destruct (taskkill o attempts). }
  set (rest := moveLoop o fuel (S attempts) src dst).
  change ((sleepSync 3000 ;; ignoring (execSync Taskkill (taskkill o attempts)) ;; rest) s)
    with (bind (sleepSync 3000)
            (fun _ => bind (ignoring (execSync Taskkill (taskkill o attempts)))
                        (fun _ => rest)) s).
  assert (Hassoc :
    bind (sleepSync 3000)
      (fun _ => bind (ignoring (execSync Taskkill (taskkill o attempts)))
                  (fun _ => rest)) s
    = mkRun (res (rest s)) (post (rest s))
        ([Sleep 3000; Exec Taskkill] ++ log (rest s))).
  { run. by destruct (taskkill o attempts). }
  rewrite Hassoc. reflexivity.
Qed.

(** [n] locked attempts in a row are retried one after the other. *)
Lemma moveLoop_retries n :
  forall fuel attempts s sc,
    fs s !! src = Some sc ->
    (forall k, k < n -> lockedAt o (attempts + k)) ->
    moveLoop o (n + fuel) attempts src dst s
    = mkRun (res (moveLoop o fuel (attempts + n) src dst s))
            (post (moveLoop o fuel (attempts + n) src dst s))
            (lockedAttempts src dst n ++ log (moveLoop o fuel (attempts + n) src dst s)).
Proof.
  induction n as [|n IH]; intros fuel attempts s sc Hsrc Hlocked.
  - rewrite Nat.add_0_r. simpl. by rewrite run_eta.
  - change (S n + fuel) with (S (n + fuel)).
    rewrite (moveLoop_locked _ _ _ sc Hsrc).
    2:{ specialize (Hlocked 0). rewrite Nat.add_0_r in Hlocked. apply Hlocked. lia. }
    rewrite (IH fuel (S attempts) s sc Hsrc).
    2:{ intros k Hk. replace (S attempts + k) with (attempts + S k) by lia.
        apply Hlocked. lia. }
    replace (S attempts + n) with (attempts + S n) by lia.
    simpl. unfold lockedAttempts. simpl. reflexivity.
Qed.

(** Whatever the renames answer, the loop either leaves the directories as
    they are or moves [src] to [dst] whole, and says which. *)
Lemma moveLoop_outcome fuel :
  forall attempts s,
    let r := moveLoop o fuel attempts src dst s in
    Forall (moveEvent src dst) (log r)
    /\ (0 < fuel -> In (Rename src dst) (log r))
    /\ ((post r = s /\ ~ In (Console MsgMoved) (log r))
        \/ (exists sc, fs s !! src = Some sc /\ res r = Val tt
                       /\ post r = moved src dst sc s
                       /\ In (Console MsgMoved) (log r))).
Proof.
  unfold moveEvent.
  induction fuel as [|fuel IH]; intros attempts s; cbv zeta.
  { simpl. split; [all_events|]. split; [lia|].
    left. split; [done|]. simpl. intros [?|[]]. discriminate. }
  destruct (fs s !! src) as [sc|] eqn:Hsrc.
  2:{ rewrite (moveLoop_missing _ _ _ Hsrc). simpl.
      split; [all_events|]. split; [auto|].
      left. split; [done|]. intros [?|[]]. discriminate. }
  destruct (rename_result o attempts) as [c|] eqn:Hout.
  2:{ rewrite (moveLoop_ok _ _ _ _ Hsrc Hout). simpl.
      split; [all_events|]. split; [auto|].
      right. exists sc. repeat split; auto. }
  destruct (isLockError (SysError c)) eqn:Hlock.
  2:{ rewrite (moveLoop_other _ _ _ _ _ Hsrc Hout Hlock). simpl.
      split; [all_events|]. split; [auto|].
      left. split; [done|]. intros [?|[]]. discriminate. }
  rewrite (moveLoop_locked _ _ _ sc Hsrc) by (by exists c).
  destruct (IH (S attempts) s) as (Hev & _ & Hcase). simpl.
  split; [all_events; exact Hev|].
  split; [auto|].
  destruct Hcase as [[Hpost Hno]|(sc' & Hsc' & Hres & Hpost & Hin)].
  - left. split; [done|]. intros [?|[?|[?|?]]]; try discriminate. by apply Hno.
  - right. exists sc'. repeat split; auto. congruence.
Qed.

End Move.

Lemma moveFolderWithRetry_unfold SOURCE_DIR o src dst s :
  moveFolderWithRetry SOURCE_DIR o src dst s
  = mkRun (res (moveLoop o 10 0 src dst (atRoot SOURCE_DIR s)))
          (post (moveLoop o 10 0 src dst (atRoot SOURCE_DIR s)))
          (Chdir SOURCE_DIR :: log (moveLoop o 10 0 src dst (atRoot SOURCE_DIR s))).
Proof. reflexivity. Qed.

Lemma renameAttempts_app l1 l2 :
  renameAttempts (l1 ++ l2) = renameAttempts l1 + renameAttempts l2.
Proof. unfold renameAttempts. by rewrite List.filter_app, length_app. Qed.

Lemma renameAttempts_locked src dst n :
  renameAttempts (lockedAttempts src dst n) = n.
Proof.
  induction n as [|n IH]; [reflexivity|].
  unfold lockedAttempts in *. simpl. unfold renameAttempts in *. simpl.
  by rewrite IH.
Qed.

Lemma renameAttempts_chdir dir l :
  renameAttempts (Chdir dir :: l) = renameAttempts l.
Proof. reflexivity. Qed.

(** [n < 10] locked renames followed by a successful one. *)
Lemma move_after_locks SOURCE_DIR o src dst s sc n :
  fs s !! src = Some sc ->
  n < 10 ->
  (forall k, k < n -> lockedAt o k) ->
  rename_result o n = None ->
  moveFolderWithRetry SOURCE_DIR o src dst s
  = mkRun (Val tt) (moved src dst sc (atRoot SOURCE_DIR s))
      (Chdir SOURCE_DIR :: lockedAttempts src dst n
         ++ [Rename src dst; Console MsgMoved]).
Proof.
  intros Hsrc Hn Hlocked Hok. rewrite moveFolderWithRetry_unfold.
  replace 10 with (n + S (9 - n)) by lia.
  rewrite (moveLoop_retries o src dst n _ 0 _ sc) by done.
  by rewrite (moveLoop_ok o src dst (9 - n) (0 + n) (atRoot SOURCE_DIR s) sc Hsrc Hok).
Qed.

(** Ten locked renames: the loop gives up. *)
Lemma move_gives_up SOURCE_DIR o src dst s sc :
  fs s !! src = Some sc ->
  (forall k, k < 10 -> lockedAt o k) ->
  moveFolderWithRetry SOURCE_DIR o src dst s
  = mkRun (Val tt) (atRoot SOURCE_DIR s)
      (Chdir SOURCE_DIR :: lockedAttempts src dst 10 ++ [Console MsgMoveFailed]).
Proof.
  intros Hsrc Hlocked. rewrite moveFolderWithRetry_unfold.
  change 10 with (10 + 0) at 1 2 3.
  by rewrite (moveLoop_retries o src dst 10 _ 0 _ sc).
Qed.

(** A rename error outside the lock class is rethrown. *)
Lemma move_rethrows SOURCE_DIR o src dst s sc n c :
  fs s !! src = Some sc ->
  n < 10 ->
  (forall k, k < n -> lockedAt o k) ->
  rename_result o n = Some c ->
  isLockError (SysError c) = false ->
  moveFolderWithRetry SOURCE_DIR o src dst s
  = mkRun (Exc (SysError c)) (atRoot SOURCE_DIR s)
      (Chdir SOURCE_DIR :: lockedAttempts src dst n ++ [Rename src dst]).
Proof.
  intros Hsrc Hn Hlocked Hc Hother. rewrite moveFolderWithRetry_unfold.
  replace 10 with (n + S (9 - n)) by lia.
  rewrite (moveLoop_retries o src dst n _ 0 _ sc) by done.
  by rewrite (moveLoop_other o src dst (9 - n) (0 + n) (atRoot SOURCE_DIR s) sc c
                Hsrc Hc Hother).
Qed.

(** ** Sequences of stage steps *)

Lemma bind_res_val {A B} (m : M A) (f : A -> M B) s a :
  res (m s) = Val a ->
  bind m f s = mkRun (res (f a (post (m s)))) (post (f a (post (m s))))
                 (log (m s) ++ log (f a (post (m s)))).
Proof. intros H. unfold bind. by rewrite H. Qed.

Lemma bind_res_exc {A B} (m : M A) (f : A -> M B) s e :
  res (m s) = Exc e ->
  bind m f s = mkRun (Exc e) (post (m s)) (log (m s)).
Proof. intros H. unfold bind. by rewrite H. Qed.

Lemma stageStep_inv dir s s' :
  stageStep dir s s' ->
  cwd s' = cwd s
  /\ flagsLe (status s) (status s')
  /\ (forall q, q ≠ dir -> fs s' !! q = fs s !! q)
  /\ (fs s !! dir = None -> fs s' !! dir = None)
  /\ (forall sc, fs s !! dir = Some sc -> savedBelow dir s ->
        exists sc', fs s' !! dir = Some sc'
                    /\ flagsLe (readStatus sc) (readStatus sc')
                    /\ savedBelow dir s').
Proof.
  intros Hstep. inversion Hstep as [|st' Hle|st' Hle Hdir]; subst; simpl.
  - split_and!; auto using flagsLe_refl.
    intros sc Hsc Hbelow. exists sc. auto using flagsLe_refl.
  - split_and!; auto.
    intros sc Hsc Hbelow. exists sc. split_and!; auto using flagsLe_refl.
    intros sc' Hsc'. simpl in *. eapply flagsLe_trans; [by apply Hbelow | done].
  - split_and!; auto.
    + intros q Hq. by rewrite lookup_insert_ne.
    + intros Hnone. rewrite Hnone in Hdir. by destruct Hdir.
    + intros sc Hsc Hbelow. exists (Content st').
      rewrite lookup_insert_eq. split_and!; auto.
      * simpl. eapply flagsLe_trans; [by apply Hbelow | done].
      * intros sc'. simpl. rewrite lookup_insert_eq. intros [= <-].
        apply flagsLe_refl.
Qed.

Lemma stageSteps_inv dir s s' :
  rtc (stageStep dir) s s' ->
  cwd s' = cwd s
  /\ flagsLe (status s) (status s')
  /\ (forall q, q ≠ dir -> fs s' !! q = fs s !! q)
  /\ (fs s !! dir = None -> fs s' !! dir = None)
  /\ (forall sc, fs s !! dir = Some sc -> savedBelow dir s ->
        exists sc', fs s' !! dir = Some sc'
                    /\ flagsLe (readStatus sc) (readStatus sc')
                    /\ savedBelow dir s').
Proof.
  induction 1 as [s|s s1 s' Hstep _ IH].
  - split_and!; auto using flagsLe_refl.
    intros sc Hsc Hbelow. exists sc. auto using flagsLe_refl.
  - destruct (stageStep_inv _ _ _ Hstep) as (Hcwd & Hle & Hother & Hnone & Hsaved).
    destruct IH as (Hcwd' & Hle' & Hother' & Hnone' & Hsaved').
    split_and!.
    + congruence.
    + by eapply flagsLe_trans.
    + intros q Hq. rewrite Hother' by done. by apply Hother.
    + auto.
    + intros sc Hsc Hbelow.
      destruct (Hsaved sc Hsc Hbelow) as (sc1 & Hsc1 & Hle1 & Hbelow1).
      destruct (Hsaved' sc1 Hsc1 Hbelow1) as (sc2 & Hsc2 & Hle2 & Hbelow2).
      exists sc2. split_and!; auto. by eapply flagsLe_trans.
Qed.

Lemma stageBlock_seq dir stage m : stageBlock dir stage m -> stageSeq dir m.
Proof.
  intros Hblock s. destruct (Hblock s) as (Hstep & Hlog & _).
  split; [by apply rtc_once|].
  eapply Forall_impl; [exact Hlog|].
  intros e [He| ->]; [left; by rewrite He|].
  right. eexists. split; [done|]. by apply (stageStep_inv _ _ _ Hstep).
Qed.

Lemma stageSeq_bind dir m1 m2 :
  stageSeq dir m1 -> stageSeq dir m2 -> stageSeq dir (m1 ;; m2).
Proof.
  intros H1 H2 s. destruct (H1 s) as (Hsteps1 & Hlog1).
  destruct (res (m1 s)) as [[]|e] eqn:Hres.
  - rewrite (bind_res_val _ _ _ _ Hres). simpl.
    destruct (H2 (post (m1 s))) as (Hsteps2 & Hlog2).
    split; [by eapply rtc_trans|].
    apply Forall_app. split; [done|].
    eapply Forall_impl; [exact Hlog2|].
    intros ev [Hev|(st & -> & Hst)]; [by left|]. right. exists st. split; [done|].
    eapply flagsLe_trans; [|exact Hst]. by apply (stageSteps_inv _ _ _ Hsteps1).
  - by rewrite (bind_res_exc _ _ _ _ Hres).
Qed.

Lemma runStages_seq SOURCE_DIR o folder index :
  stageSeq (projectPath SOURCE_DIR folder) (runStages SOURCE_DIR o folder index).
Proof.
  unfold runStages.
  repeat apply stageSeq_bind; eapply stageBlock_seq;
    [apply githubStage_block | apply vercelStage_block | apply netlifyStage_block].
Qed.

(** With the three flags set, the three blocks are skipped. *)
Lemma runStages_skip SOURCE_DIR o folder index s :
  allDone (status s) = true ->
  runStages SOURCE_DIR o folder index s = mkRun (Val tt) s [].
Proof.
  unfold allDone. rewrite !andb_true_iff. intros [[Hg Hv] Hn].
  unfold runStages.
  rewrite (bind_val _ _ _ _ _ _
             (proj2 (proj2 (githubStage_block SOURCE_DIR o folder index s)) Hg)).
  rewrite (bind_val _ _ _ _ _ _
             (proj2 (proj2 (vercelStage_block SOURCE_DIR o folder index s)) Hv)).
  by rewrite (proj2 (proj2 (netlifyStage_block SOURCE_DIR o folder index s)) Hn).
Qed.

(** ** One folder *)

Section OneFolder.

Variable SOURCE_DIR : string.
Variable o : Oracle.
Variable folder : string.
Variable index : nat.

Abbreviation here := (projectPath SOURCE_DIR folder).

Lemma holdsNull_dec s :
  holdsNull SOURCE_DIR folder s \/ ~ holdsNull SOURCE_DIR folder s.
Proof.
  unfold holdsNull. destruct (fs s !! here) as [[| | |st|]|]; auto.
Qed.

Lemma loadStatus_run s :
  ~ holdsNull SOURCE_DIR folder s ->
  loadStatus SOURCE_DIR folder s = mkRun (Val tt) (loaded SOURCE_DIR folder s) [].
Proof.
  unfold holdsNull, loadStatus, loaded. intros Hrec. run.
  by destruct (fs s !! here) as [[| | |st|]|].
Qed.

(** The text [null] in the progress file: the status line raises, and
    nothing has been done. *)
Lemma loadStatus_null s :
  holdsNull SOURCE_DIR folder s ->
  loadStatus SOURCE_DIR folder s
  = mkRun (Exc TypeError) (loaded SOURCE_DIR folder s) [].
Proof.
  unfold holdsNull, loadStatus, loaded. intros Hnull. run. by rewrite Hnull.
Qed.

Lemma loaded_null s :
  holdsNull SOURCE_DIR folder s ->
  loaded SOURCE_DIR folder s = mkState (cwd s) (fs s) defaultStatus.
Proof. unfold holdsNull, loaded. by intros ->. Qed.

Lemma allDone_not_null s :
  allDone (status (loaded SOURCE_DIR folder s)) = true ->
  ~ holdsNull SOURCE_DIR folder s.
Proof. intros Hdone Hnull. by rewrite (loaded_null s Hnull) in Hdone. Qed.

Lemma gitPrepare_res s :
  if prepareOk o
  then res (gitPrepare SOURCE_DIR o folder s) = Val tt
  else exists e, res (gitPrepare SOURCE_DIR o folder s) = Exc e.
Proof.
  unfold prepareOk, gitPrepare. run.
  destruct (has_git o), (git_init o), (has_gitignore o), (write_gitignore o),
    (git_add o), (git_commit o); simpl; eauto.
Qed.

Lemma deployFolder_unfold s :
  deployFolder SOURCE_DIR o folder index s =
  match chdir_project o with
  | Some c => mkRun (Exc (SysError c)) s [Chdir here]
  | None =>
      match res (gitPrepare SOURCE_DIR o folder (inFolder SOURCE_DIR folder s)) with
      | Exc e =>
          mkRun (Exc e) (inFolder SOURCE_DIR folder s)
            (Chdir here :: log (gitPrepare SOURCE_DIR o folder (inFolder SOURCE_DIR folder s)))
      | Val _ =>
          mkRun (res (runStages SOURCE_DIR o folder index (inFolder SOURCE_DIR folder s)))
                (post (runStages SOURCE_DIR o folder index (inFolder SOURCE_DIR folder s)))
                (Chdir here :: log (gitPrepare SOURCE_DIR o folder (inFolder SOURCE_DIR folder s))
                   ++ log (runStages SOURCE_DIR o folder index (inFolder SOURCE_DIR folder s)))
      end
  end.
Proof.
  unfold deployFolder. destruct (chdir_project o) as [c|]; [reflexivity|].
  assert (Hcd : chdir here None s = mkRun (Val tt) (inFolder SOURCE_DIR folder s) [Chdir here])
    by reflexivity.
  rewrite (bind_val _ _ _ _ _ _ Hcd).
  pose proof (proj1 (gitPrepare_spec SOURCE_DIR o folder (inFolder SOURCE_DIR folder s))) as Hpost.
  destruct (res (gitPrepare SOURCE_DIR o folder (inFolder SOURCE_DIR folder s))) as [[]|e] eqn:Hres.
  - rewrite (bind_res_val _ _ _ _ Hres). simpl. by rewrite Hpost.
  - rewrite (bind_res_exc _ _ _ _ Hres). simpl. by rewrite Hpost.
Qed.

Lemma relocationGate_keep s :
  allDone (status s) = false ->
  relocationGate SOURCE_DIR o folder s = mkRun (Val tt) s [Console MsgKeeping].
Proof.
  intros Hdone. unfold relocationGate. rewrite bind_getStatus. by rewrite Hdone.
Qed.

Lemma relocationGate_move s :
  allDone (status s) = true ->
  relocationGate SOURCE_DIR o folder s =
  mkRun (res (moveLoop o 10 0 here (finalDest SOURCE_DIR o folder s) (atRoot SOURCE_DIR s)))
        (post (moveLoop o 10 0 here (finalDest SOURCE_DIR o folder s) (atRoot SOURCE_DIR s)))
        (Chdir SOURCE_DIR :: Sleep 1000 :: Chdir SOURCE_DIR
           :: log (moveLoop o 10 0 here (finalDest SOURCE_DIR o folder s) (atRoot SOURCE_DIR s))).
Proof.
  intros Hdone. unfold relocationGate. rewrite bind_getStatus. rewrite Hdone.
  reflexivity.
Qed.

(** One iteration, by cases on how far it gets. *)
Lemma processFolder_unfold s :
  ~ holdsNull SOURCE_DIR folder s ->
  processFolder SOURCE_DIR o folder index s =
  let d := deployFolder SOURCE_DIR o folder index (loaded SOURCE_DIR folder s) in
  match res d with
  | Exc _ =>
      mkRun (Val tt) (atRoot SOURCE_DIR (post d))
        (log d ++ [Console MsgCritical; Chdir SOURCE_DIR])
  | Val _ =>
      let g := relocationGate SOURCE_DIR o folder (post d) in
      match res g with
      | Val _ => mkRun (Val tt) (post g) (log d ++ log g)
      | Exc _ =>
          mkRun (Val tt) (atRoot SOURCE_DIR (post g))
            ((log d ++ log g) ++ [Console MsgCritical; Chdir SOURCE_DIR])
      end
  end.
Proof.
  intros Hrec.
  unfold processFolder. rewrite (bind_val _ _ _ _ _ _ (loadStatus_run s Hrec)).
  cbv zeta.
  generalize (deployFolder SOURCE_DIR o folder index)
    (relocationGate SOURCE_DIR o folder).
  intros deploy gate. unfold try_catch.
  destruct (res (deploy (loaded SOURCE_DIR folder s))) as [[]|e] eqn:Hd.
  - rewrite (bind_res_val _ _ _ _ Hd). simpl.
    destruct (res (gate (post (deploy (loaded SOURCE_DIR folder s))))) as [[]|e] eqn:Hg;
      simpl; rewrite ?Hg; reflexivity.
  - rewrite (bind_res_exc _ _ _ _ Hd). simpl. reflexivity.
Qed.

(** An iteration over a progress file that holds [null] raises before it
    does anything. *)
Lemma processFolder_null s :
  holdsNull SOURCE_DIR folder s ->
  processFolder SOURCE_DIR o folder index s
  = mkRun (Exc TypeError) (loaded SOURCE_DIR folder s) [].
Proof.
  intros Hnull. unfold processFolder.
  by rewrite (bind_exc _ _ _ _ _ _ (loadStatus_null s Hnull)).
Qed.

End OneFolder.

Section OneFolderOutcome.

Variable SOURCE_DIR : string.
Variable o : Oracle.
Variable folder : string.
Variable index : nat.

Abbreviation here := (projectPath SOURCE_DIR folder).
Abbreviation deploy := (deployFolder SOURCE_DIR o folder index).
Abbreviation gate := (relocationGate SOURCE_DIR o folder).
Abbreviation process := (processFolder SOURCE_DIR o folder index).

(** Up to the gate: possibly a change of directory, then stage steps. *)
Lemma deployFolder_outcome s :
  (exists s0, (s0 = s \/ s0 = inFolder SOURCE_DIR folder s)
              /\ rtc (stageStep here) s0 (post (deploy s)))
  /\ Forall (deployEvent SOURCE_DIR folder s) (log (deploy s))
  /\ (res (deploy s) = Val tt -> cwd (post (deploy s)) = here).
Proof.
  rewrite deployFolder_unfold.
  destruct (chdir_project o) as [c|]; simpl.
  { split_and!; [exists s; split; [by left | done] | | done].
    constructor; [by left | constructor]. }
  pose proof (proj2 (gitPrepare_spec SOURCE_DIR o folder
                       (inFolder SOURCE_DIR folder s))) as Hprep.
  assert (Hprep' : Forall (deployEvent SOURCE_DIR folder s)
            (log (gitPrepare SOURCE_DIR o folder (inFolder SOURCE_DIR folder s)))).
  { eapply Forall_impl; [exact Hprep|]. intros e He. right. by left. }
  destruct (res (gitPrepare SOURCE_DIR o folder (inFolder SOURCE_DIR folder s)))
    as [[]|e]; simpl.
  - destruct (runStages_seq SOURCE_DIR o folder index
                (inFolder SOURCE_DIR folder s)) as (Hsteps & Hlog).
    split_and!.
    + eexists. split; [by right | exact Hsteps].
    + constructor; [by left|]. apply Forall_app. split; [done|].
      eapply Forall_impl; [exact Hlog|]. intros ev Hev. right. by right.
    + intros _. by rewrite (proj1 (stageSteps_inv _ _ _ Hsteps)).
  - split_and!; [eexists; split; [by right | done] | | done].
    constructor; [by left | done].
Qed.

(** Nothing before the gate renames a folder or announces a move. *)
Lemma deployEvent_not_move s e :
  deployEvent SOURCE_DIR folder s e -> isRename e = false /\ e ≠ Console MsgMoved.
Proof.
  intros [ -> | [ [ -> | [ -> | [ -> | -> ] ] ] | [ Hc | (st & -> & _) ] ] ]; try done.
  destruct e as [[]| | | | | |]; try done; by destruct Hc.
Qed.

Lemma deployFolder_no_move s :
  (forall a b, ~ In (Rename a b) (log (deploy s)))
  /\ ~ In (Console MsgMoved) (log (deploy s)).
Proof.
  destruct (deployFolder_outcome s) as (_ & Hlog & _).
  rewrite Forall_forall in Hlog. split.
  - intros a b Hin. apply list_elem_of_In, Hlog, deployEvent_not_move in Hin.
    by destruct Hin.
  - intros Hin. apply list_elem_of_In, Hlog, deployEvent_not_move in Hin.
    by destruct Hin.
Qed.

(** The gate: keep the folder and the state, or try to move it. *)
Lemma relocationGate_outcome s :
  Forall (gateEvent SOURCE_DIR o folder s) (log (gate s))
  /\ (In (Rename here (finalDest SOURCE_DIR o folder s)) (log (gate s))
      <-> allDone (status s) = true)
  /\ (allDone (status s) = false -> gate s = mkRun (Val tt) s [Console MsgKeeping])
  /\ (allDone (status s) = true ->
        (post (gate s) = atRoot SOURCE_DIR s
         /\ ~ In (Console MsgMoved) (log (gate s)))
        \/ (exists sc, fs s !! here = Some sc /\ res (gate s) = Val tt
              /\ post (gate s)
                 = moved here (finalDest SOURCE_DIR o folder s) sc (atRoot SOURCE_DIR s)
              /\ In (Console MsgMoved) (log (gate s)))).
Proof.
  unfold gateEvent.
  destruct (allDone (status s)) eqn:Hdone.
  - rewrite (relocationGate_move _ _ _ _ Hdone). simpl.
    destruct (moveLoop_outcome o here (finalDest SOURCE_DIR o folder s) 10 0
                (atRoot SOURCE_DIR s)) as (Hev & Hren & Hcase).
    split_and!.
    + repeat (apply List.Forall_cons; [cbn beta; auto 8|]).
      eapply Forall_impl; [exact Hev|]. cbn beta. auto 8.
    + split; [done|]. intros _. do 3 right. apply Hren. lia.
    + done.
    + intros _. destruct Hcase as [[Hpost Hno]|(sc & Hsc & Hres & Hpost & Hin)].
      * left. split; [done|]. intros [?|[?|[?|?]]]; try discriminate. by apply Hno.
      * right. exists sc. split_and!; auto.
  - rewrite (relocationGate_keep _ _ _ _ Hdone). simpl.
    split_and!; [all_events | | done | done].
    split; [|done]. intros [?|[]]. discriminate.
Qed.

End OneFolderOutcome.

(** ** How one iteration can end *)

#[local] Arguments relocationGate : simpl never.
#[local] Arguments deployFolder : simpl never.
#[local] Arguments processFolder : simpl never.
#[local] Arguments moveLoop : simpl never.

Section Outcomes.

Variable SOURCE_DIR : string.
Variable o : Oracle.
Variable folder : string.
Variable index : nat.

Abbreviation here := (projectPath SOURCE_DIR folder).
Abbreviation deploy := (deployFolder SOURCE_DIR o folder index).
Abbreviation process := (processFolder SOURCE_DIR o folder index).
Abbreviation loaded' := (loaded SOURCE_DIR folder).
Abbreviation target := (finalDest SOURCE_DIR o folder).

Lemma processFolder_cases s :
  ~ holdsNull SOURCE_DIR folder s ->
  res (process s) = Val tt
  /\ (endsErrored SOURCE_DIR o folder index s
      \/ endsKept SOURCE_DIR o folder index s
      \/ endsStuck SOURCE_DIR o folder index s
      \/ endsRelocated SOURCE_DIR o folder index s).
Proof.
  intros Hrec. unfold endsErrored, endsKept, endsStuck, endsRelocated.
  rewrite (processFolder_unfold _ _ _ _ _ Hrec). cbv zeta.
  set (d := deploy (loaded' s)).
  destruct (relocationGate_outcome SOURCE_DIR o folder (post d))
    as (Hev & Hren & Hkeep & Hmove).
  assert (Hev' : Forall (tailEvent SOURCE_DIR o folder (post d))
                   (log (relocationGate SOURCE_DIR o folder (post d)))).
  { eapply Forall_impl; [exact Hev|]. intros ev Hevent. by left. }
  clear Hev.
  destruct (res d) as [[]|e] eqn:Hd.
  2:{ cbn [res post log]. split; [done|]. left. split_and!; eauto. }
  destruct (allDone (status (post d))) eqn:Hdone.
  2:{ rewrite (Hkeep eq_refl). simpl. split; [done|]. right. left. done. }
  apply proj2 in Hren. specialize (Hren eq_refl). specialize (Hmove eq_refl).
  clear Hkeep. revert Hev' Hren Hmove.
  generalize (relocationGate SOURCE_DIR o folder (post d)).
  intros g Hev' Hren [[Hpost Hno]|(sc & Hsc & Hres & Hpost & Hin)].
  - destruct (res g) as [[]|e];
      simpl; (split; [done|]); right; right; left.
    + split_and!; [done | done | done |]. eexists. split_and!; eauto.
    + rewrite Hpost. split_and!; [done | done | done |].
      rewrite <- app_assoc. eexists. split_and!; [done | | | ].
      * apply Forall_app. split; [done|].
        constructor; [by right|]. constructor; [|done]. left. by left.
      * apply in_or_app. by left.
      * intros [Hin|[Hin|[Hin|[]]]]%in_app_or; [by apply Hno | done | done].
  - rewrite Hres. simpl. split; [done|]. right; right; right.
    split_and!; [done | done | by exists sc |]. eexists. split_and!; eauto.
Qed.

End Outcomes.

(** * The claims *)

(** The end-to-end scenario of the specification: the folder "My Cool App"
    becomes the identity [my-cool-app]; GitHub and Netlify succeed, Vercel
    fails; the folder is kept. *)
Example end_to_end_scenario :
  let r := processFolder "/work" (withVercelDeploy (Some "") allOk)
             "My Cool App" 0 demoState in
  status (post r) = mkStatus true false true (Some "my-cool-app")
  /\ fs (post r) !! "/work/My Cool App"
     = Some (Content (mkStatus true false true (Some "my-cool-app")))
  /\ fs (post r) !! "/work/upload done/My Cool App" = None.
Proof. vm_compute. done. Qed.

(** ** ProgressStore *)

(** When the progress file of a folder is absent, unreadable or rejected by
    [JSON.parse], reading the status does not raise and leaves the default
    record, all three flags false; the identity then used,
    [status.repoName || baseName], is the derived name, which is never
    empty. *)
Lemma load_without_record SOURCE_DIR folder index s sc :
  fs s !! projectPath SOURCE_DIR folder = Some sc ->
  noRecord sc ->
  let r := loadStatus SOURCE_DIR folder s in
  res r = Val tt
  /\ status (post r) = defaultStatus
  /\ github (status (post r)) = false
  /\ vercel (status (post r)) = false
  /\ netlify (status (post r)) = false
  /\ orName (repoName (status (post r))) (baseName folder index)
     = cleanName folder index
  /\ cleanName folder index ≠ "".
Proof.
  intros Hsc Hno.
  rewrite loadStatus_run
    by (unfold holdsNull; rewrite Hsc; by destruct Hno as [->|[->| ->]]).
  simpl. rewrite Hsc.
  assert (Hdefault : readStatus sc = defaultStatus)
    by (by destruct Hno as [->|[->| ->]]).
  rewrite Hdefault. split_and!; try done.
  apply isEmpty_false, cleanName_nonempty.
Qed.

(** C4: the progress file of the first of two folders holds the text
    [null].  [JSON.parse] accepts it, the [catch] that tolerates a text it
    rejects is not reached, and the status line raises a [TypeError] outside
    the [try] of the iteration: nothing is done for the folder, [forEach]
    stops and the second folder is never processed.  With a text that
    [JSON.parse] rejects in the same place, the load goes through and both
    folders are processed. *)
Theorem null_record_raises :
  let malformed :=
    mkState "/work"
      {[ "/work/My Cool App" := Malformed; "/work/Other" := Absent ]}
      defaultStatus in
  let batch := forEachFolder "/work" (fun _ => allOk) ["My Cool App"; "Other"] 0 in
  res (loadStatus "/work" "My Cool App" nullState) = Exc TypeError
  /\ processFolder "/work" allOk "My Cool App" 0 nullState
     = mkRun (Exc TypeError) nullState []
  /\ batch nullState = mkRun (Exc TypeError) nullState []
  /\ res (loadStatus "/work" "My Cool App" malformed) = Val tt
  /\ res (batch malformed) = Val tt
  /\ In (Chdir "/work/Other") (log (batch malformed)).
Proof. vm_compute. split_and!; auto 30. Qed.

(** ** VersionControl: creating the repository *)

(** C10: every name [createGitHubRepo] tries, and the name it returns, is
    [projectName] itself or [projectName] followed by one numeric suffix
    below 100000; the function never raises, leaves the state alone and
    runs [gh repo create] at most 5 times. *)
Theorem retry_names_single_suffix o projectName s :
  exists name l,
    createGitHubRepo o projectName s = mkRun (Val name) s l
    /\ (name = projectName \/ suffixed projectName name)
    /\ Forall (createEvent projectName projectName) l
    /\ length l <= 5.
Proof. apply createGitHubRepo_spec. Qed.

(** The branch for "remote origin already exists" cannot be reached:
    [createGitHubRepo] never pushes. *)
Lemma createGitHubRepo_never_pushes o projectName s :
  ~ In (Exec GitPushMaster) (log (createGitHubRepo o projectName s))
  /\ ~ In (Exec GitPushMain) (log (createGitHubRepo o projectName s)).
Proof.
  destruct (createGitHubRepo_spec o projectName s) as (name & l & -> & _ & Hl & _).
  simpl. rewrite Forall_forall in Hl.
  split; intros Hin; apply list_elem_of_In, Hl in Hin;
    by destruct Hin as (n & ? & _).
Qed.

(** C6: [gh repo create] keeps failing with "remote origin already exists".
    The text contains "already exists", so the name-collision branch is
    taken each time: five creations under fresh names and no [git push]. *)
Theorem remote_exists_taken_for_collision :
  createGitHubRepo
    (withCreate (fun _ => Some "X remote origin already exists") allOk)
    "my-cool-app" demoState
  = mkRun (Val "my-cool-app-0") demoState
      [Exec (GhRepoCreate "my-cool-app");
       Exec (GhRepoCreate "my-cool-app-0");
       Exec (GhRepoCreate "my-cool-app-0");
       Exec (GhRepoCreate "my-cool-app-0");
       Exec (GhRepoCreate "my-cool-app-0")].
Proof. vm_compute. reflexivity. Qed.

(** C1: [gh repo create] fails for a reason other than a name collision.
    [createGitHubRepo] still returns the name, so the GitHub block sets
    [status.github] and saves the record. *)
Theorem failed_create_sets_github_flag :
  let r := githubStage "/work"
             (withCreate (fun _ => Some "HTTP 401: Bad credentials") allOk)
             "My Cool App" 0 demoState in
  log r = [Exec (GhRepoCreate "my-cool-app");
           WriteStatus "/work/My Cool App"
             (mkStatus true false false (Some "my-cool-app"))]
  /\ github (status (post r)) = true
  /\ fs (post r) !! "/work/My Cool App"
     = Some (Content (mkStatus true false false (Some "my-cool-app"))).
Proof. vm_compute. done. Qed.

(** Whatever [gh] answers, the GitHub block sets the flag when the record
    can be written. *)
Lemma githubStage_sets_flag SOURCE_DIR o folder index s sc :
  github (status s) = false ->
  fs s !! projectPath SOURCE_DIR folder = Some sc ->
  write_status o VersionControl = None ->
  let r := githubStage SOURCE_DIR o folder index s in
  github (status (post r)) = true
  /\ fs (post r) !! projectPath SOURCE_DIR folder = Some (Content (status (post r))).
Proof.
  intros Hflag Hdir Hwrite. unfold githubStage. rewrite bind_getStatus, Hflag.
  simpl.
  set (projectName := orName (repoName (status s)) (baseName folder index)).
  destruct (createGitHubRepo_spec o projectName s)
    as (name & l & Hrun & Hname & _ & _).
  rewrite (bind_val _ _ _ _ _ _ Hrun).
  assert (Hne : isEmpty name = false).
  { apply (candidate_nonempty projectName); [|done].
    apply orName_nonempty, cleanName_nonempty. }
  rewrite Hne. run. rewrite Hdir. simpl. rewrite Hwrite. simpl.
  by rewrite lookup_insert_eq.
Qed.

(** The Vercel block, entered with its flag unset: a failed deployment
    leaves the state as it was; a successful one sets the flag and, when the
    record can be written, saves it. *)
Lemma vercelStage_outcome SOURCE_DIR o folder index s sc :
  vercel (status s) = false ->
  fs s !! projectPath SOURCE_DIR folder = Some sc ->
  let r := vercelStage SOURCE_DIR o folder index s in
  res r = Val tt
  /\ match vercel_deploy o with
     | Some _ => post r = s
     | None =>
         vercel (status (post r)) = true
         /\ (write_status o HostA = None ->
             fs (post r) !! projectPath SOURCE_DIR folder
             = Some (Content (status (post r))))
     end.
Proof.
  intros Hflag Hdir. unfold vercelStage. rewrite bind_getStatus, Hflag. run.
  destruct (vercel_project_add o), (vercel_deploy o); simpl; try done;
    rewrite Hdir; simpl; destruct (write_status o HostA); simpl;
    split_and!; try done; intros _; by rewrite lookup_insert_eq.
Qed.

(** The same for the Netlify block. *)
Lemma netlifyStage_outcome SOURCE_DIR o folder index s sc :
  netlify (status s) = false ->
  fs s !! projectPath SOURCE_DIR folder = Some sc ->
  let r := netlifyStage SOURCE_DIR o folder index s in
  res r = Val tt
  /\ match netlify_deploy o with
     | Some _ => post r = s
     | None =>
         netlify (status (post r)) = true
         /\ (write_status o HostB = None ->
             fs (post r) !! projectPath SOURCE_DIR folder
             = Some (Content (status (post r))))
     end.
Proof.
  intros Hflag Hdir. unfold netlifyStage. rewrite bind_getStatus, Hflag. run.
  destruct (has_netlify o), (netlify_sites_create o), (netlify_link o),
    (netlify_deploy o); simpl; try done;
    rewrite Hdir; simpl; destruct (write_status o HostB); simpl;
    split_and!; try done; intros _; by rewrite lookup_insert_eq.
Qed.

(** ** RelocationGuard *)

(** C7: with the source in place, [moveFolderWithRetry]
    - after [n < 10] lock-class failures (EBUSY, EPERM, EACCES) and then a
      success, returns normally after exactly [n + 1] renames, each failure
      followed by a 3000 ms wait, and the folder is at the destination;
    - after ten lock-class failures, returns normally after 10 renames with
      the failure message, the directories unchanged;
    - at the first failure outside the lock class, rethrows it at once,
      the directories unchanged. *)
Theorem relocation_retry SOURCE_DIR o src dst s sc :
  fs s !! src = Some sc ->
  let r := moveFolderWithRetry SOURCE_DIR o src dst s in
  (forall n,
      n < 10 -> (forall k, k < n -> lockedAt o k) -> rename_result o n = None ->
      res r = Val tt
      /\ renameAttempts (log r) = n + 1
      /\ log r = Chdir SOURCE_DIR
                   :: (lockedAttempts src dst n
                         ++ [Rename src dst; Console MsgMoved])%list
      /\ fs (post r) = <[dst := sc]> (delete src (fs s)))
  /\ ((forall k, k < 10 -> lockedAt o k) ->
      res r = Val tt
      /\ renameAttempts (log r) = 10
      /\ log r = Chdir SOURCE_DIR
                   :: (lockedAttempts src dst 10 ++ [Console MsgMoveFailed])%list
      /\ fs (post r) = fs s)
  /\ (forall n c,
      n < 10 -> (forall k, k < n -> lockedAt o k) ->
      rename_result o n = Some c -> isLockError (SysError c) = false ->
      res r = Exc (SysError c)
      /\ renameAttempts (log r) = n + 1
      /\ log r = Chdir SOURCE_DIR :: (lockedAttempts src dst n ++ [Rename src dst])%list
      /\ fs (post r) = fs s).
Proof.
  intros Hsrc r. subst r. split_and!.
  - intros n Hn Hlocked Hok.
    rewrite (move_after_locks _ _ _ _ _ sc n) by done. simpl.
    split_and!; try done.
    rewrite renameAttempts_chdir, renameAttempts_app, renameAttempts_locked.
    reflexivity.
  - intros Hlocked. rewrite (move_gives_up _ _ _ _ _ sc) by done.
    split_and!; try done.
  - intros n c Hn Hlocked Hc Hother.
    rewrite (move_rethrows _ _ _ _ _ sc n c) by done. simpl.
    split_and!; try done.
    rewrite renameAttempts_chdir, renameAttempts_app, renameAttempts_locked.
    reflexivity.
Qed.

Lemma relocation_retry_witness :
  renameAttempts
    (log (moveFolderWithRetry "/work" lockedThrice "/work/My Cool App"
            "/work/upload done/My Cool App" demoState)) = 4.
Proof.
  refine (proj1 (proj2 (proj1
    (relocation_retry "/work" lockedThrice "/work/My Cool App"
       "/work/upload done/My Cool App" demoState Absent eq_refl) 3 _ _ _))).
  - lia.
  - intros k Hk. exists "EBUSY".
    destruct k as [|[|[|k]]]; [by split..|lia].
  - reflexivity.
Defined.

(** ** PipelineOrchestrator *)

(** The working directory at the end of an iteration: the batch root,
    unless the folder was kept because a stage is pending; then it is still
    the project folder. *)
Lemma cwd_after_processFolder SOURCE_DIR o folder index s :
  ~ holdsNull SOURCE_DIR folder s ->
  let r := processFolder SOURCE_DIR o folder index s in
  (endsKept SOURCE_DIR o folder index s
   /\ cwd (post r) = projectPath SOURCE_DIR folder)
  \/ (~ endsKept SOURCE_DIR o folder index s /\ cwd (post r) = SOURCE_DIR).
Proof.
  intros Hrec.
  destruct (processFolder_cases SOURCE_DIR o folder index s Hrec)
    as (_ & [Hend|[Hend|[Hend|Hend]]]); cbv zeta.
  - right. destruct Hend as ((e & He) & -> & _). split; [|done].
    intros (Hval & _). congruence.
  - left. split; [done|]. destruct Hend as (Hval & _ & -> & _).
    by apply deployFolder_outcome.
  - right. destruct Hend as (_ & Hdone & -> & _). split; [|done].
    intros (_ & Hnot & _). congruence.
  - right. destruct Hend as (_ & Hdone & (sc & _ & ->) & _). split; [|done].
    intros (_ & Hnot & _). congruence.
Qed.

(** C9: Vercel fails in a batch of two folders.  The first iteration ends
    in its [else] branch without [process.chdir(SOURCE_DIR)]: the second
    folder is entered from inside the first, and after an iteration that
    keeps its folder the working directory is that folder, not the batch
    root. *)
Theorem cwd_not_restored_when_kept :
  let o := withVercelDeploy (Some "") allOk in
  let s := mkState "/work" {[ "/work/a" := Absent; "/work/b" := Absent ]}
             defaultStatus in
  cwd (post (processFolder "/work" o "a" 0 s)) = "/work/a"
  /\ log (processFolder "/work" o "a" 0 s)
     = [Chdir "/work/a"; Exec GitAdd; Exec GitCommit;
        Exec (GhRepoCreate "a");
        WriteStatus "/work/a" (mkStatus true false false (Some "a"));
        Exec (VercelProjectAdd "a"); Exec VercelDeploy;
        Exec NetlifyDeploy;
        WriteStatus "/work/a" (mkStatus true false true (Some "a"));
        Console MsgKeeping]
  /\ cwd (post (forEachFolder "/work" (fun _ => o) ["a"; "b"] 0 s)) = "/work/b".
Proof. vm_compute. done. Qed.

Lemma prepareEvent_local dir e : prepareEvent dir e -> localEvent e.
Proof. intros [->|[->|[->| ->]]]; by split. Qed.

Lemma tailEvent_local SOURCE_DIR o folder s e :
  tailEvent SOURCE_DIR o folder s e -> localEvent e.
Proof.
  intros [[->|[->|[->|[->|[->|[->|[->| ->]]]]]]]| ->]; by split.
Qed.

(** With the three flags set, only the directory change and the git
    preparation happen before the gate, and the state is left alone. *)
Lemma deployFolder_allDone SOURCE_DIR o folder index s :
  allDone (status s) = true ->
  Forall localEvent (log (deployFolder SOURCE_DIR o folder index s))
  /\ status (post (deployFolder SOURCE_DIR o folder index s)) = status s
  /\ fs (post (deployFolder SOURCE_DIR o folder index s)) = fs s
  /\ (chdir_project o = None -> prepareOk o = true ->
      res (deployFolder SOURCE_DIR o folder index s) = Val tt).
Proof.
  intros Hdone. rewrite deployFolder_unfold.
  destruct (chdir_project o) as [c|].
  { simpl. split_and!; [|done..]. constructor; [by split | done]. }
  pose proof (gitPrepare_res SOURCE_DIR o folder (inFolder SOURCE_DIR folder s)) as Hres.
  pose proof (proj2 (gitPrepare_spec SOURCE_DIR o folder
                       (inFolder SOURCE_DIR folder s))) as Hlog.
  assert (Hlocal : Forall localEvent
            (log (gitPrepare SOURCE_DIR o folder (inFolder SOURCE_DIR folder s)))).
  { eapply Forall_impl; [exact Hlog|]. apply prepareEvent_local. }
  rewrite (runStages_skip SOURCE_DIR o folder index (inFolder SOURCE_DIR folder s))
    by done.
  destruct (res (gitPrepare SOURCE_DIR o folder (inFolder SOURCE_DIR folder s)))
    as [[]|e]; simpl.
  - split_and!; [|done..]. constructor; [by split|]. by rewrite app_nil_r.
  - split_and!; [|done|done|].
    + constructor; [by split | done].
    + intros _ Hok. rewrite Hok in Hres. discriminate.
Qed.

(** C5 (as amended): a stage block whose flag is set makes no call and
    changes nothing.  For a folder whose record has the three flags set, an
    iteration calls none of the three collaborators and saves nothing; it
    only changes directory, prepares git (git init / .gitignore if missing,
    git add, git commit) and, when that preparation goes through, goes on to
    the move. *)
Theorem done_stages_are_skipped SOURCE_DIR o folder index s :
  (github (status s) = true ->
   githubStage SOURCE_DIR o folder index s = mkRun (Val tt) s [])
  /\ (vercel (status s) = true ->
      vercelStage SOURCE_DIR o folder index s = mkRun (Val tt) s [])
  /\ (netlify (status s) = true ->
      netlifyStage SOURCE_DIR o folder index s = mkRun (Val tt) s [])
  /\ (allDone (status (loaded SOURCE_DIR folder s)) = true ->
      Forall localEvent (log (processFolder SOURCE_DIR o folder index s))
      /\ (chdir_project o = None -> prepareOk o = true ->
          In (Rename (projectPath SOURCE_DIR folder)
                (finalDest SOURCE_DIR o folder s))
             (log (processFolder SOURCE_DIR o folder index s)))).
Proof.
  split_and!.
  - apply (githubStage_block SOURCE_DIR o folder index s).
  - apply (vercelStage_block SOURCE_DIR o folder index s).
  - apply (netlifyStage_block SOURCE_DIR o folder index s).
  - intros Hdone.
    destruct (deployFolder_allDone SOURCE_DIR o folder index _ Hdone)
      as (Hlocal & Hstatus & Hfs & Hres).
    assert (Htarget : finalDest SOURCE_DIR o folder
                        (post (deployFolder SOURCE_DIR o folder index
                                 (loaded SOURCE_DIR folder s)))
                      = finalDest SOURCE_DIR o folder s)
      by (unfold finalDest; by rewrite Hfs).
    assert (Htail : forall lg,
              Forall (tailEvent SOURCE_DIR o folder
                        (post (deployFolder SOURCE_DIR o folder index
                                 (loaded SOURCE_DIR folder s)))) lg ->
              Forall localEvent lg).
    { intros lg Hlg. eapply Forall_impl; [exact Hlg|]. apply tailEvent_local. }
    destruct (processFolder_cases SOURCE_DIR o folder index s
                (allDone_not_null SOURCE_DIR folder s Hdone))
      as (_ & [Hend|[Hend|[Hend|Hend]]]).
    + destruct Hend as ((e & He) & _ & ->). split.
      * apply Forall_app. split; [done|]. by repeat constructor.
      * intros Hcd Hok. rewrite (Hres Hcd Hok) in He. discriminate.
    + destruct Hend as (_ & Hnot & _). unfold allDone in *.
      rewrite Hstatus in Hnot. congruence.
    + destruct Hend as (_ & _ & _ & lg & -> & Hlg & Hin & _). split.
      * apply Forall_app. auto.
      * intros _ _. apply in_or_app. right. by rewrite <- Htarget.
    + destruct Hend as (_ & _ & _ & lg & -> & Hlg & Hin & _). split.
      * apply Forall_app. auto.
      * intros _ _. apply in_or_app. right. by rewrite <- Htarget.
Qed.

Lemma done_stages_are_skipped_witness :
  Forall localEvent (log (processFolder "/work" allOk "My Cool App" 0 doneState))
  /\ In (Rename "/work/My Cool App" "/work/upload done/My Cool App")
        (log (processFolder "/work" allOk "My Cool App" 0 doneState)).
Proof.
  destruct (proj2 (proj2 (proj2
    (done_stages_are_skipped "/work" allOk "My Cool App" 0 doneState))) eq_refl)
    as (Hlocal & Hmove).
  split; [exact Hlocal | exact (Hmove eq_refl eq_refl)].
Defined.

(** C5 as stated fails: with the three flags set, the iteration still runs
    [git add .] and [git commit] through [execSync] before it moves the
    folder. *)
Lemma done_folder_still_runs_git :
  allDone (status (loaded "/work" "My Cool App" doneState)) = true
  /\ log (processFolder "/work" allOk "My Cool App" 0 doneState)
     = [Chdir "/work/My Cool App"; Exec GitAdd; Exec GitCommit;
        Chdir "/work"; Sleep 1000; Chdir "/work";
        Rename "/work/My Cool App" "/work/upload done/My Cool App";
        Console MsgMoved]
  /\ ~ Forall (fun e => forall c, e ≠ Exec c)
         (log (processFolder "/work" allOk "My Cool App" 0 doneState)).
Proof.
  split_and!; [by vm_compute | by vm_compute |].
  intros Hall. rewrite Forall_forall in Hall.
  apply (Hall (Exec GitAdd)) with GitAdd; [|done].
  apply list_elem_of_In. vm_compute. auto.
Qed.

(** What the part before the gate does to the directories and the record. *)
Lemma deployFolder_inv SOURCE_DIR o folder index s :
  let d := deployFolder SOURCE_DIR o folder index s in
  flagsLe (status s) (status (post d))
  /\ (forall q, q ≠ projectPath SOURCE_DIR folder -> fs (post d) !! q = fs s !! q)
  /\ (fs s !! projectPath SOURCE_DIR folder = None ->
      fs (post d) !! projectPath SOURCE_DIR folder = None)
  /\ (forall sc, fs s !! projectPath SOURCE_DIR folder = Some sc ->
        savedBelow (projectPath SOURCE_DIR folder) s ->
        exists sc', fs (post d) !! projectPath SOURCE_DIR folder = Some sc'
                    /\ flagsLe (readStatus sc) (readStatus sc')
                    /\ savedBelow (projectPath SOURCE_DIR folder) (post d)).
Proof.
  cbv zeta.
  destruct (deployFolder_outcome SOURCE_DIR o folder index s)
    as ((s0 & Hs0 & Hsteps) & _ & _).
  destruct (stageSteps_inv _ _ _ Hsteps) as (_ & Hle & Hother & Hnone & Hsaved).
  by destruct Hs0 as [->| ->].
Qed.

Lemma loaded_savedBelow SOURCE_DIR folder s :
  savedBelow (projectPath SOURCE_DIR folder) (loaded SOURCE_DIR folder s).
Proof. intros sc Hsc. simpl in *. rewrite Hsc. apply flagsLe_refl. Qed.

Lemma finalDest_ne_projectPath SOURCE_DIR o folder s :
  finalDest SOURCE_DIR o folder s ≠ projectPath SOURCE_DIR folder.
Proof.
  unfold finalDest. case_bool_decide;
    [apply stampedDest_ne_projectPath | apply dest_ne_projectPath].
Qed.


(** C2 (as amended): for a folder present at its path, the move is
    attempted exactly when the progress file does not hold [null], the code
    before the gate ends without an error and leaves the three flags set;
    the folder leaves its path exactly when
    a rename of that attempt succeeds ("Moved" is reported), and it is then
    at the final destination; in every other case it is still at its
    path. *)
Theorem moved_only_when_all_done SOURCE_DIR o folder index s sc :
  fs s !! projectPath SOURCE_DIR folder = Some sc ->
  let d := deployFolder SOURCE_DIR o folder index (loaded SOURCE_DIR folder s) in
  let r := processFolder SOURCE_DIR o folder index s in
  ((exists dst, In (Rename (projectPath SOURCE_DIR folder) dst) (log r))
   <-> sc ≠ Null /\ res d = Val tt /\ allDone (status (post d)) = true)
  /\ (fs (post r) !! projectPath SOURCE_DIR folder = None
      <-> In (Console MsgMoved) (log r))
  /\ (In (Console MsgMoved) (log r) ->
      res d = Val tt /\ allDone (status (post d)) = true
      /\ is_Some (fs (post r) !! finalDest SOURCE_DIR o folder (post d)))
  /\ (~ In (Console MsgMoved) (log r) ->
      is_Some (fs (post r) !! projectPath SOURCE_DIR folder)).
Proof.
  intros Hsc. cbv zeta.
  destruct (holdsNull_dec SOURCE_DIR folder s) as [Hnull|Hrec].
  { rewrite (processFolder_null SOURCE_DIR o folder index s Hnull).
    cbn [res post log loaded fs].
    assert (sc = Null) as -> by (unfold holdsNull in Hnull; congruence).
    split_and!.
    - split; [by intros (dst & []) | by intros (Hne & _)].
    - split; [by rewrite Hsc | by intros []].
    - by intros [].
    - intros _. rewrite Hsc. by eexists. }
  assert (Hsc_rec : sc ≠ Null) by (intros ->; by apply Hrec).
  destruct (deployFolder_inv SOURCE_DIR o folder index (loaded SOURCE_DIR folder s))
    as (_ & _ & _ & Hkeep).
  destruct (Hkeep sc Hsc (loaded_savedBelow SOURCE_DIR folder s))
    as (sc' & Hsc' & _ & _).
  destruct (deployFolder_no_move SOURCE_DIR o folder index
              (loaded SOURCE_DIR folder s)) as (Hnoren & Hnomsg).
  pose proof (finalDest_ne_projectPath SOURCE_DIR o folder
                (post (deployFolder SOURCE_DIR o folder index
                         (loaded SOURCE_DIR folder s)))) as Hne.
  destruct (processFolder_cases SOURCE_DIR o folder index s Hrec)
    as (_ & [Hend|[Hend|[Hend|Hend]]]).
  - destruct Hend as ((e & He) & -> & ->). simpl.
    assert (Hno : ~ In (Console MsgMoved)
              (log (deployFolder SOURCE_DIR o folder index
                      (loaded SOURCE_DIR folder s))
               ++ [Console MsgCritical; Chdir SOURCE_DIR])).
    { intros [?|[?|[?|[]]]]%in_app_or; done. }
    split_and!.
    + split.
      * intros (dst & [Hin|[?|[?|[]]]]%in_app_or); try done. by apply Hnoren in Hin.
      * intros (_ & Hval & _). congruence.
    + split; [congruence | done].
    + done.
    + by rewrite Hsc'.
  - destruct Hend as (Hval & Hnot & -> & ->).
    assert (Hno : ~ In (Console MsgMoved)
              (log (deployFolder SOURCE_DIR o folder index
                      (loaded SOURCE_DIR folder s))
               ++ [Console MsgKeeping])).
    { intros [?|[?|[]]]%in_app_or; done. }
    split_and!.
    + split.
      * intros (dst & [Hin|[?|[]]]%in_app_or); try done. by apply Hnoren in Hin.
      * intros (_ & _ & Hdone). congruence.
    + split; [congruence | done].
    + done.
    + by rewrite Hsc'.
  - destruct Hend as (Hval & Hdone & -> & lg & -> & Hlg & Hin & Hnomoved). simpl.
    assert (Hno : ~ In (Console MsgMoved)
              (log (deployFolder SOURCE_DIR o folder index
                      (loaded SOURCE_DIR folder s)) ++ lg)).
    { intros [?|?]%in_app_or; done. }
    split_and!.
    + split; [done|]. intros _. eexists. apply in_or_app. right. exact Hin.
    + split; [congruence | done].
    + done.
    + by rewrite Hsc'.
  - destruct Hend as (Hval & Hdone & (sc0 & Hsc0 & ->) & lg & -> & Hlg & Hin & Hmoved).
    simpl.
    assert (Hgone : <[finalDest SOURCE_DIR o folder
                        (post (deployFolder SOURCE_DIR o folder index
                                 (loaded SOURCE_DIR folder s))) := sc0]>
                      (delete (projectPath SOURCE_DIR folder)
                         (fs (post (deployFolder SOURCE_DIR o folder index
                                      (loaded SOURCE_DIR folder s)))))
                    !! projectPath SOURCE_DIR folder = None).
    { rewrite lookup_insert_ne by done. apply lookup_delete_eq. }
    assert (Hyes : In (Console MsgMoved)
              (log (deployFolder SOURCE_DIR o folder index
                      (loaded SOURCE_DIR folder s)) ++ lg)).
    { apply in_or_app. by right. }
    split_and!.
    + split; [done|]. intros _. eexists. apply in_or_app. right. exact Hin.
    + done.
    + intros _. split_and!; [done..|]. rewrite lookup_insert_eq. by eexists.
    + done.
Qed.

Lemma moved_only_when_all_done_witness :
  In (Console MsgMoved) (log (processFolder "/work" allOk "My Cool App" 0 demoState))
  /\ fs (post (processFolder "/work" allOk "My Cool App" 0 demoState))
       !! "/work/My Cool App" = None.
Proof.
  pose proof (moved_only_when_all_done "/work" allOk "My Cool App" 0 demoState
                Absent eq_refl) as (_ & Hmoved & _).
  assert (Hin : In (Console MsgMoved)
                  (log (processFolder "/work" allOk "My Cool App" 0 demoState))).
  { vm_compute. auto 20. }
  split; [exact Hin | exact (proj2 Hmoved Hin)].
Defined.

(** C2 as stated fails: the three flags are set and saved, yet the folder
    is not in "upload done": ten renames fail with EBUSY and it stays where
    it was. *)
Lemma all_done_but_not_moved :
  let r := processFolder "/work" alwaysLocked "My Cool App" 0 demoState in
  allDone (status (post r)) = true
  /\ fs (post r) !! "/work/My Cool App"
     = Some (Content (mkStatus true true true (Some "my-cool-app")))
  /\ fs (post r) !! "/work/upload done/My Cool App" = None
  /\ renameAttempts (log r) = 10.
Proof. vm_compute. done. Qed.



(** ** Monotonicity of the record *)

Lemma deployEvent_save SOURCE_DIR folder s e :
  deployEvent SOURCE_DIR folder s e ->
  forall d st, e = WriteStatus d st ->
    d = projectPath SOURCE_DIR folder /\ flagsLe (status s) st.
Proof.
  intros [ -> | [ [ -> | [ -> | [ -> | -> ] ] ] | [ Hc | (st' & -> & Hle) ] ] ] d st;
    try done.
  - intros ->. by destruct Hc.
  - by intros [= <- <-].
Qed.

(** One iteration and the record of its folder. *)
Lemma processFolder_record SOURCE_DIR o folder index s :
  let r := processFolder SOURCE_DIR o folder index s in
  (fs s !! projectPath SOURCE_DIR folder = None ->
   fs (post r) !! projectPath SOURCE_DIR folder = None)
  /\ (forall sc, fs s !! projectPath SOURCE_DIR folder = Some sc ->
        fs (post r) !! projectPath SOURCE_DIR folder = None
        \/ exists sc', fs (post r) !! projectPath SOURCE_DIR folder = Some sc'
                       /\ flagsLe (readStatus sc) (readStatus sc'))
  /\ flagsLe (status (loaded SOURCE_DIR folder s)) (status (post r))
  /\ savesAbove (projectPath SOURCE_DIR folder)
       (status (loaded SOURCE_DIR folder s)) (log r).
Proof.
  cbv zeta.
  destruct (holdsNull_dec SOURCE_DIR folder s) as [Hnull|Hrec].
  { rewrite (processFolder_null SOURCE_DIR o folder index s Hnull).
    cbn [res post log]. split_and!.
    - done.
    - intros sc Hsc. right. exists sc. split; [done | apply flagsLe_refl].
    - apply flagsLe_refl.
    - constructor. }
  set (d := deployFolder SOURCE_DIR o folder index (loaded SOURCE_DIR folder s)).
  destruct (deployFolder_inv SOURCE_DIR o folder index (loaded SOURCE_DIR folder s))
    as (Hle & _ & Hnone & Hkeep).
  fold d in Hle, Hnone, Hkeep.
  assert (Hkeep' : forall sc, fs s !! projectPath SOURCE_DIR folder = Some sc ->
            exists sc', fs (post d) !! projectPath SOURCE_DIR folder = Some sc'
                        /\ flagsLe (readStatus sc) (readStatus sc')).
  { intros sc Hsc.
    destruct (Hkeep sc Hsc (loaded_savedBelow SOURCE_DIR folder s))
      as (sc' & ? & ? & _). eauto. }
  assert (Hsaves : savesAbove (projectPath SOURCE_DIR folder)
                     (status (loaded SOURCE_DIR folder s)) (log d)).
  { destruct (deployFolder_outcome SOURCE_DIR o folder index
                (loaded SOURCE_DIR folder s)) as (_ & Hlog & _).
    eapply Forall_impl; [exact Hlog|]. intros e He. by apply deployEvent_save. }
  assert (Htail : forall lg,
            Forall (tailEvent SOURCE_DIR o folder (post d)) lg ->
            savesAbove (projectPath SOURCE_DIR folder)
              (status (loaded SOURCE_DIR folder s)) lg).
  { intros lg Hlg. eapply Forall_impl; [exact Hlg|].
    intros e He dir st ->. apply tailEvent_local in He. destruct He as (_ & He).
    by destruct (He dir st). }
  destruct (processFolder_cases SOURCE_DIR o folder index s Hrec)
    as (_ & [Hend|[Hend|[Hend|Hend]]]).
  - destruct Hend as (_ & -> & ->). fold d. cbn [fs status atRoot].
    split_and!; auto.
    apply Forall_app. split; [done|]. by repeat constructor.
  - destruct Hend as (_ & _ & -> & ->). fold d. split_and!; auto.
    apply Forall_app. split; [done|]. by repeat constructor.
  - destruct Hend as (_ & _ & -> & lg & -> & Hlg & _). fold d in Hlg |- *.
    cbn [fs status atRoot].
    split_and!; auto. apply Forall_app. split; [done|]. by apply Htail.
  - destruct Hend as (_ & _ & (sc0 & Hsc0 & ->) & lg & -> & Hlg & _).
    fold d in Hsc0, Hlg |- *. cbn [fs status atRoot moved].
    assert (Hgone : <[finalDest SOURCE_DIR o folder (post d) := sc0]>
                      (delete (projectPath SOURCE_DIR folder) (fs (post d)))
                    !! projectPath SOURCE_DIR folder = None).
    { rewrite lookup_insert_ne by apply finalDest_ne_projectPath.
      apply lookup_delete_eq. }
    split_and!; auto. apply Forall_app. split; [done|]. by apply Htail.
Qed.

Lemma processFolder_returns SOURCE_DIR o folder index s :
  ~ holdsNull SOURCE_DIR folder s ->
  res (processFolder SOURCE_DIR o folder index s) = Val tt.
Proof. intros Hrec. by apply processFolder_cases. Qed.

(** Any number of invocations and the record of the folder. *)
Lemma rerun_record SOURCE_DIR folder index passes :
  forall s,
    let r := rerun SOURCE_DIR passes folder index s in
    (fs s !! projectPath SOURCE_DIR folder = None ->
     fs (post r) !! projectPath SOURCE_DIR folder = None)
    /\ (forall sc sc',
          fs s !! projectPath SOURCE_DIR folder = Some sc ->
          fs (post r) !! projectPath SOURCE_DIR folder = Some sc' ->
          flagsLe (readStatus sc) (readStatus sc')).
Proof.
  induction passes as [|o rest IH]; intros s; cbv zeta.
  { simpl. split; [done|]. intros sc sc' -> [= <-]. apply flagsLe_refl. }
  change (rerun SOURCE_DIR (o :: rest) folder index s)
    with (bind (processFolder SOURCE_DIR o folder index)
            (fun _ => rerun SOURCE_DIR rest folder index) s).
  destruct (holdsNull_dec SOURCE_DIR folder s) as [Hnull|Hrec].
  { rewrite (bind_exc _ _ _ _ _ _
               (processFolder_null SOURCE_DIR o folder index s Hnull)).
    cbn [res post log loaded fs]. split; [done|].
    intros sc sc' -> [= <-]. apply flagsLe_refl. }
  rewrite (bind_res_val _ _ _ _
             (processFolder_returns SOURCE_DIR o folder index s Hrec)).
  cbn [res post log].
  destruct (IH (post (processFolder SOURCE_DIR o folder index s)))
    as (Hnone & Hmono).
  destruct (processFolder_record SOURCE_DIR o folder index s)
    as (Hnone1 & Hmono1 & _ & _).
  split; [auto|].
  intros sc sc' Hsc Hsc'.
  destruct (Hmono1 sc Hsc) as [Hgone|(sc1 & Hsc1 & Hle1)].
  - rewrite (Hnone Hgone) in Hsc'. discriminate.
  - eapply flagsLe_trans; [exact Hle1|]. by eapply Hmono.
Qed.

(** C3: let a folder be processed any number of times, with any outcomes of
    the external calls, and then once more.  The record found at that last
    invocation shows every flag the first record showed; during it the
    in-memory record, every record it writes and the record it leaves in
    the folder show every flag that was found. *)
Theorem flags_never_regress SOURCE_DIR passes o folder index s sc sc1 :
  fs s !! projectPath SOURCE_DIR folder = Some sc ->
  let s1 := post (rerun SOURCE_DIR passes folder index s) in
  fs s1 !! projectPath SOURCE_DIR folder = Some sc1 ->
  let r := processFolder SOURCE_DIR o folder index s1 in
  flagsLe (readStatus sc) (readStatus sc1)
  /\ status (loaded SOURCE_DIR folder s1) = readStatus sc1
  /\ flagsLe (readStatus sc1) (status (post r))
  /\ savesAbove (projectPath SOURCE_DIR folder) (readStatus sc1) (log r)
  /\ (forall sc2, fs (post r) !! projectPath SOURCE_DIR folder = Some sc2 ->
        flagsLe (readStatus sc1) (readStatus sc2)).
Proof.
  intros Hsc s1 Hsc1 r. subst r.
  destruct (rerun_record SOURCE_DIR folder index passes s) as (_ & Hmono).
  destruct (processFolder_record SOURCE_DIR o folder index s1)
    as (_ & Hmono1 & Hmem & Hsaves).
  assert (Hload : status (loaded SOURCE_DIR folder s1) = readStatus sc1)
    by (simpl; by rewrite Hsc1).
  rewrite Hload in Hmem, Hsaves.
  split_and!; [by eapply Hmono | done | done | done |].
  intros sc2 Hsc2. destruct (Hmono1 sc1 Hsc1) as [Hgone|(sc' & Hsc' & Hle)];
    congruence.
Qed.

Lemma flags_never_regress_witness :
  let s1 := post (rerun "/work" [withVercelDeploy (Some "") allOk]
                    "My Cool App" 0 demoState) in
  let r := processFolder "/work" alwaysLocked "My Cool App" 0 s1 in
  flagsLe defaultStatus (mkStatus true false true (Some "my-cool-app"))
  /\ flagsLe (mkStatus true false true (Some "my-cool-app")) (status (post r)).
Proof.
  pose proof (flags_never_regress "/work" [withVercelDeploy (Some "") allOk]
                alwaysLocked "My Cool App" 0 demoState Absent
                (Content (mkStatus true false true (Some "my-cool-app")))
                eq_refl eq_refl) as (H1 & _ & H2 & _).
  split; [exact H1 | exact H2].
Defined.

(** * Further properties *)

#[local] Arguments isDash : simpl never.
#[local] Arguments isSpace : simpl never.
#[local] Arguments isSlugChar : simpl never.
#[local] Arguments isDigit : simpl never.
#[local] Arguments lowerChar : simpl never.

(** ** Cleaned names *)

Lemma allChars_app p a b : allChars p (a +:+ b) = allChars p a && allChars p b.
Proof.
  induction a as [|c a IH]; [reflexivity|].
  rewrite app_cons. simpl. by rewrite IH, andb_assoc.
Qed.

Lemma allChars_impl (p q : ascii -> bool) s :
  (forall c, p c = true -> q c = true) ->
  allChars p s = true -> allChars q s = true.
Proof.
  intros Hpq. induction s as [|c s IH]; [done|]. simpl.
  rewrite !andb_true_iff. intros [Hc Hs]. auto.
Qed.

Lemma allChars_keepSlugChars s : allChars isSlugChar (keepSlugChars s) = true.
Proof.
  induction s as [|c s IH]; [done|]. simpl.
  destruct (isSlugChar c) eqn:Hc; [|done]. simpl. by rewrite Hc.
Qed.

(** Replacing runs only keeps characters or writes a dash. *)
Lemma allChars_replaceRuns p q s :
  p "-"%char = true ->
  allChars p s = true -> allChars p (replaceRuns q s) = true.
Proof.
  intros Hdash. induction s as [|c s IH]; [done|]. simpl.
  rewrite andb_true_iff. intros [Hc Hs].
  destruct (q c); [destruct (startsWith q s)|]; simpl; rewrite ?Hdash, ?Hc; auto.
Qed.

Lemma allChars_dropTrailingDash p s :
  allChars p s = true -> allChars p (dropTrailingDash s) = true.
Proof.
  induction s as [|c s IH]; [done|]. simpl.
  rewrite andb_true_iff. intros [Hc Hs].
  destruct s as [|d s]; [by destruct (isDash c); simpl; rewrite ?Hc|].
  change (allChars p (String c (dropTrailingDash (String d s))) = true).
  simpl allChars at 1. rewrite Hc. by apply IH.
Qed.

Lemma allChars_trimDashes p s :
  allChars p s = true -> allChars p (trimDashes s) = true.
Proof.
  destruct s as [|c s]; [done|]. unfold trimDashes.
  destruct (isDash c); [|apply allChars_dropTrailingDash].
  simpl. rewrite andb_true_iff. intros [_ Hs]. by apply allChars_dropTrailingDash.
Qed.

Lemma pretty_N_char_digit x : isDigit (pretty_N_char x) = true.
Proof. unfold pretty_N_char. by repeat case_match. Qed.

Lemma allChars_pretty_N_go x :
  forall s, allChars isDigit s = true -> allChars isDigit (pretty_N_go x s) = true.
Proof.
  induction (N.lt_wf_0 x) as [x _ IH]. intros s Hs.
  destruct (decide (x = 0%N)) as [->|Hx]; [by rewrite pretty_N_go_0|].
  rewrite pretty_N_go_step by lia.
  apply IH; [apply N.div_lt; lia|]. simpl. by rewrite pretty_N_char_digit.
Qed.

Lemma pretty_N_go_nonempty x s : 0 < String.length s -> 0 < String.length (pretty_N_go x s).
Proof.
  revert s. induction (N.lt_wf_0 x) as [x _ IH]. intros s Hs.
  destruct (decide (x = 0%N)) as [->|Hx]; [by rewrite pretty_N_go_0|].
  rewrite pretty_N_go_step by lia.
  apply IH; [apply N.div_lt; lia|]. simpl. lia.
Qed.

(** The decimal form of an index: digits, at least one. *)
Lemma pretty_nat_digits (n : nat) :
  allChars isDigit (pretty n) = true /\ isEmpty (pretty n) = false.
Proof.
  unfold pretty, pretty_nat, pretty, pretty_N.
  destruct (decide (N.of_nat n = 0%N)) as [_|Hn]; [done|].
  split; [by apply allChars_pretty_N_go|].
  destruct (N.of_nat n) as [|q] eqn:Hq; [done|].
  rewrite pretty_N_go_step by lia.
  pose proof (pretty_N_go_nonempty (N.pos q `div` 10)
                (String (pretty_N_char (N.pos q `mod` 10)) "")) as Hlen.
  destruct (pretty_N_go _ _); [simpl in Hlen; lia | done].
Qed.

Lemma digit_is_slug c : isDigit c = true -> isSlugChar c = true.
Proof. unfold isSlugChar, isDigit. intros ->. by rewrite orb_true_r. Qed.

Lemma digit_not_dash c : isDigit c = true -> isDash c = false.
Proof.
  unfold isDigit, isDash, inRange. rewrite andb_true_iff, !N.leb_le.
  intros [??]. apply N.eqb_neq. lia.
Qed.

Lemma cleanName_charset folder index :
  allChars isSlugChar (cleanName folder index) = true.
Proof.
  unfold cleanName.
  destruct (isEmpty (trimDashes _)) eqn:Hempty.
  - rewrite allChars_app. apply andb_true_iff. split; [done|].
    eapply allChars_impl; [apply digit_is_slug | apply pretty_nat_digits].
  - apply allChars_trimDashes, allChars_replaceRuns; [done|].
    apply allChars_keepSlugChars.
Qed.

Lemma startsWith_replaceRuns p s :
  p "-"%char = true ->
  startsWith p (replaceRuns p s) = startsWith p s.
Proof.
  intros Hdash. induction s as [|c s IH]; [done|]. simpl.
  destruct (p c) eqn:Hc; [|simpl; by rewrite Hc].
  destruct (startsWith p s) eqn:Hs; [by rewrite IH|]. simpl. exact Hdash.
Qed.

Lemma noDoubleDash_replaceRuns s : noDoubleDash (replaceRuns isDash s) = true.
Proof.
  induction s as [|c s IH]; [done|]. simpl.
  destruct (isDash c) eqn:Hc.
  - destruct (startsWith isDash s) eqn:Hs; [done|]. simpl.
    rewrite startsWith_replaceRuns by done. by rewrite Hs, IH.
  - simpl. by rewrite Hc, IH.
Qed.

Lemma dropTrailingDash_cons c d s :
  dropTrailingDash (String c (String d s)) = String c (dropTrailingDash (String d s)).
Proof. reflexivity. Qed.

Lemma startsWith_dropTrailingDash s :
  startsWith isDash s = false -> startsWith isDash (dropTrailingDash s) = false.
Proof.
  destruct s as [|c [|d s]]; [done| |done].
  simpl. intros Hc. by rewrite Hc.
Qed.

Lemma noDoubleDash_dropTrailingDash s :
  noDoubleDash s = true -> noDoubleDash (dropTrailingDash s) = true.
Proof.
  induction s as [|c s IH]; [done|].
  destruct s as [|d s]; [simpl; by destruct (isDash c) eqn:Hc; simpl; rewrite ?Hc|].
  rewrite dropTrailingDash_cons.
  change (noDoubleDash (String c (String d s)))
    with (negb (isDash c && isDash d) && noDoubleDash (String d s)).
  rewrite andb_true_iff. intros [Hcd Hs].
  change (negb (isDash c && startsWith isDash (dropTrailingDash (String d s)))
          && noDoubleDash (dropTrailingDash (String d s)) = true).
  rewrite (IH Hs), andb_true_r.
  destruct (isDash c); [|done]. rewrite andb_true_l in Hcd |- *.
  apply negb_true_iff in Hcd. by rewrite startsWith_dropTrailingDash.
Qed.

(** Without two dashes in a row, dropping one trailing dash leaves none. *)
Lemma endsWith_dropTrailingDash s :
  noDoubleDash s = true -> endsWith isDash (dropTrailingDash s) = false.
Proof.
  induction s as [|c s IH]; [done|].
  destruct s as [|d s].
  { simpl. by destruct (isDash c) eqn:Hc; simpl; rewrite ?Hc. }
  rewrite dropTrailingDash_cons.
  change (noDoubleDash (String c (String d s)))
    with (negb (isDash c && isDash d) && noDoubleDash (String d s)).
  rewrite andb_true_iff. intros [Hcd Hs]. specialize (IH Hs).
  destruct (dropTrailingDash (String d s)) as [|e r] eqn:Hdrop; [|exact IH].
  (* the rest was a single dash: [c] is then not a dash *)
  destruct s as [|d' s]; [|by rewrite dropTrailingDash_cons in Hdrop].
  simpl in Hdrop. destruct (isDash d) eqn:Hd; [|done].
  simpl. rewrite andb_true_r in Hcd. by apply negb_true_iff in Hcd.
Qed.

Lemma noDoubleDash_digits s : allChars isDigit s = true -> noDoubleDash s = true.
Proof.
  induction s as [|c s IH]; [done|]. simpl.
  rewrite andb_true_iff. intros [Hc Hs].
  by rewrite (digit_not_dash c Hc), (IH Hs).
Qed.

Lemma endsWith_digits s :
  allChars isDigit s = true -> endsWith isDash s = false.
Proof.
  induction s as [|c s IH]; [done|]. simpl.
  rewrite andb_true_iff. intros [Hc Hs].
  destruct s; [by apply digit_not_dash | by apply IH].
Qed.

Lemma endsWith_app p a b :
  isEmpty b = false -> endsWith p (a +:+ b) = endsWith p b.
Proof.
  intros Hb. induction a as [|c a IH]; [done|].
  rewrite app_cons.
  assert (Hab : isEmpty (a +:+ b) = false)
    by (rewrite isEmpty_app, Hb; apply andb_false_r).
  destruct (a +:+ b); [done | exact IH].
Qed.

Lemma startsWith_app p a b :
  startsWith p (a +:+ b) = if isEmpty a then startsWith p b else startsWith p a.
Proof. by destruct a. Qed.

Lemma noDoubleDash_app a b :
  noDoubleDash a = true -> noDoubleDash b = true ->
  startsWith isDash b = false ->
  noDoubleDash (a +:+ b) = true.
Proof.
  intros Ha Hb Hstart. induction a as [|c a IH]; [done|].
  rewrite app_cons. simpl in Ha |- *.
  apply andb_true_iff in Ha as [Hc Ha]. rewrite (IH Ha), andb_true_r.
  rewrite startsWith_app. destruct a; [|done].
  simpl. by rewrite Hstart, andb_false_r.
Qed.

Lemma startsWith_digits s :
  allChars isDigit s = true -> startsWith isDash s = false.
Proof.
  destruct s as [|c s]; [done|]. simpl. rewrite andb_true_iff.
  intros [Hc _]. by apply digit_not_dash.
Qed.

(** The fallback name [project-<index>] is clean as well. *)
Lemma fallback_clean (index : nat) :
  isCleanName ("project-" +:+ pretty index) = true.
Proof.
  destruct (pretty_nat_digits index) as (Hdigits & Hne).
  unfold isCleanName. rewrite !andb_true_iff. split_and!.
  - by rewrite isEmpty_app.
  - rewrite allChars_app. apply andb_true_iff. split; [done|].
    eapply allChars_impl; [apply digit_is_slug | done].
  - apply noDoubleDash_app;
      [done | by apply noDoubleDash_digits | by apply startsWith_digits].
  - done.
  - rewrite endsWith_app by done. by rewrite endsWith_digits.
Qed.

Lemma trimDashes_shape s :
  noDoubleDash s = true ->
  noDoubleDash (trimDashes s) = true
  /\ startsWith isDash (trimDashes s) = false
  /\ endsWith isDash (trimDashes s) = false.
Proof.
  destruct s as [|c s]; [done|]. unfold trimDashes.
  destruct (isDash c) eqn:Hc.
  - simpl. rewrite Hc, andb_true_l, andb_true_iff, negb_true_iff.
    intros [Hstart Hs]. split_and!.
    + by apply noDoubleDash_dropTrailingDash.
    + by apply startsWith_dropTrailingDash.
    + by apply endsWith_dropTrailingDash.
  - intros Hs. split_and!.
    + by apply noDoubleDash_dropTrailingDash.
    + apply startsWith_dropTrailingDash. exact Hc.
    + by apply endsWith_dropTrailingDash.
Qed.

Lemma cleanName_shape folder index :
  isCleanName (cleanName folder index) = true.
Proof.
  unfold cleanName.
  destruct (isEmpty (trimDashes _)) eqn:Hempty; [apply fallback_clean|].
  set (t := replaceRuns isDash (keepSlugChars
              (replaceRuns isSpace (toLowerCase folder)))) in *.
  destruct (trimDashes_shape t (noDoubleDash_replaceRuns _)) as (Hnd & Hst & Hen).
  unfold isCleanName. rewrite Hempty, Hnd, Hst, Hen.
  rewrite !andb_true_r. simpl.
  apply allChars_trimDashes, allChars_replaceRuns; [done|].
  apply allChars_keepSlugChars.
Qed.

(** X1: the cleaned name of a folder is never empty, is made of lower-case
    letters, digits and dashes only, has no dash at either end and no two
    dashes in a row. *)
Theorem cleanName_clean folder index :
  isCleanName (cleanName folder index) = true.
Proof. apply cleanName_shape. Qed.

Lemma lowerChar_slug c : isSlugChar c = true -> lowerChar c = c.
Proof. by destruct c as [[] [] [] [] [] [] [] []]. Qed.

Lemma slug_not_space c : isSlugChar c = true -> isSpace c = false.
Proof. by destruct c as [[] [] [] [] [] [] [] []]. Qed.

Lemma dash_eq c : isDash c = true -> c = "-"%char.
Proof. by destruct c as [[] [] [] [] [] [] [] []]. Qed.

Lemma toLowerCase_slug s : allChars isSlugChar s = true -> toLowerCase s = s.
Proof.
  induction s as [|c s IH]; [done|]. simpl. rewrite andb_true_iff.
  intros [Hc Hs]. by rewrite (lowerChar_slug c Hc), (IH Hs).
Qed.

Lemma replaceRuns_space_slug s :
  allChars isSlugChar s = true -> replaceRuns isSpace s = s.
Proof.
  induction s as [|c s IH]; [done|]. simpl. rewrite andb_true_iff.
  intros [Hc Hs]. by rewrite (slug_not_space c Hc), (IH Hs).
Qed.

Lemma keepSlugChars_slug s : allChars isSlugChar s = true -> keepSlugChars s = s.
Proof.
  induction s as [|c s IH]; [done|]. simpl. rewrite andb_true_iff.
  intros [Hc Hs]. by rewrite Hc, (IH Hs).
Qed.

Lemma replaceRuns_dash_single s :
  noDoubleDash s = true -> replaceRuns isDash s = s.
Proof.
  induction s as [|c s IH]; [done|]. simpl. rewrite andb_true_iff.
  intros [Hc Hs]. rewrite (IH Hs).
  destruct (isDash c) eqn:Hdash; [|done].
  rewrite andb_true_l, negb_true_iff in Hc. rewrite Hc.
  by rewrite (dash_eq c Hdash).
Qed.

Lemma dropTrailingDash_none s :
  endsWith isDash s = false -> dropTrailingDash s = s.
Proof.
  induction s as [|c s IH]; [done|].
  destruct s as [|d s]; [simpl; by intros ->|].
  rewrite dropTrailingDash_cons. intros Hs. by rewrite IH.
Qed.

Lemma trimDashes_none s :
  startsWith isDash s = false -> endsWith isDash s = false -> trimDashes s = s.
Proof.
  destruct s as [|c s]; [done|]. unfold trimDashes. simpl startsWith.
  intros -> Hend. by apply dropTrailingDash_none.
Qed.

(** A clean name is its own cleaned name. *)
Lemma cleanName_of_clean s index : isCleanName s = true -> cleanName s index = s.
Proof.
  unfold isCleanName. rewrite !andb_true_iff, !negb_true_iff.
  intros ((((Hne & Hslug) & Hnd) & Hst) & Hen).
  unfold cleanName.
  rewrite (toLowerCase_slug s Hslug), (replaceRuns_space_slug s Hslug),
    (keepSlugChars_slug s Hslug), (replaceRuns_dash_single s Hnd),
    (trimDashes_none s Hst Hen).
  by rewrite Hne.
Qed.

(** X2: cleaning is idempotent: cleaning a cleaned name, under any index,
    gives it back. *)
Theorem cleanName_idempotent folder index index' :
  cleanName (cleanName folder index) index' = cleanName folder index.
Proof. apply cleanName_of_clean, cleanName_shape. Qed.

(** ** The creation loop, outcome by outcome *)

Lemma not_taken_not_origin errOutput :
  includes errOutput "already exists" || includes errOutput "name already exists"
  = false ->
  includes errOutput "remote origin already exists" = false.
Proof.
  intros Htaken. apply orb_false_iff in Htaken as [Htaken _].
  destruct (includes errOutput "remote origin already exists") eqn:Horigin; [|done].
  apply remote_origin_is_already_exists in Horigin. congruence.
Qed.

(** A collision: the next candidate is tried. *)
Lemma createLoop_collision o projectName fuel attempts current s :
  collidesAt o attempts = true ->
  createLoop o (S fuel) attempts projectName current s
  = mkRun
      (res (createLoop o fuel (S attempts) projectName
              (candidate o projectName (S attempts)) s))
      (post (createLoop o fuel (S attempts) projectName
               (candidate o projectName (S attempts)) s))
      (Exec (GhRepoCreate current)
         :: log (createLoop o fuel (S attempts) projectName
                   (candidate o projectName (S attempts)) s)).
Proof.
  unfold collidesAt. intros Hcol. simpl createLoop. run.
  destruct (gh_create o attempts) as [errOutput|]; [|done]. simpl.
  by rewrite Hcol.
Qed.

(** Anything else, success or another error, ends the loop with the
    current candidate. *)
Lemma createLoop_stop o projectName fuel attempts current s :
  collidesAt o attempts = false ->
  createLoop o (S fuel) attempts projectName current s
  = mkRun (Val current) s [Exec (GhRepoCreate current)].
Proof.
  unfold collidesAt. intros Hcol. simpl createLoop. run.
  destruct (gh_create o attempts) as [errOutput|]; [|done]. simpl.
  by rewrite Hcol, (not_taken_not_origin errOutput Hcol).
Qed.

Lemma creations_S o projectName n :
  creations o projectName (S n)
  = (creations o projectName n ++ [Exec (GhRepoCreate (candidate o projectName n))])%list.
Proof. unfold creations. by rewrite seq_S, map_app. Qed.

(** [k] collisions in a row, from any point of the loop. *)
Lemma createLoop_collisions o projectName s k :
  forall fuel attempts,
    (forall j, j < k -> collidesAt o (attempts + j) = true) ->
    createLoop o (k + fuel) attempts projectName (candidate o projectName attempts) s
    = mkRun
        (res (createLoop o fuel (attempts + k) projectName
                (candidate o projectName (attempts + k)) s))
        (post (createLoop o fuel (attempts + k) projectName
                 (candidate o projectName (attempts + k)) s))
        (map (fun j => Exec (GhRepoCreate (candidate o projectName j)))
             (seq attempts k)
           ++ log (createLoop o fuel (attempts + k) projectName
                     (candidate o projectName (attempts + k)) s)).
Proof.
  induction k as [|k IH]; intros fuel attempts Hcol.
  - rewrite Nat.add_0_r. simpl. by rewrite run_eta.
  - change (S k + fuel) with (S (k + fuel)).
    rewrite createLoop_collision.
    2:{ specialize (Hcol 0). rewrite Nat.add_0_r in Hcol. apply Hcol. lia. }
    rewrite (IH fuel (S attempts)).
    2:{ intros j Hj. replace (S attempts + j) with (attempts + S j) by lia.
        apply Hcol. lia. }
    replace (S attempts + k) with (attempts + S k) by lia. reflexivity.
Qed.

(** X3: after [k < 5] name collisions, a creation that succeeds or fails for any
    other reason ends [createGitHubRepo]: it has run [k + 1] creations, one
    per candidate, and returns the last candidate.  Success and such a
    failure give the same result. *)
Theorem createGitHubRepo_stops o projectName s k :
  k < 5 ->
  (forall j, j < k -> collidesAt o j = true) ->
  collidesAt o k = false ->
  createGitHubRepo o projectName s
  = mkRun (Val (candidate o projectName k)) s (creations o projectName (S k)).
Proof.
  intros Hk Hcol Hstop. unfold createGitHubRepo, maxCreateAttempts.
  replace 5 with (k + S (4 - k)) by lia.
  pose proof (createLoop_collisions o projectName s k (S (4 - k)) 0 Hcol) as Hrun.
  change (candidate o projectName 0) with projectName in Hrun. rewrite Hrun.
  rewrite (createLoop_stop o projectName (4 - k) (0 + k) _ s Hstop).
  simpl. by rewrite creations_S.
Qed.

Lemma createGitHubRepo_stops_witness :
  createGitHubRepo twiceTaken "my-cool-app" demoState
  = mkRun (Val "my-cool-app-0") demoState
      [Exec (GhRepoCreate "my-cool-app");
       Exec (GhRepoCreate "my-cool-app-0");
       Exec (GhRepoCreate "my-cool-app-0")].
Proof.
  rewrite (createGitHubRepo_stops twiceTaken "my-cool-app" demoState 2);
    [reflexivity | lia | | reflexivity].
  intros [|[|j]] Hj; [reflexivity | reflexivity | lia].
Defined.

(** X4: five name collisions in a row exhaust [createGitHubRepo]: it has run
    five creations, for the name and its first four suffixed forms, and
    returns the name made with a fifth draw, for which it runs no creation.
    That name is one of the five it did try exactly when the fifth draw
    gives the suffix of one of the first four. *)
Theorem createGitHubRepo_exhausted o projectName s :
  (forall j, j < 5 -> collidesAt o j = true) ->
  createGitHubRepo o projectName s
  = mkRun (Val (candidate o projectName 5)) s (creations o projectName 5)
  /\ (In (Exec (GhRepoCreate (candidate o projectName 5)))
         (creations o projectName 5)
      <-> exists j, j < 4
                    /\ randomSuffix (gh_random o j) = randomSuffix (gh_random o 4)).
Proof.
  intros Hcol. split.
  - unfold createGitHubRepo, maxCreateAttempts.
    pose proof (createLoop_collisions o projectName s 5 0 0 Hcol) as Hrun.
    change (candidate o projectName 0) with projectName in Hrun.
    change (5 + 0) with 5 in Hrun. rewrite Hrun.
    reflexivity.
  - unfold creations. rewrite in_map_iff. split.
    + intros (k & Heq & Hk). apply in_seq in Hk. injection Heq as Heq.
      destruct k as [|j]; unfold candidate in Heq.
      * apply (f_equal String.length) in Heq.
        rewrite !string_length_app in Heq. simpl in Heq. lia.
      * exists j. split; [lia|].
        apply app_inv_head_string, app_inv_head_string in Heq.
        by apply (inj pretty) in Heq.
    + intros (j & Hj & Heq). exists (S j). split.
      * unfold candidate. by rewrite Heq.
      * apply in_seq. lia.
Qed.

Lemma createGitHubRepo_exhausted_witness :
  createGitHubRepo alwaysTaken "my-cool-app" demoState
  = mkRun (Val "my-cool-app-61") demoState
      [Exec (GhRepoCreate "my-cool-app");
       Exec (GhRepoCreate "my-cool-app-12");
       Exec (GhRepoCreate "my-cool-app-24");
       Exec (GhRepoCreate "my-cool-app-36");
       Exec (GhRepoCreate "my-cool-app-48")]
  /\ ~ In (Exec (GhRepoCreate "my-cool-app-61"))
         (creations alwaysTaken "my-cool-app" 5).
Proof.
  destruct (createGitHubRepo_exhausted alwaysTaken "my-cool-app" demoState
              (fun j _ => eq_refl)) as (Hrun & Hfresh).
  split; [rewrite Hrun; reflexivity|].
  intros Hin.
  change (In (Exec (GhRepoCreate (candidate alwaysTaken "my-cool-app" 5)))
            (creations alwaysTaken "my-cool-app" 5)) in Hin.
  apply Hfresh in Hin as (j & Hj & Heq).
  destruct j as [|[|[|[|j]]]]; [vm_compute in Heq; discriminate..|lia].
Defined.

(** ** The stage blocks, one by one *)

Section Blocks.

Variable SOURCE_DIR : string.
Variable o : Oracle.
Variable folder : string.
Variable index : nat.

Abbreviation here := (projectPath SOURCE_DIR folder).
Abbreviation identity st := (orName (repoName st) (baseName folder index)).

(** The Vercel block never throws; it leaves the record alone or sets its
    own flag; it names the project after the identity and, when entered,
    always deploys. *)
Lemma vercelStage_facts s :
  let r := vercelStage SOURCE_DIR o folder index s in
  res r = Val tt
  /\ (status (post r) = status s
      \/ status (post r)
         = mkStatus (github (status s)) true (netlify (status s)) (repoName (status s)))
  /\ (forall n, In (Exec (VercelProjectAdd n)) (log r) -> n = identity (status s))
  /\ (vercel (status s) = false -> In (Exec VercelDeploy) (log r)).
Proof.
  unfold vercelStage. rewrite bind_getStatus.
  destruct (vercel (status s)) eqn:Hflag; cbv zeta.
  { simpl. split_and!; [done | by left | by intros n [] | done]. }
  run.
  destruct (vercel_project_add o), (vercel_deploy o); simpl;
    try (destruct (fs s !! here); simpl;
         [destruct (write_status o HostA); simpl|]);
    (split_and!;
     [ done
     | first [by left | by right]
     | intros n Hin; repeat (destruct Hin as [Hin|Hin]; [congruence|]); by destruct Hin
     | intros _; auto 6 ]).
Qed.

(** The same for the Netlify block; a site is created only when [.netlify]
    is missing, under the identity and a random suffix. *)
Lemma netlifyStage_facts s :
  let r := netlifyStage SOURCE_DIR o folder index s in
  res r = Val tt
  /\ (status (post r) = status s
      \/ status (post r)
         = mkStatus (github (status s)) (vercel (status s)) true (repoName (status s)))
  /\ (forall m, In (Exec (NetlifySitesCreate m)) (log r) ->
        has_netlify o = false
        /\ m = identity (status s) +:+ "-" +:+ pretty (randomSuffix (netlify_random o)))
  /\ (netlify (status s) = false -> In (Exec NetlifyDeploy) (log r)).
Proof.
  unfold netlifyStage. rewrite bind_getStatus.
  destruct (netlify (status s)) eqn:Hflag; cbv zeta.
  { simpl. split_and!; [done | by left | by intros n [] | done]. }
  run.
  destruct (has_netlify o); simpl;
    [|destruct (netlify_sites_create o); simpl;
      [destruct (netlify_link o); simpl|]];
    (destruct (netlify_deploy o); simpl;
     [|destruct (fs s !! here); simpl;
       [destruct (write_status o HostB); simpl|]]);
    (split_and!;
     [ done
     | first [by left | by right]
     | intros n Hin;
       repeat (destruct Hin as [Hin|Hin];
               [first [discriminate | (injection Hin as <-; by split)]|]);
       by destruct Hin
     | intros _; auto 6 ]).
Qed.

(** The GitHub block leaves the record alone or, entered with its flag
    unset, sets the flag together with a name that is not empty. *)
Lemma githubStage_facts s :
  let r := githubStage SOURCE_DIR o folder index s in
  (status (post r) = status s
   \/ (github (status s) = false
       /\ exists name,
            isEmpty name = false
            /\ (name = identity (status s) \/ suffixed (identity (status s)) name)
            /\ status (post r)
               = mkStatus true (vercel (status s)) (netlify (status s)) (Some name)))
  /\ (forall sc, fs s !! here = Some sc -> write_status o VersionControl = None ->
        res r = Val tt).
Proof.
  unfold githubStage. rewrite bind_getStatus.
  destruct (github (status s)) eqn:Hflag; cbv zeta.
  { simpl. split; [by left | done]. }
  simpl.
  destruct (createGitHubRepo_spec o (identity (status s)) s)
    as (name & l & Hrun & Hname & _ & _).
  rewrite (bind_val _ _ _ _ _ _ Hrun).
  assert (Hne : isEmpty name = false).
  { apply (candidate_nonempty (identity (status s))); [|done].
    apply orName_nonempty, cleanName_nonempty. }
  rewrite Hne. run.
  destruct (fs s !! here) eqn:Hdir; simpl;
    [destruct (write_status o VersionControl); simpl|];
    (split; [right; split; [done|]; exists name; by split_and! | ]);
    intros sc' ? ?; congruence.
Qed.

(** The three blocks in a row: the GitHub block throws, or all three run
    and the logs follow one another. *)
Lemma runStages_cases s :
  let g := githubStage SOURCE_DIR o folder index s in
  let v := vercelStage SOURCE_DIR o folder index (post g) in
  let n := netlifyStage SOURCE_DIR o folder index (post v) in
  (exists e, res g = Exc e
             /\ runStages SOURCE_DIR o folder index s = mkRun (Exc e) (post g) (log g))
  \/ (res g = Val tt
      /\ runStages SOURCE_DIR o folder index s
         = mkRun (Val tt) (post n) (log g ++ log v ++ log n)).
Proof.
  cbv zeta. unfold runStages.
  destruct (res (githubStage SOURCE_DIR o folder index s)) as [[]|e] eqn:Hg.
  - right. split; [done|]. rewrite (bind_res_val _ _ _ _ Hg).
    pose proof (proj1 (vercelStage_facts
                         (post (githubStage SOURCE_DIR o folder index s)))) as Hv.
    cbv zeta in Hv. rewrite (bind_res_val _ _ _ _ Hv). cbn [res post log].
    by rewrite (proj1 (netlifyStage_facts _)).
  - left. exists e. split; [done|]. by rewrite (bind_res_exc _ _ _ _ Hg).
Qed.

End Blocks.

(** ** One iteration, stage by stage *)

Section Iteration.

Variable SOURCE_DIR : string.
Variable o : Oracle.
Variable folder : string.
Variable index : nat.

Abbreviation here := (projectPath SOURCE_DIR folder).
Abbreviation stages := (runStages SOURCE_DIR o folder index).
Abbreviation process := (processFolder SOURCE_DIR o folder index).
Abbreviation entered s := (inFolder SOURCE_DIR folder (loaded SOURCE_DIR folder s)).
Abbreviation gblock := (githubStage SOURCE_DIR o folder index).
Abbreviation vblock := (vercelStage SOURCE_DIR o folder index).
Abbreviation nblock := (netlifyStage SOURCE_DIR o folder index).

Lemma block_saves P stage m s :
  stageBlock here stage m -> P (status (post (m s))) -> savesOnly P (log (m s)).
Proof.
  intros Hblock HP. destruct (Hblock s) as (_ & Hlog & _).
  eapply Forall_impl; [exact Hlog|].
  intros e [Hc| ->] d st Heq; [subst e; discriminate|]. by injection Heq as _ <-.
Qed.

Lemma block_events stage m s :
  stageBlock here stage m -> Forall (stageEvent here stage) (log (m s)).
Proof.
  intros Hblock. destruct (Hblock s) as (_ & Hlog & _).
  eapply Forall_impl; [exact Hlog|].
  intros e [Hc| ->]; [by left | right; by eexists].
Qed.

(** A property closed under the three updates holds of the record in
    memory after the blocks, and of every record they write. *)
Lemma runStages_status P s :
  statusClosed P -> P (status s) ->
  P (status (post (stages s))) /\ savesOnly P (log (stages s)).
Proof.
  intros (Hgh & Hve & Hne) HP.
  assert (HPg : P (status (post (gblock s)))).
  { destruct (proj1 (githubStage_facts SOURCE_DIR o folder index s))
      as [->|(Hflag & name & Hname & _ & ->)]; auto. }
  assert (HPv : P (status (post (vblock (post (gblock s)))))).
  { destruct (vercelStage_facts SOURCE_DIR o folder index (post (gblock s)))
      as (_ & [->| ->] & _); auto. }
  assert (HPn : P (status (post (nblock (post (vblock (post (gblock s)))))))).
  { destruct (netlifyStage_facts SOURCE_DIR o folder index
                (post (vblock (post (gblock s)))))
      as (_ & [->| ->] & _); auto. }
  pose proof (block_saves P _ _ s (githubStage_block SOURCE_DIR o folder index) HPg).
  pose proof (block_saves P _ _ (post (gblock s))
                (vercelStage_block SOURCE_DIR o folder index) HPv).
  pose proof (block_saves P _ _ (post (vblock (post (gblock s))))
                (netlifyStage_block SOURCE_DIR o folder index) HPn).
  destruct (runStages_cases SOURCE_DIR o folder index s)
    as [(e & _ & ->)|(_ & ->)]; simpl; [done|].
  split; [done|]. unfold savesOnly. rewrite !Forall_app. done.
Qed.

(** An iteration that does not reach the stage blocks makes local calls
    only and leaves directories and record as they are; one that reaches
    them logs local calls, then the log of the blocks, then local calls. *)
Lemma processFolder_stages s :
  ~ holdsNull SOURCE_DIR folder s ->
  (Forall localEvent (log (process s))
   /\ status (post (process s)) = status (loaded SOURCE_DIR folder s)
   /\ fs (post (process s)) = fs s
   /\ cwd (post (process s)) = SOURCE_DIR
   /\ (chdir_project o ≠ None \/ prepareOk o = false))
  \/ (chdir_project o = None /\ prepareOk o = true
      /\ status (post (process s)) = status (post (stages (entered s)))
      /\ exists pre tail,
           log (process s) = (pre ++ log (stages (entered s)) ++ tail)%list
           /\ Forall localEvent pre /\ Forall localEvent tail).
Proof.
  intros Hrec.
  pose proof (deployFolder_unfold SOURCE_DIR o folder index
                (loaded SOURCE_DIR folder s)) as Hd.
  pose proof (gitPrepare_res SOURCE_DIR o folder (entered s)) as Hres.
  pose proof (proj2 (gitPrepare_spec SOURCE_DIR o folder (entered s))) as Hprep.
  assert (Hprep' : Forall localEvent
            (Chdir here :: log (gitPrepare SOURCE_DIR o folder (entered s)))).
  { constructor; [by split|]. eapply Forall_impl; [exact Hprep|].
    apply prepareEvent_local. }
  assert (Htail : forall st lg,
            Forall (tailEvent SOURCE_DIR o folder st) lg -> Forall localEvent lg).
  { intros st lg Hlg. eapply Forall_impl; [exact Hlg|]. apply tailEvent_local. }
  destruct (processFolder_cases SOURCE_DIR o folder index s Hrec)
    as (_ & [Hend|[Hend|[Hend|Hend]]]).
  - destruct Hend as ((e & He) & Hpost & Hlog). rewrite Hpost, Hlog.
    destruct (chdir_project o) as [c|] eqn:Hcd.
    { left. rewrite Hd. simpl. split_and!; [|done..|by left].
      by repeat (constructor; [by split|]). }
    destruct (prepareOk o) eqn:Hok.
    + right. rewrite Hres in Hd. rewrite Hd in He |- *. simpl in He |- *.
      split_and!; [done..|].
      eexists (Chdir here :: log (gitPrepare SOURCE_DIR o folder (entered s))),
        [Console MsgCritical; Chdir SOURCE_DIR].
      split_and!; [by rewrite <- app_assoc | done | by repeat (constructor; [by split|])].
    + left. destruct Hres as (e' & He'). rewrite He' in Hd. rewrite Hd. simpl.
      split_and!; [|done..|by right].
      rewrite app_comm_cons. apply Forall_app. split; [done|].
      by repeat (constructor; [by split|]).
  - destruct Hend as (Hval & _ & Hpost & Hlog). rewrite Hpost, Hlog.
    destruct (chdir_project o) as [c|] eqn:Hcd;
      [rewrite Hd in Hval; discriminate|].
    destruct (prepareOk o) eqn:Hok;
      [|destruct Hres as (e' & He'); rewrite He' in Hd; rewrite Hd in Hval;
        discriminate].
    right. rewrite Hres in Hd. rewrite Hd. simpl. split_and!; [done..|].
    eexists (Chdir here :: log (gitPrepare SOURCE_DIR o folder (entered s))),
      [Console MsgKeeping].
    split_and!; [by rewrite <- app_assoc | done | by repeat (constructor; [by split|])].
  - destruct Hend as (Hval & _ & Hpost & lg & Hlog & Hlg & _). rewrite Hpost, Hlog.
    destruct (chdir_project o) as [c|] eqn:Hcd;
      [rewrite Hd in Hval; discriminate|].
    destruct (prepareOk o) eqn:Hok;
      [|destruct Hres as (e' & He'); rewrite He' in Hd; rewrite Hd in Hval;
        discriminate].
    right. rewrite Hres in Hd. rewrite Hd. simpl. split_and!; [done..|].
    eexists (Chdir here :: log (gitPrepare SOURCE_DIR o folder (entered s))), lg.
    split_and!; [by rewrite <- app_assoc | done | by eapply Htail].
  - destruct Hend as (Hval & _ & (sc & _ & Hpost) & lg & Hlog & Hlg & _).
    rewrite Hpost, Hlog.
    destruct (chdir_project o) as [c|] eqn:Hcd;
      [rewrite Hd in Hval; discriminate|].
    destruct (prepareOk o) eqn:Hok;
      [|destruct Hres as (e' & He'); rewrite He' in Hd; rewrite Hd in Hval;
        discriminate].
    right. rewrite Hres in Hd. rewrite Hd. simpl. split_and!; [done..|].
    eexists (Chdir here :: log (gitPrepare SOURCE_DIR o folder (entered s))), lg.
    split_and!; [by rewrite <- app_assoc | done | by eapply Htail].
Qed.

End Iteration.

Section IterationFacts.

Variable SOURCE_DIR : string.
Variable o : Oracle.
Variable folder : string.
Variable index : nat.

Abbreviation here := (projectPath SOURCE_DIR folder).
Abbreviation stages := (runStages SOURCE_DIR o folder index).
Abbreviation process := (processFolder SOURCE_DIR o folder index).
Abbreviation entered s := (inFolder SOURCE_DIR folder (loaded SOURCE_DIR folder s)).
Abbreviation gblock := (githubStage SOURCE_DIR o folder index).
Abbreviation vblock := (vercelStage SOURCE_DIR o folder index).
Abbreviation nblock := (netlifyStage SOURCE_DIR o folder index).

(** A call that is not local was made by the stage blocks. *)
Lemma processFolder_nonlocal s e :
  In e (log (process s)) -> ~ localEvent e ->
  chdir_project o = None /\ prepareOk o = true
  /\ In e (log (stages (entered s)))
  /\ status (post (process s)) = status (post (stages (entered s))).
Proof.
  intros Hin Hnot.
  destruct (holdsNull_dec SOURCE_DIR folder s) as [Hnull|Hrec].
  { rewrite (processFolder_null SOURCE_DIR o folder index s Hnull) in Hin.
    by destruct Hin. }
  destruct (processFolder_stages SOURCE_DIR o folder index s Hrec)
    as [(Hlocal & _)|(Hcd & Hok & Hstatus & pre & tail & Hlog & Hpre & Htail)].
  { rewrite Forall_forall in Hlocal. by apply list_elem_of_In, Hlocal in Hin. }
  split_and!; [done..| |done].
  rewrite Hlog in Hin. rewrite Forall_forall in Hpre, Htail.
  apply in_app_or in Hin as [Hin|Hin];
    [by apply list_elem_of_In, Hpre in Hin|].
  apply in_app_or in Hin as [Hin|Hin]; [done|].
  by apply list_elem_of_In, Htail in Hin.
Qed.

(** The log of the blocks, block by block. *)
Lemma runStages_log s :
  exists lg lv ln,
    log (stages s) = (lg ++ lv ++ ln)%list
    /\ lg = log (gblock s)
    /\ (lv = [] /\ ln = []
        \/ res (gblock s) = Val tt
           /\ lv = log (vblock (post (gblock s)))
           /\ ln = log (nblock (post (vblock (post (gblock s)))))
           /\ post (stages s) = post (nblock (post (vblock (post (gblock s)))))).
Proof.
  destruct (runStages_cases SOURCE_DIR o folder index s)
    as [(e & _ & ->)|(Hval & ->)]; simpl.
  - exists (log (gblock s)), [], []. rewrite app_nil_r. split_and!; auto.
  - eexists _, _, _. split_and!; [reflexivity | reflexivity |]. right. done.
Qed.

Lemma block_entered stage m s e :
  stageBlock here stage m -> In e (log (m s)) -> flagOf stage (status s) = false.
Proof.
  intros Hblock Hin. destruct (Hblock s) as (_ & _ & Hskip).
  destruct (flagOf stage (status s)); [|done].
  rewrite (Hskip eq_refl) in Hin. by destruct Hin.
Qed.

Lemma block_flags stage m s :
  stageBlock here stage m -> flagsLe (status s) (status (post (m s))).
Proof.
  intros Hblock. destruct (Hblock s) as (Hstep & _). by apply (stageStep_inv _ _ _ Hstep).
Qed.

Lemma flagOf_le stage a b :
  flagsLe a b -> flagOf stage b = false -> flagOf stage a = false.
Proof.
  intros (Hg & Hv & Hn) Hb. destruct stage; simpl in *.
  - destruct (github a); [specialize (Hg eq_refl); congruence | done].
  - destruct (vercel a); [specialize (Hv eq_refl); congruence | done].
  - destruct (netlify a); [specialize (Hn eq_refl); congruence | done].
Qed.

Lemma stageEvent_collaborator dir stage stage' e :
  stageEvent dir stage e -> collaborator e = Some stage' -> stage' = stage.
Proof. intros [Hc|(st & ->)] Hc'; [congruence | discriminate]. Qed.

(** Which block made a call to a collaborator, and that its stage was
    pending when the blocks started. *)
Lemma runStages_collaborator s e stage :
  In e (log (stages s)) -> collaborator e = Some stage ->
  flagOf stage (status s) = false
  /\ match stage with
     | VersionControl => In e (log (gblock s))
     | HostA => res (gblock s) = Val tt /\ In e (log (vblock (post (gblock s))))
     | HostB => res (gblock s) = Val tt
                /\ In e (log (nblock (post (vblock (post (gblock s))))))
     end
  /\ (res (gblock s) = Val tt ->
      post (stages s) = post (nblock (post (vblock (post (gblock s)))))).
Proof.
  intros Hin Hc.
  pose proof (githubStage_block SOURCE_DIR o folder index) as Hg.
  pose proof (vercelStage_block SOURCE_DIR o folder index) as Hv.
  pose proof (netlifyStage_block SOURCE_DIR o folder index) as Hn.
  destruct (runStages_log s) as (lg & lv & ln & Hlog & -> & Hrest).
  rewrite Hlog in Hin.
  assert (Hpost : res (gblock s) = Val tt ->
                  post (stages s) = post (nblock (post (vblock (post (gblock s)))))).
  { intros Hval. destruct (runStages_cases SOURCE_DIR o folder index s)
      as [(e' & He' & _)|(_ & ->)]; [congruence | done]. }
  apply in_app_or in Hin as [Hin|Hin].
  { pose proof (block_events SOURCE_DIR folder _ _ s Hg) as Hev.
    rewrite Forall_forall in Hev. pose proof Hin as Hin'.
    apply list_elem_of_In, Hev in Hin'.
    rewrite (stageEvent_collaborator _ _ _ _ Hin' Hc).
    split_and!; [by eapply block_entered | done | done]. }
  destruct Hrest as [[-> ->]|(Hval & -> & -> & _)]; [by destruct Hin|].
  apply in_app_or in Hin as [Hin|Hin].
  - pose proof (block_events SOURCE_DIR folder _ _ (post (gblock s)) Hv) as Hev.
    rewrite Forall_forall in Hev. pose proof Hin as Hin'.
    apply list_elem_of_In, Hev in Hin'.
    rewrite (stageEvent_collaborator _ _ _ _ Hin' Hc).
    split_and!; [|done|done|done].
    eapply flagOf_le; [by apply (block_flags _ _ s Hg)|]. by eapply block_entered.
  - pose proof (block_events SOURCE_DIR folder _ _
                  (post (vblock (post (gblock s)))) Hn) as Hev.
    rewrite Forall_forall in Hev. pose proof Hin as Hin'.
    apply list_elem_of_In, Hev in Hin'.
    rewrite (stageEvent_collaborator _ _ _ _ Hin' Hc).
    split_and!; [|done|done|done].
    eapply flagOf_le; [by apply (block_flags _ _ s Hg)|].
    eapply flagOf_le; [by apply (block_flags _ _ (post (gblock s)) Hv)|].
    by eapply block_entered.
Qed.

Lemma collaborator_not_local e stage : collaborator e = Some stage -> ~ localEvent e.
Proof. intros Hc (Hnone & _). congruence. Qed.

(** X5: when a folder is processed again, only the collaborators of the stages
    that are pending in the record found are called. *)
Theorem only_pending_stages_called s e stage :
  In e (log (process s)) ->
  collaborator e = Some stage ->
  flagOf stage (status (loaded SOURCE_DIR folder s)) = false.
Proof.
  intros Hin Hc.
  destruct (processFolder_nonlocal s e Hin (collaborator_not_local e stage Hc))
    as (_ & _ & Hin' & _).
  by apply (runStages_collaborator (entered s) e stage Hin' Hc).
Qed.

(** X6: the Vercel project and the Netlify site are named after the identity
    the record holds at the end of the iteration: the project carries that
    name, the site that name and a random suffix. *)
Theorem hosts_named_after_identity s :
  let identity :=
    orName (repoName (status (post (process s)))) (baseName folder index) in
  (forall n, In (Exec (VercelProjectAdd n)) (log (process s)) -> n = identity)
  /\ (forall m, In (Exec (NetlifySitesCreate m)) (log (process s)) ->
        m = identity +:+ "-" +:+ pretty (randomSuffix (netlify_random o))).
Proof.
  cbv zeta. split.
  - intros n Hin.
    destruct (processFolder_nonlocal s _ Hin
                (collaborator_not_local (Exec (VercelProjectAdd n)) HostA eq_refl))
      as (_ & _ & Hin' & ->).
    destruct (runStages_collaborator (entered s) _ HostA Hin' eq_refl)
      as (_ & (Hval & Hv) & Hpost).
    rewrite (Hpost Hval).
    destruct (vercelStage_facts SOURCE_DIR o folder index (post (gblock (entered s))))
      as (_ & Hsv & Hname & _).
    destruct (netlifyStage_facts SOURCE_DIR o folder index
                (post (vblock (post (gblock (entered s))))))
      as (_ & Hsn & _).
    rewrite (Hname n Hv).
    by destruct Hsn as [->| ->], Hsv as [->| ->].
  - intros m Hin.
    destruct (processFolder_nonlocal s _ Hin
                (collaborator_not_local (Exec (NetlifySitesCreate m)) HostB eq_refl))
      as (_ & _ & Hin' & ->).
    destruct (runStages_collaborator (entered s) _ HostB Hin' eq_refl)
      as (_ & (Hval & Hn) & Hpost).
    rewrite (Hpost Hval).
    destruct (netlifyStage_facts SOURCE_DIR o folder index
                (post (vblock (post (gblock (entered s))))))
      as (_ & Hsn & Hname & _).
    rewrite (proj2 (Hname m Hn)).
    by destruct Hsn as [->| ->].
Qed.

End IterationFacts.

Lemma only_pending_stages_called_witness :
  In (Exec VercelDeploy) (log (processFolder "/work" allOk "My Cool App" 0 demoState))
  /\ flagOf HostA (status (loaded "/work" "My Cool App" demoState)) = false.
Proof.
  assert (Hin : In (Exec VercelDeploy)
                  (log (processFolder "/work" allOk "My Cool App" 0 demoState))).
  { vm_compute. auto 20. }
  split; [exact Hin|].
  exact (only_pending_stages_called "/work" allOk "My Cool App" 0 demoState
           (Exec VercelDeploy) HostA Hin eq_refl).
Defined.

Section IterationMore.

Variable SOURCE_DIR : string.
Variable o : Oracle.
Variable folder : string.
Variable index : nat.

Abbreviation here := (projectPath SOURCE_DIR folder).
Abbreviation stages := (runStages SOURCE_DIR o folder index).
Abbreviation process := (processFolder SOURCE_DIR o folder index).
Abbreviation deploy := (deployFolder SOURCE_DIR o folder index).
Abbreviation entered s := (inFolder SOURCE_DIR folder (loaded SOURCE_DIR folder s)).
Abbreviation gblock := (githubStage SOURCE_DIR o folder index).
Abbreviation vblock := (vercelStage SOURCE_DIR o folder index).
Abbreviation nblock := (netlifyStage SOURCE_DIR o folder index).

Lemma local_saves P l : Forall localEvent l -> savesOnly P l.
Proof.
  intros Hl. eapply Forall_impl; [exact Hl|].
  intros e (_ & Hno) d st ->. by destruct (Hno d st).
Qed.

(** A property closed under the three updates that holds of the record
    found holds of the record in memory at the end of the iteration and of
    every record written. *)
Lemma processFolder_status P s :
  statusClosed P -> P (status (loaded SOURCE_DIR folder s)) ->
  P (status (post (process s))) /\ savesOnly P (log (process s)).
Proof.
  intros Hclosed HP.
  destruct (holdsNull_dec SOURCE_DIR folder s) as [Hnull|Hrec].
  { rewrite (processFolder_null SOURCE_DIR o folder index s Hnull).
    split; [done | constructor]. }
  destruct (processFolder_stages SOURCE_DIR o folder index s Hrec)
    as [(Hlocal & -> & _)|(_ & _ & -> & pre & tail & -> & Hpre & Htail)].
  { split; [done | by apply local_saves]. }
  destruct (runStages_status SOURCE_DIR o folder index P (entered s) Hclosed HP)
    as (Hpost & Hsaves).
  split; [done|]. unfold savesOnly. rewrite !Forall_app.
  split_and!; [by apply local_saves | done | by apply local_saves].
Qed.

Lemma recordOk_closed : statusClosed recordOk.
Proof.
  unfold statusClosed, recordOk. split_and!.
  - intros st name _ _ Hname. simpl. done.
  - intros st Hst. simpl. exact Hst.
  - intros st Hst. simpl. exact Hst.
Qed.

(** X7: the GitHub flag and the repository name stay together: if the record
    found has a non-empty name exactly when its GitHub flag is set (as the
    default record has), so have the record in memory at the end of the
    iteration and every record written. *)
Theorem flag_and_name_together s :
  recordOk (status (loaded SOURCE_DIR folder s)) ->
  recordOk (status (post (process s))) /\ savesOnly recordOk (log (process s)).
Proof. apply processFolder_status, recordOk_closed. Qed.

(** X8: once the GitHub flag is set, the repository name is fixed: the record
    in memory at the end of the iteration and every record written carry
    the name of the record found. *)
Theorem identity_is_stable s :
  github (status (loaded SOURCE_DIR folder s)) = true ->
  repoName (status (post (process s)))
  = repoName (status (loaded SOURCE_DIR folder s))
  /\ savesOnly
       (fun st => repoName st = repoName (status (loaded SOURCE_DIR folder s)))
       (log (process s)).
Proof.
  intros Hflag.
  destruct (processFolder_status
              (fun st => github st = true
                         /\ repoName st
                            = repoName (status (loaded SOURCE_DIR folder s))) s)
    as ((_ & Hname) & Hsaves).
  - split_and!.
    + intros st name (Hset & _) Hunset _. congruence.
    + by intros st (? & ?).
    + by intros st (? & ?).
  - done.
  - split; [done|]. eapply Forall_impl; [exact Hsaves|].
    intros e He d st Heq. by apply (He d st Heq).
Qed.

Lemma in_middle {A} (x : A) pre mid tail :
  In x mid -> In x (pre ++ mid ++ tail).
Proof. intros Hin. apply in_or_app. right. apply in_or_app. by left. Qed.

(** X9: a stage does not wait for the others: when the iteration reaches the
    blocks (the progress file does not hold [null], the folder is entered
    and prepared) and the GitHub block can write the record, Vercel is
    deployed if its flag is unset and Netlify is deployed if its flag is
    unset, whatever the three collaborators answer. *)
Theorem pending_hosts_always_tried s sc :
  fs s !! here = Some sc ->
  sc ≠ Null ->
  chdir_project o = None ->
  prepareOk o = true ->
  write_status o VersionControl = None ->
  (vercel (status (loaded SOURCE_DIR folder s)) = false ->
   In (Exec VercelDeploy) (log (process s)))
  /\ (netlify (status (loaded SOURCE_DIR folder s)) = false ->
      In (Exec NetlifyDeploy) (log (process s))).
Proof.
  intros Hsc Hsc_rec Hcd Hok Hwrite.
  assert (Hrec : ~ holdsNull SOURCE_DIR folder s)
    by (unfold holdsNull; congruence).
  destruct (processFolder_stages SOURCE_DIR o folder index s Hrec)
    as [(_ & _ & _ & _ & [Hno|Hno])|(_ & _ & _ & pre & tail & -> & _ & _)];
    [done | congruence |].
  destruct (githubStage_facts SOURCE_DIR o folder index (entered s))
    as (Hsg & Hres).
  specialize (Hres sc Hsc Hwrite).
  destruct (vercelStage_facts SOURCE_DIR o folder index (post (gblock (entered s))))
    as (_ & Hsv & _ & Hdv).
  destruct (netlifyStage_facts SOURCE_DIR o folder index
              (post (vblock (post (gblock (entered s))))))
    as (_ & _ & _ & Hdn).
  destruct (runStages_cases SOURCE_DIR o folder index (entered s))
    as [(e & He & _)|(_ & ->)]; [congruence|]. simpl.
  split; intros Hflag; apply in_middle.
  - apply in_or_app. right. apply in_or_app. left. apply Hdv.
    by destruct Hsg as [->|(_ & name & _ & _ & ->)].
  - apply in_or_app. right. apply in_or_app. right. apply Hdn.
    destruct Hsv as [->| ->]; by destruct Hsg as [->|(_ & name & _ & _ & ->)].
Qed.

(** X10: the stages run in a fixed order: the log of an iteration is made of
    local calls, then calls to GitHub and saves, then calls to Vercel and
    saves, then calls to Netlify and saves, then local calls. *)
Theorem stages_in_order s :
  exists pre lg lv ln tail,
    log (process s) = (pre ++ lg ++ lv ++ ln ++ tail)%list
    /\ Forall localEvent pre
    /\ Forall (stageEvent here VersionControl) lg
    /\ Forall (stageEvent here HostA) lv
    /\ Forall (stageEvent here HostB) ln
    /\ Forall localEvent tail.
Proof.
  pose proof (githubStage_block SOURCE_DIR o folder index) as Hg.
  pose proof (vercelStage_block SOURCE_DIR o folder index) as Hv.
  pose proof (netlifyStage_block SOURCE_DIR o folder index) as Hn.
  destruct (holdsNull_dec SOURCE_DIR folder s) as [Hnull|Hrec].
  { rewrite (processFolder_null SOURCE_DIR o folder index s Hnull).
    exists [], [], [], [], []. split_and!; by try constructor. }
  destruct (processFolder_stages SOURCE_DIR o folder index s Hrec)
    as [(Hlocal & _)|(_ & _ & _ & pre & tail & -> & Hpre & Htail)].
  { exists (log (process s)), [], [], [], []. rewrite !app_nil_r.
    split_and!; by try constructor. }
  destruct (runStages_log SOURCE_DIR o folder index (entered s))
    as (lg & lv & ln & -> & -> & Hrest).
  exists pre, (log (gblock (entered s))), lv, ln, tail.
  split_and!; try done.
  - by rewrite <- !app_assoc.
  - by apply (block_events SOURCE_DIR folder).
  - destruct Hrest as [[-> _]|(_ & -> & _)]; [constructor|].
    by apply (block_events SOURCE_DIR folder).
  - destruct Hrest as [[_ ->]|(_ & _ & -> & _)]; [constructor|].
    by apply (block_events SOURCE_DIR folder).
Qed.



(** X11: an error in the [try] before the stage blocks - the folder cannot
    be entered, [git init] fails or [.gitignore] cannot be written - is
    contained: the iteration, once past the status line (the progress file
    does not hold [null]), returns, reports the error, is back in the batch
    root, has called no collaborator, written no record and renamed
    nothing, and the directories are as they were. *)
Theorem early_error_is_contained s :
  ~ holdsNull SOURCE_DIR folder s ->
  chdir_project o ≠ None \/ prepareOk o = false ->
  res (process s) = Val tt
  /\ cwd (post (process s)) = SOURCE_DIR
  /\ fs (post (process s)) = fs s
  /\ Forall localEvent (log (process s))
  /\ In (Console MsgCritical) (log (process s))
  /\ (forall a b, ~ In (Rename a b) (log (process s))).
Proof.
  intros Hrec Hbad.
  destruct (processFolder_stages SOURCE_DIR o folder index s Hrec)
    as [(Hlocal & _ & Hfs & Hcwd & _)|(Hcd & Hok & _)];
    [|destruct Hbad; congruence].
  destruct (deployFolder_no_move SOURCE_DIR o folder index
              (loaded SOURCE_DIR folder s)) as (Hnoren & _).
  assert (Hfatal : exists e, res (deploy (loaded SOURCE_DIR folder s)) = Exc e).
  { rewrite deployFolder_unfold.
    destruct (chdir_project o) as [c|]; [by eexists|].
    destruct Hbad as [?|Hno]; [done|].
    pose proof (gitPrepare_res SOURCE_DIR o folder (entered s)) as Hres.
    rewrite Hno in Hres. destruct Hres as (e & ->). by eexists. }
  destruct Hfatal as (e & He).
  split_and!; [by apply processFolder_returns | done | done | done | |].
  - destruct (processFolder_cases SOURCE_DIR o folder index s Hrec)
      as (_ & [Hend|[Hend|[Hend|Hend]]]).
    + destruct Hend as (_ & _ & ->). apply in_or_app. right. by left.
    + destruct Hend as (Hval & _). congruence.
    + destruct Hend as (Hval & _). congruence.
    + destruct Hend as (Hval & _). congruence.
  - intros a b Hin.
    destruct (processFolder_cases SOURCE_DIR o folder index s Hrec)
      as (_ & [Hend|[Hend|[Hend|Hend]]]).
    + destruct Hend as (_ & _ & Hlog). rewrite Hlog in Hin.
      apply in_app_or in Hin as [Hin|[?|[?|[]]]]; [by apply Hnoren in Hin|done..].
    + destruct Hend as (Hval & _). congruence.
    + destruct Hend as (Hval & _). congruence.
    + destruct Hend as (Hval & _). congruence.
Qed.

Lemma finalDest_after_deploy s :
  finalDest SOURCE_DIR o folder (post (deploy (loaded SOURCE_DIR folder s)))
  = finalDest SOURCE_DIR o folder s.
Proof.
  destruct (deployFolder_inv SOURCE_DIR o folder index (loaded SOURCE_DIR folder s))
    as (_ & Hother & _).
  unfold finalDest. by rewrite Hother by apply dest_ne_projectPath.
Qed.

(** X12: an iteration touches its own folder and the place it moves it to, and
    no other directory. *)
Theorem other_folders_untouched s q :
  q ≠ here ->
  q ≠ finalDest SOURCE_DIR o folder s ->
  fs (post (process s)) !! q = fs s !! q.
Proof.
  intros Hhere Htarget.
  destruct (holdsNull_dec SOURCE_DIR folder s) as [Hnull|Hrec].
  { by rewrite (processFolder_null SOURCE_DIR o folder index s Hnull). }
  destruct (deployFolder_inv SOURCE_DIR o folder index (loaded SOURCE_DIR folder s))
    as (_ & Hother & _).
  specialize (Hother q Hhere). cbn [fs loaded] in Hother.
  rewrite <- finalDest_after_deploy in Htarget.
  destruct (processFolder_cases SOURCE_DIR o folder index s Hrec)
    as (_ & [Hend|[Hend|[Hend|Hend]]]).
  - by destruct Hend as (_ & -> & _).
  - by destruct Hend as (_ & _ & -> & _).
  - by destruct Hend as (_ & _ & -> & _).
  - destruct Hend as (_ & _ & (sc & _ & ->) & _). simpl.
    rewrite lookup_insert_ne by done. by rewrite lookup_delete_ne.
Qed.

End IterationMore.

Lemma flag_and_name_together_witness :
  recordOk (status (post (processFolder "/work" allOk "My Cool App" 0 demoState)))
  /\ savesOnly recordOk (log (processFolder "/work" allOk "My Cool App" 0 demoState)).
Proof.
  apply (flag_and_name_together "/work" allOk "My Cool App" 0 demoState).
  vm_compute. reflexivity.
Defined.

Lemma identity_is_stable_witness :
  repoName (status (post (processFolder "/work" hostsDown "Other" 1 twoFolders)))
  = Some "other"
  /\ savesOnly (fun st => repoName st = Some "other")
       (log (processFolder "/work" hostsDown "Other" 1 twoFolders)).
Proof.
  exact (identity_is_stable "/work" hostsDown "Other" 1 twoFolders eq_refl).
Defined.

Lemma pending_hosts_always_tried_witness :
  In (Exec VercelDeploy)
    (log (processFolder "/work" hostsDown "My Cool App" 0 demoState))
  /\ In (Exec NetlifyDeploy)
       (log (processFolder "/work" hostsDown "My Cool App" 0 demoState)).
Proof.
  assert (Hrec : Absent ≠ Null) by discriminate.
  destruct (pending_hosts_always_tried "/work" hostsDown "My Cool App" 0 demoState
              Absent eq_refl Hrec eq_refl eq_refl eq_refl) as (Hv & Hn).
  split; [apply Hv | apply Hn]; reflexivity.
Defined.

Lemma early_error_is_contained_witness :
  let r := processFolder "/work" gitBroken "My Cool App" 0 demoState in
  res r = Val tt
  /\ cwd (post r) = "/work"
  /\ fs (post r) = fs demoState
  /\ Forall localEvent (log r)
  /\ In (Console MsgCritical) (log r)
  /\ (forall a b, ~ In (Rename a b) (log r)).
Proof.
  apply (early_error_is_contained "/work" gitBroken "My Cool App" 0 demoState).
  - vm_compute. discriminate.
  - right. reflexivity.
Defined.

Lemma other_folders_untouched_witness :
  fs (post (processFolder "/work" allOk "My Cool App" 0 twoFolders)) !! "/work/Other"
  = Some (Content (mkStatus true false false (Some "other"))).
Proof.
  rewrite (other_folders_untouched "/work" allOk "My Cool App" 0 twoFolders
             "/work/Other"); [reflexivity | |]; vm_compute; discriminate.
Defined.







(** ** Moving a folder, whatever the renames answer *)

Lemma renameAttempts_moveLoop o src dst fuel :
  forall attempts s,
    renameAttempts (log (moveLoop o fuel attempts src dst s)) <= fuel.
Proof.
  induction fuel as [|fuel IH]; intros attempts s; [done|].
  destruct (fs s !! src) as [sc|] eqn:Hsrc.
  2:{ rewrite (moveLoop_missing o src dst _ _ _ Hsrc). cbn. lia. }
  destruct (rename_result o attempts) as [c|] eqn:Hout.
  2:{ rewrite (moveLoop_ok o src dst _ _ _ _ Hsrc Hout). cbn. lia. }
  destruct (isLockError (SysError c)) eqn:Hlock.
  2:{ rewrite (moveLoop_other o src dst _ _ _ _ _ Hsrc Hout Hlock). cbn. lia. }
  rewrite (moveLoop_locked o src dst _ _ _ sc Hsrc) by (by exists c).
  cbn [log]. rewrite renameAttempts_app.
  specialize (IH (S attempts) s).
  change (renameAttempts (lockedAttempt src dst)) with 1. lia.
Qed.

Lemma renameAttempts_in l a b : In (Rename a b) l -> 1 <= renameAttempts l.
Proof.
  induction l as [|e l IH]; [done|]. intros [->|Hin].
  - unfold renameAttempts. simpl. lia.
  - specialize (IH Hin). unfold renameAttempts in *. simpl.
    destruct (isRename e); simpl; lia.
Qed.

(** X14: whatever the renames answer, [moveFolderWithRetry] tries between one
    and ten renames, ends in the batch root, and either leaves every
    directory as it was or has moved the source, whole, to the
    destination. *)
Theorem move_bounded_and_whole SOURCE_DIR o src dst s :
  let r := moveFolderWithRetry SOURCE_DIR o src dst s in
  1 <= renameAttempts (log r) <= 10
  /\ cwd (post r) = SOURCE_DIR
  /\ status (post r) = status s
  /\ (fs (post r) = fs s
      \/ exists sc, fs s !! src = Some sc /\ res r = Val tt
                    /\ fs (post r) = <[dst := sc]> (delete src (fs s))).
Proof.
  cbv zeta. rewrite moveFolderWithRetry_unfold. cbn [res post log].
  rewrite renameAttempts_chdir.
  pose proof (renameAttempts_moveLoop o src dst 10 0 (atRoot SOURCE_DIR s)) as Hle.
  destruct (moveLoop_outcome o src dst 10 0 (atRoot SOURCE_DIR s))
    as (_ & Hin & Hcase).
  pose proof (renameAttempts_in _ _ _ (Hin ltac:(lia))) as Hge.
  split; [lia|].
  destruct Hcase as [[-> _]|(sc & Hsc & Hres & -> & _)].
  - split_and!; [done | done | by left].
  - split_and!; [done | done |]. right. by exists sc.
Qed.

(** ** The earlier loop *)

Section EarlierLoop.

Variable SOURCE_DIR : string.
Variable o : Oracle.
Variable folder : string.
Variable index : nat.

Abbreviation here := (projectPath SOURCE_DIR folder).
Abbreviation deployV1 := (deployFolderV1 SOURCE_DIR o folder index).
Abbreviation processV1 := (processFolderV1 SOURCE_DIR o folder index).

Lemma vercelBlockV1_spec name s :
  res (vercelBlockV1 o name s) = Val tt
  /\ post (vercelBlockV1 o name s) = s
  /\ Forall (fun e => collaborator e = Some HostA) (log (vercelBlockV1 o name s)).
Proof.
  unfold vercelBlockV1. run.
  destruct (vercel_project_add o), (vercel_deploy o); simpl;
    (split_and!; [done | done | by repeat constructor]).
Qed.

Lemma netlifyBlockV1_spec name s :
  res (netlifyBlockV1 o name s) = Val tt
  /\ post (netlifyBlockV1 o name s) = s
  /\ Forall (fun e => collaborator e = Some HostB) (log (netlifyBlockV1 o name s)).
Proof.
  unfold netlifyBlockV1. run.
  destruct (has_netlify o); simpl;
    [destruct (netlify_deploy o); simpl;
     (split_and!; [done | done | by repeat constructor])|].
  destruct (netlify_sites_create o); simpl;
    [destruct (netlify_link o); simpl|];
    destruct (netlify_deploy o); simpl;
    (split_and!; [done | done | by repeat constructor]).
Qed.

(** Up to the move, the earlier loop changes the directory at most: no
    record is read or written, nothing is renamed. *)
Lemma deployFolderV1_outcome s :
  (post (deployV1 s) = s \/ post (deployV1 s) = inFolder SOURCE_DIR folder s)
  /\ Forall (deployEventV1 here) (log (deployV1 s))
  /\ (chdir_project o = None -> prepareOk o = true ->
      res (deployV1 s) = Val tt /\ post (deployV1 s) = inFolder SOURCE_DIR folder s).
Proof.
  unfold deployFolderV1, deployEventV1.
  destruct (chdir_project o) as [c|].
  { simpl. split_and!; [by left | by repeat constructor; auto | done]. }
  assert (Hcd : chdir here None s
                = mkRun (Val tt) (inFolder SOURCE_DIR folder s) [Chdir here])
    by reflexivity.
  rewrite (bind_val _ _ _ _ _ _ Hcd). cbn [res post log].
  pose proof (gitPrepare_spec SOURCE_DIR o folder (inFolder SOURCE_DIR folder s))
    as (Hpost & Hprep).
  pose proof (gitPrepare_res SOURCE_DIR o folder (inFolder SOURCE_DIR folder s))
    as Hres.
  assert (Hprep' : Forall (fun e => e = Chdir here \/ prepareEvent here e
                                    \/ is_Some (collaborator e))
                     (log (gitPrepare SOURCE_DIR o folder
                             (inFolder SOURCE_DIR folder s)))).
  { eapply Forall_impl; [exact Hprep|]. auto. }
  destruct (res (gitPrepare SOURCE_DIR o folder (inFolder SOURCE_DIR folder s)))
    as [[]|e] eqn:Hg.
  2:{ rewrite (bind_res_exc _ _ _ _ Hg). cbn [res post log]. rewrite Hpost.
      split_and!; [by right | by constructor; auto |].
      intros _ Hok. rewrite Hok in Hres. discriminate. }
  rewrite (bind_res_val _ _ _ _ Hg). cbn [res post log]. rewrite Hpost.
  destruct (createGitHubRepo_spec o (baseName folder index)
              (inFolder SOURCE_DIR folder s)) as (name & l & Hrun & _ & Hl & _).
  rewrite (bind_val _ _ _ _ _ _ Hrun). cbn [res post log].
  assert (Hl' : Forall (fun e => e = Chdir here \/ prepareEvent here e
                                 \/ is_Some (collaborator e)) l).
  { eapply Forall_impl; [exact Hl|]. intros e (n & -> & _). right. right. by eexists. }
  destruct (vercelBlockV1_spec name (inFolder SOURCE_DIR folder s))
    as (Hvres & Hvpost & Hvlog).
  rewrite (bind_res_val _ _ _ _ Hvres). cbn [res post log]. rewrite Hvpost.
  destruct (netlifyBlockV1_spec name (inFolder SOURCE_DIR folder s))
    as (Hnres & Hnpost & Hnlog).
  rewrite Hnres, Hnpost.
  split_and!; [by right | | done].
  constructor; [by left|].
  repeat (apply Forall_app; split); try done.
  - eapply Forall_impl; [exact Hvlog|]. intros e He. right. right. eexists. exact He.
  - eapply Forall_impl; [exact Hnlog|]. intros e He. right. right. eexists. exact He.
Qed.

Lemma moveToDone_unfold s :
  moveToDone SOURCE_DIR o folder s
  = mkRun
      (res (moveLoop o 10 0 here (finalDest SOURCE_DIR o folder s)
              (atRoot SOURCE_DIR s)))
      (post (moveLoop o 10 0 here (finalDest SOURCE_DIR o folder s)
               (atRoot SOURCE_DIR s)))
      (Chdir SOURCE_DIR :: Sleep 1000 :: Chdir SOURCE_DIR
         :: log (moveLoop o 10 0 here (finalDest SOURCE_DIR o folder s)
                   (atRoot SOURCE_DIR s))).
Proof. reflexivity. Qed.

Lemma processFolderV1_unfold s :
  processV1 s =
  match res (deployV1 s) with
  | Exc _ =>
      mkRun (Val tt) (atRoot SOURCE_DIR (post (deployV1 s)))
        (log (deployV1 s) ++ [Console MsgCritical; Chdir SOURCE_DIR])
  | Val _ =>
      match res (moveToDone SOURCE_DIR o folder (post (deployV1 s))) with
      | Val _ =>
          mkRun (Val tt) (post (moveToDone SOURCE_DIR o folder (post (deployV1 s))))
            (log (deployV1 s)
               ++ log (moveToDone SOURCE_DIR o folder (post (deployV1 s))))
      | Exc _ =>
          mkRun (Val tt)
            (atRoot SOURCE_DIR
               (post (moveToDone SOURCE_DIR o folder (post (deployV1 s)))))
            ((log (deployV1 s)
                ++ log (moveToDone SOURCE_DIR o folder (post (deployV1 s))))
               ++ [Console MsgCritical; Chdir SOURCE_DIR])
      end
  end.
Proof.
  unfold processFolderV1.
  generalize (deployFolderV1 SOURCE_DIR o folder index)
    (moveToDone SOURCE_DIR o folder).
  intros d m. unfold try_catch.
  destruct (res (d s)) as [[]|e] eqn:Hd.
  - rewrite (bind_res_val _ _ _ _ Hd). simpl.
    destruct (res (m (post (d s)))) as [[]|e] eqn:Hm; simpl; rewrite ?Hm; reflexivity.
  - rewrite (bind_res_exc _ _ _ _ Hd). simpl. reflexivity.
Qed.

(** X15: the earlier loop ends every iteration in the batch root and never
    throws, whatever the external calls answer. *)
Theorem earlier_loop_restores_cwd s :
  res (processFolderV1 SOURCE_DIR o folder index s) = Val tt
  /\ cwd (post (processFolderV1 SOURCE_DIR o folder index s)) = SOURCE_DIR.
Proof.
  rewrite processFolderV1_unfold.
  destruct (res (deployV1 s)) as [[]|e]; [|done].
  rewrite moveToDone_unfold. cbn [res post log].
  destruct (moveLoop_outcome o here
              (finalDest SOURCE_DIR o folder (post (deployV1 s))) 10 0
              (atRoot SOURCE_DIR (post (deployV1 s))))
    as (_ & _ & [[Hpost _]|(sc & _ & Hres & Hpost & _)]).
  - destruct (res (moveLoop _ _ _ _ _ _)) as [[]|e]; [|done]. simpl. by rewrite Hpost.
  - rewrite Hres. simpl. by rewrite Hpost.
Qed.

(** X16: the earlier loop moves a folder whatever became of its deployments:
    when the folder can be entered and prepared and the first rename
    succeeds, the folder is at its destination afterwards, even if GitHub,
    Vercel and Netlify all failed; and no progress record is written. *)
Theorem earlier_loop_moves_regardless s sc :
  fs s !! here = Some sc ->
  chdir_project o = None ->
  prepareOk o = true ->
  rename_result o 0 = None ->
  fs (post (processV1 s)) !! here = None
  /\ fs (post (processV1 s)) !! finalDest SOURCE_DIR o folder s = Some sc
  /\ (forall d st, ~ In (WriteStatus d st) (log (processV1 s))).
Proof.
  intros Hsc Hcd Hok Hrename.
  destruct (deployFolderV1_outcome s) as (_ & Hlog & Hgo).
  destruct (Hgo Hcd Hok) as (Hres & Hpost).
  rewrite processFolderV1_unfold, Hres, moveToDone_unfold, Hpost.
  cbn [res post log].
  rewrite (moveLoop_ok o here _ 9 0 (atRoot SOURCE_DIR (inFolder SOURCE_DIR folder s))
             sc Hsc Hrename).
  cbn [res post log fs moved atRoot inFolder].
  change (finalDest SOURCE_DIR o folder (inFolder SOURCE_DIR folder s))
    with (finalDest SOURCE_DIR o folder s).
  split_and!.
  - rewrite lookup_insert_ne by apply finalDest_ne_projectPath.
    apply lookup_delete_eq.
  - apply lookup_insert_eq.
  - intros d st Hin. rewrite Forall_forall in Hlog.
    apply in_app_or in Hin as [Hin|Hin].
    + apply list_elem_of_In, Hlog in Hin.
      destruct Hin as [?|[[?|[?|[?|?]]]|[stage Hc]]]; discriminate.
    + repeat (destruct Hin as [Hin|Hin]; [discriminate|]). by destruct Hin.
Qed.

End EarlierLoop.

Lemma earlier_loop_moves_regardless_witness :
  let r := processFolderV1 "/work" hostsDown "My Cool App" 0 demoState in
  fs (post r) !! "/work/My Cool App" = None
  /\ fs (post r) !! "/work/upload done/My Cool App" = Some Absent
  /\ (forall d st, ~ In (WriteStatus d st) (log r)).
Proof.
  exact (earlier_loop_moves_regardless "/work" hostsDown "My Cool App" 0 demoState
           Absent eq_refl eq_refl eq_refl eq_refl).
Defined.
